(** * Gas Town: worker-lifecycle and data-plane control layer

    A shallow embedding of the parts of the Go sources that the
    specification's testable properties speak about, followed by the
    theorems that settle them:

    - [internal/doltserver/doltserver.go]: branch-name validation and the
      per-polecat branch creation, merge and deletion, the metadata
      reconciler and its sweep over all databases, the listing, creation,
      discovery and migration of rig databases, the detection of the running
      server, the stale-lock cleanup and the connection-capacity check;
    - [internal/doctor/migration_check.go]: the tool-version gate;
    - [internal/cmd/patrol_step_drift.go]: the step-drift detector and the
      nudging of drifting polecats;
    - [internal/cmd/crew.go]: the rig of the working directory;
    - [internal/config/cost_tier.go]: the role-cost tier policy;
    - [internal/session]: the session names;
    - the polecat health supervisor, whose implementation is not part of the
      sources at hand (only its tests are) and is modelled from the
      specification.

    Part II settles the testable properties of the specification; Part III
    proves further properties read off the code.

    Go values are modelled as follows.  A Go [string] is a sequence of bytes:
    [string] (a list of [ascii], one per byte).  A Go [int] is a 64-bit
    integer: [Z] with the wrap-around written out where arithmetic can
    overflow.  A Go [float64] is an IEEE-754 binary64: Rocq's primitive
    [float].  A Go [map] is a [gmap], wrapped in [option] where the code
    distinguishes the nil map.  Sub-processes, the file system and the
    [encoding/json] codec are the environment: they appear as explicit
    state or as parameters of a [Section]. *)

From Stdlib Require Import ZArith QArith Qround String Ascii List Bool Lia Floats.
From Stdlib Require Import DecimalString.
From stdpp Require Import gmap strings list sorting.

Import ListNotations.
Local Open Scope string_scope.
Local Open Scope Z_scope.

(** ** Part I: the embedding *)

(** *** Go's [strings], [strconv] and [fmt] helpers used by the sources *)

Module GoStrings.

Definition byte_of (c : ascii) : Z := Z.of_N (N_of_ascii c).

Definition bytes (l : list Z) : string :=
  string_of_list_ascii (map (fun z => ascii_of_N (Z.to_N z)) l).

(** The UTF-8 encodings of the runes for which [unicode.IsSpace] holds
    (the White_Space property): U+0009..U+000D, U+0020, U+0085, U+00A0,
    U+1680, U+2000..U+200A, U+2028, U+2029, U+202F, U+205F, U+3000.  A
    lead byte of UTF-8 is never a continuation byte, so one of these byte
    sequences occurring anywhere in a string is decoded as that rune. *)
Definition space_encodings : list (list Z) :=
  [ [9]; [10]; [11]; [12]; [13]; [32];
    [194; 133]; [194; 160];
    [225; 154; 128];
    [226; 128; 128]; [226; 128; 129]; [226; 128; 130]; [226; 128; 131];
    [226; 128; 132]; [226; 128; 133]; [226; 128; 134]; [226; 128; 135];
    [226; 128; 136]; [226; 128; 137]; [226; 128; 138];
    [226; 128; 168]; [226; 128; 169]; [226; 128; 175];
    [226; 129; 159];
    [227; 128; 128] ].

Fixpoint has_prefix (p : list Z) (s : string) : bool :=
  match p, s with
  | [], _ => true
  | b :: p', String c s' => (byte_of c =? b) && has_prefix p' s'
  | _ :: _, EmptyString => false
  end.

(** Width in bytes of the white-space rune [s] starts with; 0 if none. *)
Definition space_width_in (encs : list (list Z)) (s : string) : nat :=
  match find (fun p => has_prefix p s) encs with
  | Some p => length p
  | None => 0%nat
  end.

Definition space_width : string -> nat := space_width_in space_encodings.

Definition flush (cur : string) : list string :=
  match cur with
  | EmptyString => []
  | _ => [String.rev cur]
  end.

(** [strings.Fields]: the maximal runs of non-space runes.  [skip] counts
    the remaining bytes of a white-space rune being passed over and [cur]
    holds the current field, reversed. *)
Fixpoint fields_go (skip : nat) (cur : string) (s : string) : list string :=
  match s with
  | EmptyString => flush cur
  | String c s' =>
      match skip with
      | S k => fields_go k cur s'
      | O =>
          match space_width s with
          | O => fields_go O (String c cur) s'
          | S k => flush cur ++ fields_go k EmptyString s'
          end
      end
  end.

Definition Fields (s : string) : list string := fields_go O EmptyString s.

(** [strings.TrimSpace]: leading and trailing white-space runes removed. *)
Fixpoint trim_left_go (encs : list (list Z)) (skip : nat) (s : string) : string :=
  match s with
  | EmptyString => EmptyString
  | String c s' =>
      match skip with
      | S k => trim_left_go encs k s'
      | O =>
          match space_width_in encs s with
          | O => s
          | S k => trim_left_go encs k s'
          end
      end
  end.

Definition TrimSpace (s : string) : string :=
  String.rev
    (trim_left_go (map (@rev Z) space_encodings) O
       (String.rev (trim_left_go space_encodings O s))).

(** [strings.Split(s, sep)] for a one-byte separator: never empty. *)
Fixpoint split_go (sep : ascii) (cur : string) (s : string) : list string :=
  match s with
  | EmptyString => [String.rev cur]
  | String c s' =>
      if Ascii.eqb c sep then String.rev cur :: split_go sep EmptyString s'
      else split_go sep (String c cur) s'
  end.

Definition Split (s : string) (sep : ascii) : list string :=
  split_go sep EmptyString s.

Definition newline : string := String "010"%char EmptyString.

(** [strings.HasPrefix]. *)
Definition HasPrefix (s p : string) : bool := String.prefix p s.

(** [strings.Contains]. *)
Fixpoint Contains (s sub : string) : bool :=
  String.prefix sub s
  || match s with
     | EmptyString => false
     | String _ s' => Contains s' sub
     end.

(** Decimal digits. *)
Definition digit (c : ascii) : option Z :=
  let n := byte_of c in
  if (48 <=? n) && (n <=? 57) then Some (n - 48) else None.

(** The longest run of decimal digits at the head of [s]: its value, its
    length and what follows it. *)
Fixpoint digits_go (acc : Z) (n : nat) (s : string) : Z * nat * string :=
  match s with
  | EmptyString => (acc, n, EmptyString)
  | String c s' =>
      match digit c with
      | Some d => digits_go (10 * acc + d) (S n) s'
      | None => (acc, n, s)
      end
  end.

(** An optional sign, as [fmt]'s scanner and [strconv] accept it. *)
Definition sign_go (s : string) : bool * string :=
  match s with
  | String "-" s' => (true, s')
  | String "+" s' => (false, s')
  | _ => (false, s)
  end.

Definition min_int64 : Z := - 2 ^ 63.
Definition max_int64 : Z := 2 ^ 63 - 1.
Definition in_int64 (z : Z) : bool := (min_int64 <=? z) && (z <=? max_int64).

(** Two's-complement wrap-around of 64-bit [int] arithmetic. *)
Definition wrap64 (z : Z) : Z := (z + 2 ^ 63) mod 2 ^ 64 - 2 ^ 63.

(** What [fmt.Sscanf(s, "%d", &v)] stores into [v], if anything: an
    optional sign and the longest run of decimal digits that follows
    (at least one), read by [strconv.ParseInt(tok, 10, 64)]; what comes
    after the digits is left unread.  [None] when the scan fails (no
    digit, or a value outside int64): [v] is then left as it was.  The
    input holds no white space here (it is a piece of a field of
    [Fields]), so the scanner's [SkipSpace] has nothing to skip. *)
Definition scan_d (s : string) : option Z :=
  let '(neg, s1) := sign_go s in
  let '(v, n, _) := digits_go 0 O s1 in
  match n with
  | O => None
  | S _ =>
      let z := if neg then - v else v in
      if in_int64 z then Some z else None
  end.

(** [strconv.Atoi]: the whole string must be an optionally signed run of
    decimal digits within the range of [int]. *)
Definition Atoi (s : string) : option Z :=
  let '(neg, s1) := sign_go s in
  let '(v, n, rest) := digits_go 0 O s1 in
  match n, rest with
  | S _, EmptyString =>
      let z := if neg then - v else v in
      if in_int64 z then Some z else None
  | _, _ => None
  end.

End GoStrings.

(** *** Sub-processes *)

(** Every SQL statement, version query and multiplexer probe is a
    sub-process ([exec.Command]).  The environment decides what a command
    prints and whether it fails, possibly depending on the commands run
    before it; the embedding threads the list of commands run so far (the
    trace, oldest first).  A deadline ([context.WithTimeout]) that expires
    shows as a failing command. *)
Module Proc.

Record Cmd : Type := mkCmd {
  cmd_dir : string;
  cmd_name : string;
  cmd_args : list string
}.

Record Result : Type := mkResult {
  res_output : string;
  res_err : option string
}.

Definition Runner : Type := list Cmd -> Cmd -> Result.

Definition Trace : Type := list Cmd.

(** [cmd.CombinedOutput()]. *)
Definition CombinedOutput (run : Runner) (c : Cmd) (tr : Trace) : Trace * Result :=
  ((tr ++ [c])%list, run tr c).

End Proc.

(** Go [error] values.  [Errorf format args] stands for
    [fmt.Errorf(format, ...)] with its string operands in order, [Wrapf] for
    one whose format has a [%w], with the error given to it; [ExitError] is
    the error a library call or a failed sub-process returned. *)
Inductive error : Type :=
| ExitError (msg : string)
| Errorf (format : string) (args : list string)
| Wrapf (format : string) (args : list string) (wrapped : error).

(** [filepath.Join] of a directory and one element.  [filepath.Clean] is
    not applied: town roots, rig names and the fixed elements joined below
    are taken to be clean already. *)
Definition Join (dir elem : string) : string := dir ++ "/" ++ elem.

(** *** [internal/doltserver]: configuration, branches, capacity *)

Module Doltserver.
Import GoStrings Proc.

Definition DefaultPort : Z := 3307.
Definition DefaultUser : string := "root".
Definition DefaultMaxConnections : Z := 50.

Record Config : Type := mkConfig {
  TownRoot : string;
  Port : Z;
  User : string;
  DataDir : string;
  LogFile : string;
  PidFile : string;
  MaxConnections : Z
}.

Definition DefaultConfig (townRoot : string) : Config :=
  let daemonDir := Join townRoot "daemon" in
  {| TownRoot := townRoot;
     Port := DefaultPort;
     User := DefaultUser;
     DataDir := Join townRoot ".dolt-data";
     LogFile := Join daemonDir "dolt.log";
     PidFile := Join daemonDir "dolt.pid";
     MaxConnections := DefaultMaxConnections |}.

(** [doltSQL]: one [dolt sql -q "USE <db>; <query>"] sub-process run from
    the data directory. *)
Definition doltSQL (run : Runner) (townRoot rigDB query : string) (tr : Trace)
  : Trace * option error :=
  let config := DefaultConfig townRoot in
  let fullQuery := "USE " ++ rigDB ++ "; " ++ query in
  let cmd := mkCmd (DataDir config) "dolt" ["sql"; "-q"; fullQuery] in
  let '(tr', r) := CombinedOutput run cmd tr in
  match res_err r with
  | Some e =>
      (tr', Some (Wrapf "%w (output: %s)" [TrimSpace (res_output r)] (ExitError e)))
  | None => (tr', None)
  end.

(** One byte of the class [[a-zA-Z0-9._/-]]. *)
Definition validBranchByte (c : ascii) : bool :=
  let n := byte_of c in
  ((97 <=? n) && (n <=? 122))
  || ((65 <=? n) && (n <=? 90))
  || ((48 <=? n) && (n <=? 57))
  || (n =? 46) || (n =? 95) || (n =? 47) || (n =? 45).

(** [validBranchNameRe.MatchString] for [^[a-zA-Z0-9._/-]+$]: in Go [$]
    matches at the end of the text only, and a byte outside ASCII starts a
    rune (or is an invalid byte, read as U+FFFD) that is not in the class,
    so the match holds exactly when there is at least one byte and every
    byte is in the class. *)
Definition validBranchNameRe_MatchString (s : string) : bool :=
  match s with
  | EmptyString => false
  | _ => forallb validBranchByte (list_ascii_of_string s)
  end.

Definition validateBranchName (branchName : string) : option error :=
  if String.eqb branchName "" then
    Some (Errorf "branch name must not be empty" [])
  else if negb (validBranchNameRe_MatchString branchName) then
    Some (Errorf "branch name %q contains invalid characters" [branchName])
  else None.

Definition CreatePolecatBranch (run : Runner) (townRoot rigDB branchName : string)
    (tr : Trace) : Trace * option error :=
  match validateBranchName branchName with
  | Some err => (tr, Some (Wrapf "creating Dolt branch in %s: %w" [rigDB] err))
  | None =>
      let query := "CALL DOLT_BRANCH('" ++ branchName ++ "')" in
      let '(tr', r) := doltSQL run townRoot rigDB query tr in
      match r with
      | Some err =>
          (tr', Some (Wrapf "creating Dolt branch %s in %s: %w" [branchName; rigDB] err))
      | None => (tr', None)
      end
  end.

(** [GetActiveConnectionCount]: the count printed by the server, 0 and an
    error when the query fails or its output cannot be read. *)
Definition GetActiveConnectionCount (run : Runner) (townRoot : string) (tr : Trace)
  : Trace * (Z * option error) :=
  let config := DefaultConfig townRoot in
  let cmd := mkCmd (DataDir config) "dolt"
               ["sql"; "-r"; "csv"; "-q";
                "SELECT COUNT(*) AS cnt FROM information_schema.PROCESSLIST"] in
  let '(tr', r) := CombinedOutput run cmd tr in
  match res_err r with
  | Some e =>
      (tr', (0, Some (Wrapf "querying connection count: %w (output: %s)"
                        [TrimSpace (res_output r)] (ExitError e))))
  | None =>
      let lines := Split (TrimSpace (res_output r)) "010"%char in
      if (length lines <? 2)%nat then
        (tr', (0, Some (Errorf "unexpected output from connection count query: %s"
                          [res_output r])))
      else
        let lastLine := List.last lines "" in
        match Atoi (TrimSpace lastLine) with
        | None =>
            (tr', (0, Some (Wrapf "parsing connection count %q: %w" [lastLine]
                              (ExitError "strconv.Atoi"))))
        | Some count => (tr', (count, None))
        end
  end.

(** The connection limit the check works with: the configured one, or
    Dolt's own default when none is configured. *)
Definition effectiveMaxConn (maxConn : Z) : Z :=
  if maxConn <=? 0 then 1000 else maxConn.

(** [threshold := (maxConn * 80) / 100], at least 1.  Go's [/] truncates
    towards zero and the product wraps around at 64 bits. *)
Definition capacityThreshold (maxConn : Z) : Z :=
  let threshold := Z.quot (wrap64 (maxConn * 80)) 100 in
  if threshold <? 1 then 1 else threshold.

Definition HasConnectionCapacity (run : Runner) (townRoot : string) (tr : Trace)
  : Trace * (bool * Z * option error) :=
  let config := DefaultConfig townRoot in
  let maxConn := effectiveMaxConn (MaxConnections config) in
  let '(tr', (active, err)) := GetActiveConnectionCount run townRoot tr in
  match err with
  | Some e => (tr', (true, 0, Some e))
  | None => (tr', (active <? capacityThreshold maxConn, active, None))
  end.

(** **** The file system seen by the metadata reconciler

    Directories and regular files by path.  Permissions are not modelled:
    an operation fails only where the shape of the tree makes it fail. *)
Record FS : Type := mkFS {
  fs_dirs : gset string;
  fs_files : gmap string string
}.

(** [os.Stat(p)] returns no error. *)
Definition os_Stat_ok (fs : FS) (p : string) : bool :=
  bool_decide (p ∈ fs_dirs fs) || bool_decide (is_Some (fs_files fs !! p)).

(** The path itself and every proper prefix of it that ends before a
    separator: what [os.MkdirAll] creates.  [acc] is the part read so
    far, reversed. *)
Fixpoint ancestors_go (acc : string) (s : string) : list string :=
  match s with
  | EmptyString => [String.rev acc]
  | String c s' =>
      (if Ascii.eqb c "/"%char && negb (String.eqb acc "") then [String.rev acc] else [])
        ++ ancestors_go (String c acc) s'
  end%list.

Definition ancestors (p : string) : list string := ancestors_go EmptyString p.

(** [os.MkdirAll(p, 0755)]: fails when [p] or one of its ancestors is a
    regular file, and otherwise makes all of them directories. *)
Definition os_MkdirAll (fs : FS) (p : string) : FS + error :=
  if existsb (fun a => bool_decide (is_Some (fs_files fs !! a))) (ancestors p)
  then inr (ExitError "mkdir: not a directory")
  else inl {| fs_dirs := fs_dirs fs ∪ list_to_set (ancestors p);
              fs_files := fs_files fs |}.

(** [os.ReadFile(p)]: the bytes of a regular file. *)
Definition os_ReadFile (fs : FS) (p : string) : option string := fs_files fs !! p.

(** Modelled from the spec: [util.AtomicWriteFile] is not among the
    sources.  The specification describes it as a temp-file-plus-rename
    write: on success the file holds exactly the new bytes, on failure
    (here: the target is a directory) it is left as it was. *)
Definition AtomicWriteFile (fs : FS) (p data : string) : FS + error :=
  if bool_decide (p ∈ fs_dirs fs)
  then inr (ExitError "rename: is a directory")
  else inl {| fs_dirs := fs_dirs fs; fs_files := <[p := data]> (fs_files fs) |}.

Definition FindRigBeadsDir (fs : FS) (townRoot rigName : string) : string :=
  if String.eqb rigName "hq" then Join townRoot ".beads"
  else
    let mayorBeads := Join (Join (Join (Join townRoot rigName) "mayor") "rig") ".beads" in
    if os_Stat_ok fs mayorBeads then mayorBeads
    else
      let rigBeads := Join (Join townRoot rigName) ".beads" in
      if os_Stat_ok fs rigBeads then rigBeads
      else mayorBeads.

(** How a Go call ends: it returns, or the goroutine panics. *)
Inductive outcome (A : Type) : Type :=
| Returned (a : A)
| Panicked (msg : string).
Arguments Returned {A} a.
Arguments Panicked {A} msg.

(** What [encoding/json] makes of a text when asked to decode it into a
    [map[string]interface{}]: the text is checked as a whole first, so a
    text that is not valid JSON changes nothing; a valid text that is
    neither an object nor [null] is a type error and changes nothing; the
    literal [null] sets the map to nil; an object stores its members
    (with an error when a member could not be converted). *)
Inductive decoded (value : Type) : Type :=
| DecSyntaxError
| DecTypeError
| DecNull
| DecObject (m : gmap string value) (err : option error).
Arguments DecSyntaxError {value}.
Arguments DecTypeError {value}.
Arguments DecNull {value}.
Arguments DecObject {value} m err.

Section Metadata.
(** The [encoding/json] codec is a parameter: [value] is what an
    [interface{}] decoded from JSON can hold, [VString] puts a Go string
    into it, [json_decode] reads a text and [json_MarshalIndent] prints
    a map (keys sorted, two-space indent). *)
Context {value : Type}.
Variable VString : string -> value.
Variable json_decode : string -> decoded value.
Variable json_MarshalIndent : gmap string value -> string + error.

(** [json.Unmarshal(data, &existing)]: the map afterwards ([None] is the
    nil map) and the error. *)
Definition json_Unmarshal (data : string) (existing : option (gmap string value))
  : option (gmap string value) * option error :=
  match json_decode data with
  | DecSyntaxError => (existing, Some (ExitError "json: syntax error"))
  | DecTypeError => (existing, Some (ExitError "json: cannot unmarshal into map"))
  | DecNull => (None, None)
  | DecObject m err => (Some (m ∪ default ∅ existing), err)
  end.

(** The four server fields and the default export path, as
    [EnsureMetadata] sets them on the loaded map. *)
Definition setDoltFields (rigName : string) (existing : gmap string value)
  : gmap string value :=
  let existing := <["database" := VString "dolt"]> existing in
  let existing := <["backend" := VString "dolt"]> existing in
  let existing := <["dolt_mode" := VString "server"]> existing in
  let existing := <["dolt_database" := VString rigName]> existing in
  match existing !! "jsonl_export" with
  | Some _ => existing
  | None => <["jsonl_export" := VString "issues.jsonl"]> existing
  end.

(** The map [existing] after the load step: empty, then filled from
    the file when it can be read (the error of [Unmarshal] is dropped:
    best effort).  [None] is the nil map. *)
Definition loadExisting (fs : FS) (metadataPath : string)
  : option (gmap string value) :=
  match os_ReadFile fs metadataPath with
  | Some data => fst (json_Unmarshal data (Some ∅))
  | None => Some ∅
  end.

(** [EnsureMetadata].  The per-path mutex only orders concurrent calls;
    one call is the sequence below.  Storing into the nil map panics. *)
Definition EnsureMetadata (fs : FS) (townRoot rigName : string)
  : FS * outcome (option error) :=
  let beadsDir := FindRigBeadsDir fs townRoot rigName in
  if String.eqb beadsDir "" then
    (fs, Returned (Some (Errorf "could not find .beads directory for rig %q" [rigName])))
  else
    let metadataPath := Join beadsDir "metadata.json" in
    match os_MkdirAll fs beadsDir with
    | inr err => (fs, Returned (Some (Wrapf "creating beads directory: %w" [] err)))
    | inl fs1 =>
        match loadExisting fs1 metadataPath with
        | None => (fs1, Panicked "assignment to entry in nil map")
        | Some existing =>
            match json_MarshalIndent (setDoltFields rigName existing) with
            | inr err => (fs1, Returned (Some (Wrapf "marshaling metadata: %w" [] err)))
            | inl data =>
                match AtomicWriteFile fs1 metadataPath (data ++ newline) with
                | inr err =>
                    (fs1, Returned (Some (Wrapf "writing metadata.json: %w" [] err)))
                | inl fs2 => (fs2, Returned None)
                end
            end
        end
    end.

(** The path of the record [EnsureMetadata] works on, and the record it
    is about to print there (when the load step leaves a map). *)
Definition metadataPath (fs : FS) (townRoot rigName : string) : string :=
  Join (FindRigBeadsDir fs townRoot rigName) "metadata.json".

Definition recordToWrite (fs : FS) (townRoot rigName : string)
  : option (gmap string value) :=
  setDoltFields rigName <$> loadExisting fs (metadataPath fs townRoot rigName).

(** The codec reads back what it printed for [m]. *)
Definition json_roundtrips (m : gmap string value) : Prop :=
  forall out, json_MarshalIndent m = inl out ->
              json_decode (out ++ newline) = DecObject m None.

End Metadata.

(** **** Discovery of migratable databases *)

Record Migration : Type := mkMigration {
  RigName : string;
  SourcePath : string;
  TargetPath : string
}.

(** What [os.Stat] can answer: no error, an error for which
    [os.IsNotExist] holds, or another error (permission, I/O). *)
Inductive StatResult : Type := StatOk | StatNotExist | StatOtherError.

Record DirEntry : Type := mkDirEntry {
  entry_Name : string;
  entry_IsDir : bool
}.

Section Migratable.
(** [FindMigratableDatabases] only reads the file system: [os_Stat] and
    [os_ReadDir] ([None] on error) are what it reads. *)
Variable os_Stat : string -> StatResult.
Variable os_ReadDir : string -> option (list DirEntry).

(** Modelled from the spec: [beads.ResolveBeadsDir] is not among the
    sources.  Given a work directory it returns the store directory,
    following one hop of the redirect file; it is a parameter here. *)
Variable ResolveBeadsDir : string -> string.

(** The body shared by the town-level check and the loop over rigs: the
    source must hold [.dolt] and the stat of the target's [.dolt] must
    fail with a not-exist error. *)
Definition migrationsFor (config : Config) (rigName source : string) : list Migration :=
  match os_Stat (Join source ".dolt") with
  | StatOk =>
      let targetDir := Join (DataDir config) rigName in
      match os_Stat (Join targetDir ".dolt") with
      | StatNotExist => [mkMigration rigName source targetDir]
      | _ => []
      end
  | _ => []
  end.

Definition FindMigratableDatabases (townRoot : string) : list Migration :=
  let config := DefaultConfig townRoot in
  let townBeadsDir := ResolveBeadsDir townRoot in
  let townSource := Join (Join townBeadsDir "dolt") "beads" in
  let migrations := migrationsFor config "hq" townSource in
  match os_ReadDir townRoot with
  | None => migrations
  | Some entries =>
      (migrations ++
       flat_map (fun entry =>
         if negb (entry_IsDir entry) || HasPrefix (entry_Name entry) "." then []
         else
           let rigName := entry_Name entry in
           let resolvedBeadsDir := ResolveBeadsDir (Join townRoot rigName) in
           let rigSource := Join (Join resolvedBeadsDir "dolt") "beads" in
           migrationsFor config rigName rigSource) entries)%list
  end.

End Migratable.

End Doltserver.

(** *** [internal/doctor]: the tool-version gate *)

Module Doctor.
Import GoStrings.

(** [bdSupportsDolt]: [major] and [minor] start at 0 and keep that value
    when [Sscanf] fails. *)
Definition bdSupportsDolt (versionStr : string) : bool :=
  let parts := Fields versionStr in
  if (length parts <? 3)%nat then false
  else
    let version := nth 2 parts "" in
    let vParts := Split version "."%char in
    if (length vParts <? 2)%nat then false
    else
      let major := default 0 (scan_d (nth 0 vParts "")) in
      let minor := default 0 (scan_d (nth 1 vParts "")) in
      (major >? 0) || ((major =? 0) && (minor >=? 40)).

End Doctor.

(** *** [internal/cmd]: the step-drift detector *)

Module StepDrift.
Import GoStrings.

(** [float64(n)] for an [int]: the nearest binary64, ties to even. *)
Definition float64_of_int (n : Z) : float :=
  SF2Prim (binary_normalize prec emax n 0 false).

Definition stepsOrder : list string :=
  [ "Load context"; "Set up working branch"; "Verify tests pass"; "Implement";
    "Self-review"; "Run tests"; "Clean up"; "Prepare work"; "Submit work" ].

(** Default of the [--threshold] flag, in minutes. *)
Definition defaultThreshold : Z := 5.

Record StepDriftResult : Type := mkResult {
  Rig : string;
  Name : string;
  Bead : string;
  Title : string;
  State : string;
  AgeMin : float;
  Closed : Z;
  Total : Z;
  Drifting : bool;
  Nudged : bool;
  Branch : string;
  Error : string
}.

Record polecatInfo : Type := mkPolecat {
  rig : string;
  name : string;
  state : string;
  bead : string
}.

Section Detector.
(** The environment of one run of the detector: the town root found
    from the working directory ([None] on error), the [--rig] flag, the
    polecats listed by [gt], and the answers of the sub-processes each
    helper runs ([dolt], [bd], [tmux]). *)
Variable FindFromCwd : option string.
Variable stepDriftRig : string.
Variable listAllPolecats : list polecatInfo.
Variable findDoltBranch : string -> string -> string -> string.
Variable findWispID : string -> string.
Variable readStepStatus : string -> string -> gmap string bool.
Variable sessionAgeMinutes : string -> string -> float.
Variable fetchBeadTitle : string -> string.

(** [strings.ToLower] (Unicode-aware) and the conversion [int(f)] of a
    float, whose result Go leaves to the implementation when [f] is out
    of range. *)
Variable ToLower : string -> string.
Variable int_of_float64 : float -> Z.

(** The order in which [range statuses] visits the map while looking
    for a given step: Go leaves it unspecified, so it is a parameter. *)
Variable rangeOrder : string -> gmap string bool -> list (string * bool).

(** [matchStep]: the status of the first key visited that contains the
    canonical name, case-insensitively. *)
Definition matchStep (stepName : string) (statuses : gmap string bool) : bool :=
  let lower := ToLower stepName in
  match find (fun kv => Contains (ToLower (fst kv)) lower) (rangeOrder stepName statuses) with
  | Some (_, closed) => closed
  | None => false
  end.

Definition countClosedSteps (statuses : gmap string bool) : Z :=
  fold_left (fun count step => if matchStep step statuses then count + 1 else count)
    stepsOrder 0.

(** [roundTo1]: [float64(int(f*10)) / 10]. *)
Definition roundTo1 (f : float) : float :=
  (float64_of_int (int_of_float64 (f * 10)) / 10)%float.

(** The body of the loop of [checkStepDrift] for one polecat. *)
Definition driftResult (townRoot : string) (thresholdMinutes : Z) (p : polecatInfo)
  : StepDriftResult :=
  let branch := findDoltBranch townRoot (rig p) (name p) in
  let wispID := findWispID (bead p) in
  let statuses := readStepStatus wispID branch in
  let closed := countClosedSteps statuses in
  let age := sessionAgeMinutes (rig p) (name p) in
  let errMsg :=
    if String.eqb branch "" && negb (String.eqb (bead p) "") then
      "could not find Dolt branch"
    else if String.eqb wispID "" && negb (String.eqb (bead p) "") then
      "could not find attached molecule"
    else "" in
  {| Rig := rig p;
     Name := name p;
     Bead := bead p;
     Title := fetchBeadTitle (bead p);
     State := state p;
     AgeMin := roundTo1 age;
     Closed := closed;
     Total := Z.of_nat (length stepsOrder);
     Drifting := PrimFloat.leb (float64_of_int thresholdMinutes) age && (closed =? 0);
     Nudged := false;
     Branch := branch;
     Error := errMsg |}.

Definition checkStepDrift (thresholdMinutes : Z) : list StepDriftResult :=
  match FindFromCwd with
  | None => []
  | Some townRoot =>
      let polecats :=
        if negb (String.eqb stepDriftRig "") then
          List.filter (fun p => String.eqb (rig p) stepDriftRig) listAllPolecats
        else listAllPolecats in
      map (driftResult townRoot thresholdMinutes) polecats
  end.

End Detector.

End StepDrift.

(** *** [internal/config]: the role-cost tier policy *)

Module CostTier.

Definition TierStandard : string := "standard".
Definition TierEconomy : string := "economy".
Definition TierBudget : string := "budget".

Definition ValidCostTiers : list string := [TierStandard; TierEconomy; TierBudget].

Definition IsValidTier (tier : string) : bool :=
  String.eqb tier TierStandard || String.eqb tier TierEconomy || String.eqb tier TierBudget.

(** The fields of [RuntimeConfig] that the presets set. *)
Record RuntimeConfig : Type := mkRuntimeConfig {
  Command : string;
  Args : list string
}.

(** The fields of [TownSettings] that the tier policy reads and writes.
    A map field is [None] when the Go map is nil. *)
Record TownSettings : Type := mkTownSettings {
  RoleAgents : option (gmap string string);
  Agents : option (gmap string RuntimeConfig);
  CostTier : string
}.

(** [CostTierRoleAgents]: [None] is the nil map returned for an unknown
    tier. *)
Definition CostTierRoleAgents (tier : string) : option (gmap string string) :=
  if String.eqb tier TierStandard then Some ∅
  else if String.eqb tier TierEconomy then
    Some (list_to_map
            [ ("mayor", "claude-sonnet"); ("deacon", "claude-haiku");
              ("witness", "claude-sonnet"); ("refinery", "claude-sonnet") ])
  else if String.eqb tier TierBudget then
    Some (list_to_map
            [ ("mayor", "claude-sonnet"); ("deacon", "claude-haiku");
              ("witness", "claude-haiku"); ("refinery", "claude-haiku");
              ("polecat", "claude-sonnet"); ("crew", "claude-sonnet") ])
  else None.

Definition claudeSonnetPreset : RuntimeConfig :=
  {| Command := "claude";
     Args := ["--dangerously-skip-permissions"; "--model"; "sonnet"] |}.

Definition claudeHaikuPreset : RuntimeConfig :=
  {| Command := "claude";
     Args := ["--dangerously-skip-permissions"; "--model"; "haiku"] |}.

Definition CostTierAgents (tier : string) : option (gmap string RuntimeConfig) :=
  if String.eqb tier TierStandard then Some ∅
  else if String.eqb tier TierEconomy || String.eqb tier TierBudget then
    Some (list_to_map
            [ ("claude-sonnet", claudeSonnetPreset); ("claude-haiku", claudeHaikuPreset) ])
  else None.

(** [strings.Join(elems, sep)]. *)
Fixpoint strings_Join (elems : list string) (sep : string) : string :=
  match elems with
  | [] => ""
  | [e] => e
  | e :: rest => e ++ sep ++ strings_Join rest sep
  end.

(** [ApplyCostTier]: the settings afterwards and the error returned. *)
Definition ApplyCostTier (settings : TownSettings) (tier : string)
  : TownSettings * option error :=
  match CostTierRoleAgents tier with
  | None =>
      (settings,
       Some (Errorf "invalid cost tier: %q (valid: %s)"
               [tier; strings_Join ValidCostTiers ", "]))
  | Some roleAgents =>
      let agents := CostTierAgents tier in
      let existingAgents := default ∅ (Agents settings) in
      let newAgents :=
        if String.eqb tier TierStandard then
          delete "claude-haiku" (delete "claude-sonnet" existingAgents)
        else default ∅ agents ∪ existingAgents in
      ({| RoleAgents := Some roleAgents;
          Agents := Some newAgents;
          CostTier := tier |}, None)
  end.

(** [len(m)] and [m[k]] for a Go [map[string]string] that may be nil. *)
Definition go_len (m : option (gmap string string)) : nat :=
  match m with
  | None => 0
  | Some g => size g
  end.

Definition go_index (m : option (gmap string string)) (k : string) : string :=
  match m with
  | None => ""
  | Some g => default "" (g !! k)
  end.

(** [roleAgentsMatch]: the loop returns false at the first entry of [a]
    that [b] does not map to the same agent. *)
Definition roleAgentsMatch (a b : option (gmap string string)) : bool :=
  if (go_len a =? 0)%nat && (go_len b =? 0)%nat then true
  else if negb (go_len a =? go_len b)%nat then false
  else forallb (fun kv => String.eqb (go_index b (fst kv)) (snd kv))
         (map_to_list (default ∅ a)).

Definition GetCurrentTier (settings : TownSettings) : string :=
  if negb (String.eqb (CostTier settings) "")
     && IsValidTier (CostTier settings)
     && roleAgentsMatch (RoleAgents settings) (CostTierRoleAgents (CostTier settings))
  then CostTier settings
  else
    match find (fun tierName =>
                  roleAgentsMatch (RoleAgents settings) (CostTierRoleAgents tierName))
            ValidCostTiers with
    | Some tierName => tierName
    | None => ""
    end.

End CostTier.

(** *** The polecat health supervisor *)

Module Daemon.

(** The fields of the polecat's agent issue that the supervisor reads.
    Times are in seconds. *)
Record AgentBead : Type := mkAgentBead {
  agent_state : string;
  description : string;
  updated_at : Z;
  hook_bead : string
}.

(** What one health check does that can be observed: the lines it logs
    and the restart it triggers. *)
Inductive Action : Type :=
| LogSpawningSkip
| LogSpawningGuardExpired
| LogCrashDetected
| TriggerRestart.

Definition spawningGrace : Z := 5 * 60.

(** [gt-<rig>-<name>]: the multiplexer session of a polecat. *)
Definition PolecatSessionName (rig name : string) : string :=
  "gt-" ++ rig ++ "-" ++ name.

(** Modelled from the spec: the crashed-check of the health supervisor
    (its step 4), whose code is not among the sources.  Probe the
    multiplexer session; when it exists the polecat is healthy, when it is
    missing log CRASH DETECTED and, subject to the capacity and quiesce
    rules ([mayRestart]), trigger a restart. *)
Definition crashedCheck (hasSession : string -> bool) (mayRestart : bool)
    (rig name : string) : list Action :=
  if hasSession (PolecatSessionName rig name) then []
  else LogCrashDetected :: (if mayRestart then [TriggerRestart] else []).

(** Modelled from the spec: [checkPolecatHealth] is not among the sources
    (only its tests are).  The specification's steps 2 to 5: the state is
    read from the [agent_state] column, never from the description; a
    spawning polecat updated at most five minutes ago is skipped; one
    updated longer ago has its guard logged as expired and falls through
    to the crashed-check, as does a working polecat; every other state
    means no action. *)
Definition checkPolecatHealth (now : Z) (hasSession : string -> bool) (mayRestart : bool)
    (rig name : string) (bead : AgentBead) : list Action :=
  if String.eqb (agent_state bead) "spawning" then
    if now - updated_at bead <=? spawningGrace then [LogSpawningSkip]
    else LogSpawningGuardExpired :: crashedCheck hasSession mayRestart rig name
  else if String.eqb (agent_state bead) "working" then
    crashedCheck hasSession mayRestart rig name
  else [].

End Daemon.

(** *** The properties in the specification's words *)

Module Spec.
Import GoStrings.

(** The bytes of the class [[A-Za-z0-9._/-]], written out. *)
Definition branch_alphabet : string :=
  "ABCDEFGHIJKLMNOPQRSTUVWXYZabcdefghijklmnopqrstuvwxyz0123456789._/-".

(** [B] is non-empty and matches [[A-Za-z0-9._/-]+]. *)
Definition valid_branch_name (B : string) : Prop :=
  B <> "" /\
  Forall (fun c => c ∈ list_ascii_of_string branch_alphabet) (list_ascii_of_string B).

#[global] Instance valid_branch_name_dec B : Decision (valid_branch_name B).
Proof. unfold valid_branch_name. apply _. Defined.


(** The record written over an empty or discarded one. *)
Definition default_record {value : Type} (VString : string -> value) (rigName : string)
  : gmap string value :=
  list_to_map
    [ ("database", VString "dolt"); ("backend", VString "dolt");
      ("dolt_mode", VString "server"); ("dolt_database", VString rigName);
      ("jsonl_export", VString "issues.jsonl") ].

(** Threshold = max(1, floor(0.80 x max_connections)). *)
Definition capacity_threshold (max_connections : Z) : Z :=
  Z.max 1 (Qfloor ((80 # 100) * inject_Z max_connections)).


(** Orders on (major, minor). *)
Definition componentwise_ge (a b : Z * Z) : Prop :=
  fst b <= fst a /\ snd b <= snd a.

Definition lexicographic_ge (a b : Z * Z) : Prop :=
  fst b < fst a \/ (fst a = fst b /\ snd b <= snd a).

(** A decimal numeral at the head of [s]: its value and what follows. *)
Definition numeral (s : string) : option (Z * string) :=
  match digits_go 0 O s with
  | (v, S _, rest) => Some (v, rest)
  | _ => None
  end.

(** The version string read by its stated form
    [bd version MAJOR.MINOR.PATCH ...]: MAJOR and MINOR, when the string
    has that form. *)
Definition stated_version (s : string) : option (Z * Z) :=
  if String.prefix "bd version " s then
    match numeral (String.substring 11 (String.length s - 11) s) with
    | Some (major, String "." s2) =>
        match numeral s2 with
        | Some (minor, String "." s3) =>
            match numeral s3 with
            | Some _ => Some (major, minor)
            | None => None
            end
        | _ => None
        end
    | _ => None
    end
  else None.

(** What the code reads from the third field: the integers that [%d]
    scans from the text before the first dot and from the text between
    the first and the second dot (0 when the scan fails); nothing when the
    field has no dot. *)
Definition scanned_version (field : string) : option (Z * Z) :=
  match Split field "."%char with
  | a :: b :: _ => Some (default 0 (scan_d a), default 0 (scan_d b))
  | _ => None
  end.

End Spec.

(** *** Sample environments, used to run the embedding on concrete inputs *)

Module Sample.
Import GoStrings Proc Doltserver.

(** A runner whose commands all succeed and print nothing. *)
Definition quiet_run : Runner := fun _ _ => mkResult "" None.

(** A server that reports [n] connections. *)
Definition counting_run (n : string) : Runner :=
  fun _ _ => mkResult ("cnt" ++ newline ++ n ++ newline) None.

(** A server that cannot be reached. *)
Definition failing_run : Runner := fun _ _ => mkResult "" (Some "exit status 1").

Definition dq : string := String "034"%char EmptyString.

(** A codec for records whose values are plain strings without characters
    that need escaping: the printer writes the members in key order with a
    two-space indent, the reader knows the texts listed in its table. *)
Definition key_le (a b : string * string) : Prop := String.le (fst a) (fst b).

#[global] Instance key_le_dec a b : Decision (key_le a b).
Proof. unfold key_le. apply _. Defined.

Definition print_member (kv : string * string) : string :=
  "  " ++ dq ++ fst kv ++ dq ++ ": " ++ dq ++ snd kv ++ dq.

Definition print_record (m : gmap string string) : string :=
  "{" ++ newline
  ++ CostTier.strings_Join (map print_member (merge_sort key_le (map_to_list m)))
       ("," ++ newline)
  ++ newline ++ "}".

Definition sample_MarshalIndent (m : gmap string string) : string + error :=
  inl (print_record m).

Definition table_decode (table : list (string * gmap string string)) (data : string)
  : decoded string :=
  match find (fun e => String.eqb (fst e) data) table with
  | Some e => DecObject (snd e) None
  | None => DecSyntaxError
  end.

(** Scenario B: the record of rig [hq] before the reconcile. *)
Definition scenarioB_text : string :=
  "{" ++ dq ++ "database" ++ dq ++ ": " ++ dq ++ "beads.db" ++ dq ++ ", "
  ++ dq ++ "custom_field" ++ dq ++ ": " ++ dq ++ "preserved" ++ dq ++ "}".

Definition scenarioB_record : gmap string string :=
  list_to_map [("database", "beads.db"); ("custom_field", "preserved")].

Definition scenarioB_result : gmap string string :=
  list_to_map
    [ ("backend", "dolt"); ("custom_field", "preserved"); ("database", "dolt");
      ("dolt_database", "hq"); ("dolt_mode", "server");
      ("jsonl_export", "issues.jsonl") ].

Definition hq_default : gmap string string := Spec.default_record id "hq".

Definition sample_decode : string -> decoded string :=
  table_decode
    [ (scenarioB_text, scenarioB_record);
      (print_record scenarioB_result ++ newline, scenarioB_result);
      (print_record hq_default ++ newline, hq_default) ].

(** A town whose [hq] store holds the record of scenario B, and one whose
    record is corrupt. *)
Definition town : string := "/town".

Definition scenarioB_fs : FS :=
  {| fs_dirs := {[ "/town"; "/town/.beads" ]};
     fs_files := {[ "/town/.beads/metadata.json" := scenarioB_text ]} |}.

Definition corrupt_fs : FS :=
  {| fs_dirs := {[ "/town"; "/town/.beads" ]};
     fs_files := {[ "/town/.beads/metadata.json" := "{not json" ]} |}.

(** A town with one legacy rig database and one rig already migrated. *)
Definition legacy_stat (p : string) : StatResult :=
  if existsb (String.eqb p)
       [ "/town/nexus/mayor/rig/.beads/dolt/beads/.dolt";
         "/town/already/.beads/dolt/beads/.dolt";
         "/town/.dolt-data/already/.dolt" ]
  then StatOk else StatNotExist.

Definition legacy_readdir (p : string) : option (list DirEntry) :=
  if String.eqb p "/town"
  then Some [ mkDirEntry ".dolt-data" true; mkDirEntry "already" true;
              mkDirEntry "nexus" true; mkDirEntry "notes.txt" false ]
  else None.

Definition legacy_resolve (dir : string) : string :=
  if String.eqb dir "/town/nexus" then "/town/nexus/mayor/rig/.beads"
  else Join dir ".beads".

(** Two polecats of rig [gastown]: [Toast], seven and a half minutes into
    its session with no step closed, and [Nux], two minutes in. *)
Definition ascii_lower (c : ascii) : ascii :=
  let n := byte_of c in
  if (65 <=? n) && (n <=? 90) then ascii_of_N (Z.to_N (n + 32)) else c.

Fixpoint ToLower_ascii (s : string) : string :=
  match s with
  | EmptyString => EmptyString
  | String c s' => String (ascii_lower c) (ToLower_ascii s')
  end.

Definition drift_polecats : list StepDrift.polecatInfo :=
  [ StepDrift.mkPolecat "gastown" "Toast" "working" "gt-abc";
    StepDrift.mkPolecat "gastown" "Nux" "working" "gt-def" ].

Definition drift_branch (townRoot rig name : string) : string :=
  "polecat-" ++ ToLower_ascii name ++ "-1700000000".

Definition drift_wisp (bead : string) : string := bead ++ "-wisp-1".

Definition drift_statuses (wispID branch : string) : gmap string bool :=
  if String.eqb wispID "gt-def-wisp-1"
  then {[ "Load context" := true; "Set up working branch" := false ]}
  else {[ "Load context" := false ]}.

Definition drift_age (rig name : string) : float :=
  if String.eqb name "Toast" then 7.5%float else 2%float.


(** The result the detector computes for [Toast] at the default threshold. *)
Definition drift_toast : StepDrift.StepDriftResult :=
  StepDrift.driftResult drift_branch drift_wisp drift_statuses drift_age (fun _ => "?")
    ToLower_ascii (fun _ => 0) (fun _ m => map_to_list m) town StepDrift.defaultThreshold
    (StepDrift.mkPolecat "gastown" "Toast" "working" "gt-abc").

End Sample.

(** *** More of [internal/doltserver]: the other branch operations *)

(** What a call prints ([fmt.Printf], [fmt.Fprintf(os.Stderr, ...)]): the
    format with its string operands in order, and the error given to its
    [%v], if any. *)
Inductive printed : Type :=
| Printf (format : string) (args : list string)
| PrintfErr (format : string) (args : list string) (err : error).

Module GoFmt.
Import GoStrings.

(** [strconv.Itoa] and the verb [%d]: a minus sign for a negative number,
    then the decimal digits without leading zeros. *)
Definition Itoa (n : Z) : string := NilZero.string_of_int (Z.to_int n).

Definition isASCII (s : string) : bool :=
  forallb (fun c => byte_of c <? 128) (list_ascii_of_string s).

Definition lowerByte (c : ascii) : ascii :=
  let n := byte_of c in
  if (65 <=? n) && (n <=? 90) then ascii_of_N (Z.to_N (n + 32)) else c.

Fixpoint mapBytes (f : ascii -> ascii) (s : string) : string :=
  match s with
  | EmptyString => EmptyString
  | String c s' => String (f c) (mapBytes f s')
  end.

(** [strings.ToLower]: a string of ASCII bytes has its upper-case letters
    replaced; any other string is mapped rune by rune through
    [unicode.ToLower], which is the parameter [unicodeLower]. *)
Definition ToLower (unicodeLower : string -> string) (s : string) : string :=
  if isASCII s then mapBytes lowerByte s else unicodeLower s.

End GoFmt.

Module Branches.
Import GoStrings Proc Doltserver GoFmt.

(** [PolecatBranchName]: [now] is [time.Now().Unix()]. *)
Definition PolecatBranchName (unicodeLower : string -> string) (now : Z)
    (polecatName : string) : string :=
  "polecat-" ++ ToLower unicodeLower polecatName ++ "-" ++ Itoa now.

(** [MergePolecatBranch]: the trace of sub-processes and the lines printed
    afterwards, and the error returned. *)
Definition MergePolecatBranch (run : Runner) (townRoot rigDB branchName : string)
    (tr : Trace) (out : list printed) : Trace * list printed * option error :=
  match validateBranchName branchName with
  | Some err => (tr, out, Some (Wrapf "merging Dolt branch in %s: %w" [rigDB] err))
  | None =>
      let '(tr1, r1) := doltSQL run townRoot rigDB "CALL DOLT_CHECKOUT('main')" tr in
      match r1 with
      | Some err => (tr1, out, Some (Wrapf "checkout main in %s: %w" [rigDB] err))
      | None =>
          let '(tr2, r2) :=
            doltSQL run townRoot rigDB ("CALL DOLT_MERGE('" ++ branchName ++ "')") tr1 in
          match r2 with
          | Some err =>
              (tr2, out,
               Some (Wrapf "merging %s to main in %s: %w" [branchName; rigDB] err))
          | None =>
              let '(tr3, r3) :=
                doltSQL run townRoot rigDB
                  ("CALL DOLT_BRANCH('-D', '" ++ branchName ++ "')") tr2 in
              match r3 with
              | Some err =>
                  (tr3,
                   (out ++ [PrintfErr "Warning: could not delete Dolt branch %s: %v\n"
                              [branchName] err])%list,
                   None)
              | None => (tr3, out, None)
              end
          end
      end
  end.

(** [DeletePolecatBranch]: best effort, nothing is returned. *)
Definition DeletePolecatBranch (run : Runner) (townRoot rigDB branchName : string)
    (tr : Trace) (out : list printed) : Trace * list printed :=
  match validateBranchName branchName with
  | Some err =>
      (tr, (out ++ [PrintfErr "Warning: invalid Dolt branch name %q: %v\n"
                      [branchName] err])%list)
  | None =>
      let query := "CALL DOLT_BRANCH('-d', '" ++ branchName ++ "')" in
      let '(tr1, r) := doltSQL run townRoot rigDB query tr in
      match r with
      | Some err =>
          (tr1, (out ++ [PrintfErr "Warning: could not delete Dolt branch %s: %v\n"
                           [branchName] err])%list)
      | None => (tr1, out)
      end
  end.

(** The sub-process [doltSQL] runs for a statement, and the three
    statements of a merge. *)
Definition sqlCommand (townRoot rigDB query : string) : Cmd :=
  mkCmd (DataDir (DefaultConfig townRoot)) "dolt"
    ["sql"; "-q"; "USE " ++ rigDB ++ "; " ++ query].

Definition checkoutMain : string := "CALL DOLT_CHECKOUT('main')".
Definition mergeBranch (branchName : string) : string :=
  "CALL DOLT_MERGE('" ++ branchName ++ "')".
Definition forceDeleteBranch (branchName : string) : string :=
  "CALL DOLT_BRANCH('-D', '" ++ branchName ++ "')".
Definition deleteBranch (branchName : string) : string :=
  "CALL DOLT_BRANCH('-d', '" ++ branchName ++ "')".

End Branches.

(** *** [internal/session]: session names *)

Module Session.

Definition Prefix : string := "gt-".

Definition MayorSessionName : string := Prefix ++ "mayor".
Definition DeaconSessionName : string := Prefix ++ "deacon".

Definition WitnessSessionName (rig : string) : string := Prefix ++ rig ++ "-witness".
Definition RefinerySessionName (rig : string) : string := Prefix ++ rig ++ "-refinery".

Definition CrewSessionName (rig name : string) : string :=
  Prefix ++ rig ++ "-crew-" ++ name.

Definition PolecatSessionName (rig name : string) : string :=
  Prefix ++ rig ++ "-" ++ name.

End Session.

(** *** [internal/cmd/crew.go]: the rig of the working directory *)

Module CrewCmd.
Import GoStrings.

(** [filepath.SplitList]: the empty string has no element; any other
    string is split at the list separator [:]. *)
Definition SplitList (path : string) : list string :=
  if String.eqb path "" then [] else Split path ":"%char.

(** The text before the first path separator, as the loop over [rel]
    finds it; [None] when [rel] has no separator. *)
Fixpoint beforeSeparator (acc : string) (rel : string) : option string :=
  match rel with
  | EmptyString => None
  | String c rel' =>
      if Ascii.eqb c "/"%char then Some (String.rev acc)
      else beforeSeparator (String c acc) rel'
  end.

(** [inferRigFromCwd].  [filepath.Abs(".")] and [filepath.Rel] depend on
    the process and are parameters: [Abs] is the result of the first, [Rel]
    the second as a function. *)
Definition inferRigFromCwd (Abs : string + error) (Rel : string -> string -> string + error)
    (townRoot : string) : string * option error :=
  match Abs with
  | inr err => ("", Some err)
  | inl cwd =>
      match Rel townRoot cwd with
      | inr _ => ("", Some (Errorf "not in workspace" []))
      | inl rel =>
          let parts := SplitList rel in
          let fallthrough :=
            ("", Some (Errorf "could not infer rig from current directory" [])) in
          if (length parts =? 0)%nat then
            match beforeSeparator EmptyString rel with
            | Some rig => (rig, None)
            | None =>
                if negb (String.eqb rel "") && negb (String.eqb rel ".")
                then (rel, None)
                else fallthrough
            end
          else fallthrough
      end
  end.

End CrewCmd.

(** *** [internal/cmd/patrol_step_drift.go]: nudging *)

Module Nudge.
Import Proc StepDrift.

Definition nudgeMsg : string :=
  "You have been working for several minutes with no molecule steps closed. " ++
  "Close each step IMMEDIATELY when you finish it: `bd close <step-id>`. " ++
  "Run `bd ready` to see your next step. Not closing steps signals you are " ++
  "not following the formula.".

(** [cmd.Run()]: the command joins the trace; its error is what the
    runner answers.  A command whose [Dir] is not set runs in the working
    directory of the process, written [""]. *)
Definition Run (run : Runner) (c : Cmd) (tr : Trace) : Trace * option string :=
  ((tr ++ [c])%list, res_err (run tr c)).

Definition nudgeCommand (r : StepDriftResult) : Cmd :=
  mkCmd "" "gt" ["nudge"; Rig r ++ "/" ++ Name r; nudgeMsg].

Definition setNudged (r : StepDriftResult) : StepDriftResult :=
  {| Rig := Rig r; Name := Name r; Bead := Bead r; Title := Title r; State := State r;
     AgeMin := AgeMin r; Closed := Closed r; Total := Total r; Drifting := Drifting r;
     Nudged := true; Branch := Branch r; Error := Error r |}.

(** [nudgeDrifting]: the slice afterwards (it is updated in place) and
    the trace of the commands run.  The error of [Run] is discarded. *)
Fixpoint nudgeDrifting (run : Runner) (results : list StepDriftResult) (tr : Trace)
  : Trace * list StepDriftResult :=
  match results with
  | [] => (tr, [])
  | r :: rest =>
      if Drifting r then
        let '(tr1, _) := Run run (nudgeCommand r) tr in
        let '(tr2, rest') := nudgeDrifting run rest tr1 in
        (tr2, setNudged r :: rest')
      else
        let '(tr2, rest') := nudgeDrifting run rest tr in
        (tr2, r :: rest')
  end.

End Nudge.

(** *** [internal/doltserver]: the server process *)

Module DoltProcess.
Import GoStrings Proc Doltserver GoFmt.

(** [cmd.Output()]: the command joins the trace; [res_output] of the
    answer is its standard output, [res_err] the error (a non-zero exit
    status, or the command could not be started). *)
Definition Output (run : Runner) (c : Cmd) (tr : Trace) : Trace * Result :=
  ((tr ++ [c])%list, run tr c).

(** The command of [isDoltProcess]; one whose [Dir] is not set runs in the
    working directory of the process, written [""]. *)
Definition psCommand (pid : Z) : Cmd :=
  mkCmd "" "ps" ["-p"; Itoa pid; "-o"; "command="].

(** [isDoltProcess]. *)
Definition isDoltProcess (run : Runner) (pid : Z) (tr : Trace) : Trace * bool :=
  let cmd := psCommand pid in
  let '(tr', r) := Output run cmd tr in
  match res_err r with
  | Some _ => (tr', false)
  | None =>
      let cmdline := TrimSpace (res_output r) in
      (tr', Contains cmdline "dolt" && Contains cmdline "sql-server")
  end.

(** The command of [findDoltServerOnPort]. *)
Definition lsofPortCommand (port : Z) : Cmd :=
  mkCmd "" "lsof" ["-i"; ":" ++ Itoa port; "-t"].

(** [findDoltServerOnPort]: the PID, or 0. *)
Definition findDoltServerOnPort (run : Runner) (port : Z) (tr : Trace) : Trace * Z :=
  let cmd := lsofPortCommand port in
  let '(tr1, r) := Output run cmd tr in
  match res_err r with
  | Some _ => (tr1, 0)
  | None =>
      let lines := Split (TrimSpace (res_output r)) "010"%char in
      if (length lines =? 0)%nat || String.eqb (nth 0 lines "") "" then (tr1, 0)
      else
        match Atoi (nth 0 lines "") with
        | None => (tr1, 0)
        | Some pid =>
            let '(tr2, isDolt) := isDoltProcess run pid tr1 in
            if isDolt then (tr2, pid) else (tr2, 0)
        end
  end.

(** [os.Remove] of a path that was just read as a regular file. *)
Definition os_Remove_file (fs : FS) (p : string) : FS :=
  {| fs_dirs := fs_dirs fs; fs_files := delete p (fs_files fs) |}.

(** The end of [IsRunning]: the port check, which catches a server that
    was started by other means. *)
Definition portCheck (run : Runner) (config : Config) (fs : FS) (tr : Trace)
  : FS * Trace * (bool * Z * option error) :=
  let '(tr2, pid) := findDoltServerOnPort run (Port config) tr in
  if pid >? 0 then (fs, tr2, (true, pid, None))
  else (fs, tr2, (false, 0, None)).

(** [IsRunning].  [signal0 pid] tells whether [process.Signal(0)] returns
    no error for the process found for [pid] ([os.FindProcess] itself
    always succeeds on Unix).  The result is (running, pid, error). *)
Definition IsRunning (run : Runner) (signal0 : Z -> bool) (townRoot : string)
    (fs : FS) (tr : Trace) : FS * Trace * (bool * Z * option error) :=
  let config := DefaultConfig townRoot in
  match os_ReadFile fs (PidFile config) with
  | Some data =>
      let pidStr := TrimSpace data in
      let stale (tr' : Trace) :=
        portCheck run config (os_Remove_file fs (PidFile config)) tr' in
      match Atoi pidStr with
      | Some pid =>
          if signal0 pid then
            let '(tr1, isDolt) := isDoltProcess run pid tr in
            if isDolt then (fs, tr1, (true, pid, None))
            else stale tr1
          else stale tr
      | None => stale tr
      end
  | None => portCheck run config fs tr
  end.




End DoltProcess.

(** *** [internal/doltserver]: the rig databases of the data directory *)

Module DoltRigs.
Import GoStrings Proc Doltserver GoFmt DoltProcess.

(** What [os.ReadDir] can answer: the entries, sorted by name; an error
    for which [os.IsNotExist] holds; another error. *)
Inductive ReadDirResult : Type :=
| DirEntries (entries : list DirEntry)
| DirNotExist
| DirOtherError (err : error).

Section Listing.
(** [ListDatabases] only reads the file system: [os_ReadDir] and
    [os_Stat] are what it reads. *)
Variable os_ReadDir : string -> ReadDirResult.
Variable os_Stat : string -> StatResult.

(** [ListDatabases]: the names (none for the nil slice) and the error. *)
Definition ListDatabases (townRoot : string) : list string * option error :=
  let config := DefaultConfig townRoot in
  match os_ReadDir (DataDir config) with
  | DirNotExist => ([], None)
  | DirOtherError err => ([], Some err)
  | DirEntries entries =>
      (flat_map (fun entry =>
         if negb (entry_IsDir entry) then []
         else
           let doltDir := Join (Join (DataDir config) (entry_Name entry)) ".dolt" in
           match os_Stat doltDir with
           | StatOk => [entry_Name entry]
           | _ => []
           end) entries, None)
  end.

End Listing.

(** **** Reading the modelled file system *)

(** [os.Stat] on the modelled file system: a path is there or it is not. *)
Definition fs_Stat (fs : FS) (p : string) : StatResult :=
  if os_Stat_ok fs p then StatOk else StatNotExist.

(** [rest] when [s] is [p] followed by [rest]. *)
Fixpoint stripPrefix (p s : string) : option string :=
  match p, s with
  | EmptyString, _ => Some s
  | String a p', String b s' => if Ascii.eqb a b then stripPrefix p' s' else None
  | String _ _, EmptyString => None
  end.

(** The name of [p] as an entry of [dir]: [p] is [dir], a separator, and
    a non-empty name without separator. *)
Definition childName (dir p : string) : option string :=
  match stripPrefix (dir ++ "/") p with
  | Some name =>
      if String.eqb name "" || existsb (Ascii.eqb "/"%char) (list_ascii_of_string name)
      then None else Some name
  | None => None
  end.

(** [os.ReadDir] on the modelled file system: the entries of a directory
    in the order of their names. *)
Definition fs_ReadDir (fs : FS) (dir : string) : ReadDirResult :=
  if bool_decide (dir ∈ fs_dirs fs) then
    let names := omap (childName dir) (elements (fs_dirs fs ∪ dom (fs_files fs))) in
    DirEntries (map (fun n => mkDirEntry n (bool_decide (Join dir n ∈ fs_dirs fs)))
                  (merge_sort String.le names))
  else if bool_decide (is_Some (fs_files fs !! dir)) then
    DirOtherError (ExitError "readdir: not a directory")
  else DirNotExist.

Section Sweep.
Context {value : Type}.
Variable VString : string -> value.
Variable json_decode : string -> decoded value.
Variable json_MarshalIndent : gmap string value -> string + error.

(** The loop of [EnsureAllMetadata] over the databases still to visit. *)
Fixpoint ensureEach (townRoot : string) (databases : list string) (fs : FS)
    (updated : list string) (errs : list error)
  : FS * outcome (list string * list error) :=
  match databases with
  | [] => (fs, Returned (updated, errs))
  | dbName :: rest =>
      match EnsureMetadata VString json_decode json_MarshalIndent fs townRoot dbName with
      | (fs', Panicked msg) => (fs', Panicked msg)
      | (fs', Returned (Some err)) =>
          ensureEach townRoot rest fs' updated
            (errs ++ [Wrapf "%s: %w" [dbName] err])%list
      | (fs', Returned None) =>
          ensureEach townRoot rest fs' (updated ++ [dbName])%list errs
      end
  end.

(** [EnsureAllMetadata]: the file system afterwards, and the two lists it
    returns (or the panic of a call of [EnsureMetadata]). *)
Definition EnsureAllMetadata (fs : FS) (townRoot : string)
  : FS * outcome (list string * list error) :=
  match ListDatabases (fs_ReadDir fs) (fs_Stat fs) townRoot with
  | (_, Some err) => (fs, Returned ([], [Wrapf "listing databases: %w" [] err]))
  | (databases, None) => ensureEach townRoot databases fs [] []
  end.

(** **** Creating and migrating a rig database *)

(** The part of the world these operations act on: the files, the
    sub-processes run so far, and what was printed to standard error. *)
Record World : Type := mkWorld {
  w_fs : FS;
  w_trace : Trace;
  w_stderr : list printed
}.

(** What the sub-processes answer ([run]), what a [dolt] sub-process does
    to the files ([effect]: [dolt init] and [CREATE DATABASE] make a
    database directory), and the liveness of a process ([signal0]). *)
Variable run : Runner.
Variable effect : Trace -> Cmd -> FS -> FS.
Variable signal0 : Z -> bool.

(** [serverExecSQL]: one [dolt sql -q <query>] run from the data
    directory. *)
Definition serverExecSQL (townRoot query : string) (w : World) : World * option error :=
  let config := DefaultConfig townRoot in
  let cmd := mkCmd (DataDir config) "dolt" ["sql"; "-q"; query] in
  let '(tr', r) := CombinedOutput run cmd (w_trace w) in
  let w' := {| w_fs := effect (w_trace w) cmd (w_fs w);
               w_trace := tr';
               w_stderr := w_stderr w |} in
  match res_err r with
  | Some e =>
      (w', Some (Wrapf "%w (output: %s)" [TrimSpace (res_output r)] (ExitError e)))
  | None => (w', None)
  end.

(** One byte of a rig name that [InitRig] accepts.  The loop ranges over
    runes; a byte outside ASCII belongs to a rune outside ASCII (or is an
    invalid byte, read as U+FFFD), which is not accepted, so a name is
    accepted exactly when each of its bytes is. *)
Definition validRigByte (c : ascii) : bool :=
  let n := byte_of c in
  ((97 <=? n) && (n <=? 122))
  || ((65 <=? n) && (n <=? 90))
  || ((48 <=? n) && (n <=? 57))
  || (n =? 95) || (n =? 45).

(** The two sub-processes of [InitRig]. *)
Definition createDatabaseCommand (townRoot rigName : string) : Cmd :=
  mkCmd (DataDir (DefaultConfig townRoot)) "dolt"
    ["sql"; "-q"; "CREATE DATABASE `" ++ rigName ++ "`"].

Definition doltInitCommand (townRoot rigName : string) : Cmd :=
  mkCmd (Join (DataDir (DefaultConfig townRoot)) rigName) "dolt" ["init"].

(** The last step shared by [InitRig] and [MigrateRigFromBeads]: the
    metadata update, whose error is only printed. *)
Definition updateMetadata (warning : string) (townRoot rigName : string) (w : World)
  : World * outcome unit :=
  match EnsureMetadata VString json_decode json_MarshalIndent (w_fs w) townRoot rigName with
  | (fs', Panicked msg) =>
      ({| w_fs := fs'; w_trace := w_trace w; w_stderr := w_stderr w |}, Panicked msg)
  | (fs', Returned (Some err)) =>
      ({| w_fs := fs'; w_trace := w_trace w;
          w_stderr := (w_stderr w ++ [PrintfErr warning [] err])%list |}, Returned tt)
  | (fs', Returned None) =>
      ({| w_fs := fs'; w_trace := w_trace w; w_stderr := w_stderr w |}, Returned tt)
  end.

(** [InitRig]: (serverWasRunning, err). *)
Definition InitRig (townRoot rigName : string) (w : World)
  : World * outcome (bool * option error) :=
  if String.eqb rigName "" then
    (w, Returned (false, Some (Errorf "rig name cannot be empty" [])))
  else
    let config := DefaultConfig townRoot in
    if negb (forallb validRigByte (list_ascii_of_string rigName)) then
      (w, Returned (false,
         Some (Errorf "invalid rig name %q: must contain only alphanumeric, underscore, or dash"
                 [rigName])))
    else
      let rigDir := Join (DataDir config) rigName in
      if os_Stat_ok (w_fs w) (Join rigDir ".dolt") then
        (w, Returned (false,
           Some (Errorf "rig database %q already exists at %s" [rigName; rigDir])))
      else
        let '(fs1, tr1, (running, _, _)) :=
          IsRunning run signal0 townRoot (w_fs w) (w_trace w) in
        let w1 := {| w_fs := fs1; w_trace := tr1; w_stderr := w_stderr w |} in
        let finish (w2 : World) :=
          let '(w3, o) :=
            updateMetadata
              "Warning: database initialized but metadata.json update failed: %v\n"
              townRoot rigName w2 in
          match o with
          | Panicked msg => (w3, Panicked msg)
          | Returned _ => (w3, Returned (running, None))
          end in
        if running then
          let '(w2, r) :=
            serverExecSQL townRoot ("CREATE DATABASE `" ++ rigName ++ "`") w1 in
          match r with
          | Some err =>
              (w2, Returned (true,
                 Some (Wrapf "creating database on running server: %w" [] err)))
          | None => finish w2
          end
        else
          match os_MkdirAll fs1 rigDir with
          | inr err =>
              (w1, Returned (false, Some (Wrapf "creating rig directory: %w" [] err)))
          | inl fs2 =>
              let cmd := mkCmd rigDir "dolt" ["init"] in
              let '(tr2, r) := CombinedOutput run cmd tr1 in
              let w2 := {| w_fs := effect tr1 cmd fs2; w_trace := tr2;
                           w_stderr := w_stderr w |} in
              match res_err r with
              | Some e =>
                  (w2, Returned (false,
                     Some (Wrapf "initializing Dolt database: %w\n%s" [res_output r]
                             (ExitError e))))
              | None => finish w2
              end
          end.

(** What [os.Rename] can answer: done, with the file system afterwards;
    the error [EXDEV] (source and target on different file systems);
    another error. *)
Inductive RenameResult : Type :=
| RenameOk (fs' : FS)
| RenameEXDEV
| RenameError (err : error).

Variable os_Rename : FS -> string -> string -> RenameResult.

(** [os.RemoveAll]: the path and everything below it.  Permissions are
    not modelled, so it does not fail. *)
Definition os_RemoveAll (fs : FS) (p : string) : FS :=
  let keep (q : string) := negb (String.eqb q p || String.prefix (p ++ "/") q) in
  {| fs_dirs := filter (fun q => keep q = true) (fs_dirs fs);
     fs_files := filter (fun kv => keep (fst kv) = true) (fs_files fs) |}.

(** [moveDir], on a system that is not Windows: a rename, and across file
    systems [cp -a] followed by the removal of the source. *)
Definition moveDir (src dest : string) (w : World) : World * option error :=
  match os_Rename (w_fs w) src dest with
  | RenameOk fs' =>
      ({| w_fs := fs'; w_trace := w_trace w; w_stderr := w_stderr w |}, None)
  | RenameError err => (w, Some err)
  | RenameEXDEV =>
      let cmd := mkCmd "" "cp" ["-a"; src; dest] in
      let '(tr1, r) := CombinedOutput run cmd (w_trace w) in
      let fs1 := effect (w_trace w) cmd (w_fs w) in
      match res_err r with
      | Some e =>
          ({| w_fs := fs1; w_trace := tr1; w_stderr := w_stderr w |},
           Some (Wrapf "copying directory: %w" [] (ExitError e)))
      | None =>
          ({| w_fs := os_RemoveAll fs1 src; w_trace := tr1; w_stderr := w_stderr w |},
           None)
      end
  end.

(** [MigrateRigFromBeads]. *)
Definition MigrateRigFromBeads (townRoot rigName sourcePath : string) (w : World)
  : World * outcome (option error) :=
  let config := DefaultConfig townRoot in
  let targetDir := Join (DataDir config) rigName in
  match fs_Stat (w_fs w) (Join targetDir ".dolt") with
  | StatOk =>
      (w, Returned (Some (Errorf "rig database %q already exists at %s"
                            [rigName; targetDir])))
  | _ =>
      match fs_Stat (w_fs w) (Join sourcePath ".dolt") with
      | StatNotExist =>
          (w, Returned (Some (Errorf "source database not found at %s" [sourcePath])))
      | _ =>
          match os_MkdirAll (w_fs w) (DataDir config) with
          | inr err =>
              (w, Returned (Some (Wrapf "creating data directory: %w" [] err)))
          | inl fs1 =>
              let w1 := {| w_fs := fs1; w_trace := w_trace w; w_stderr := w_stderr w |} in
              match moveDir sourcePath targetDir w1 with
              | (w2, Some err) =>
                  (w2, Returned (Some (Wrapf "moving database: %w" [] err)))
              | (w2, None) =>
                  let '(w3, o) :=
                    updateMetadata
                      "Warning: database migrated but metadata.json update failed: %v\n"
                      townRoot rigName w2 in
                  match o with
                  | Panicked msg => (w3, Panicked msg)
                  | Returned _ => (w3, Returned None)
                  end
              end
          end
      end
  end.

End Sweep.

End DoltRigs.

(** *** [internal/doltserver]: health metrics *)

Module DoltHealth.
Import GoStrings Proc Doltserver GoFmt.

(** An operand of a format: an [int] ([%d]), a [float64] ([%.0f]) or a
    [time.Duration] in nanoseconds ([%v]). *)
Inductive fmtArg : Type :=
| ArgInt (n : Z)
| ArgFloat (f : float)
| ArgDuration (d : Z).

(** A warning is the [fmt.Sprintf] of a format and its operands. *)
Inductive warning : Type :=
| Sprintf (format : string) (args : list fmtArg).

Record HealthMetrics : Type := mkHealthMetrics {
  Connections : Z;
  MaxConnections : Z;
  ConnectionPct : float;
  DiskUsageBytes : Z;
  DiskUsageHuman : string;
  QueryLatency : Z;
  Healthy : bool;
  Warnings : list warning
}.

Definition Millisecond : Z := 1000000.
Definition Second : Z := 1000 * Millisecond.

(** [lessThanHalf(x, y)]: [uint64(x) + uint64(x) < uint64(y)]. *)
Definition lessThanHalf (x y : Z) : bool :=
  ((x mod 2 ^ 64 + x mod 2 ^ 64) mod 2 ^ 64) <? y mod 2 ^ 64.

(** [time.Duration.Round]: to the nearest multiple of [m], halves away
    from zero, saturating. *)
Definition Duration_Round (d m : Z) : Z :=
  if m <=? 0 then d
  else
    let r := Z.rem d m in
    if d <? 0 then
      let r := wrap64 (- r) in
      if lessThanHalf r m then wrap64 (d + r)
      else
        let d1 := wrap64 (wrap64 (d - m) + r) in
        if d1 <? d then d1 else min_int64
    else if lessThanHalf r m then wrap64 (d - r)
    else
      let d1 := wrap64 (wrap64 (d + m) - r) in
      if d1 >? d then d1 else max_int64.

(** [MeasureQueryLatency].  [elapsed tr] is what [time.Since(start)]
    gives for the command run after the trace [tr]. *)
Definition MeasureQueryLatency (run : Runner) (elapsed : Trace -> Z) (townRoot : string)
    (tr : Trace) : Trace * (Z * option error) :=
  let config := DefaultConfig townRoot in
  let cmd := mkCmd (DataDir config) "dolt" ["sql"; "-q"; "SELECT 1"] in
  let '(tr', r) := CombinedOutput run cmd tr in
  match res_err r with
  | Some e =>
      (tr', (0, Some (Wrapf "SELECT 1 failed: %w (output: %s)"
                        [TrimSpace (res_output r)] (ExitError e))))
  | None => (tr', (elapsed tr, None))
  end.

(** [dirSize]: the sizes of the regular files at and below [path],
    added up in an [int64].  Errors of the walk are skipped, so a path that
    is not there counts 0. *)
Definition dirSize (fs : FS) (path : string) : Z :=
  map_fold (fun q data total =>
              if String.eqb q path || String.prefix (path ++ "/") q
              then wrap64 (total + Z.of_nat (String.length data))
              else total) 0 (fs_files fs).

(** [formatBytes].  [fmtF1] prints a [float64] with the verb [%.1f]. *)
Definition formatBytes (fmtF1 : float -> string) (b : Z) : string :=
  let KB := 1024 in
  let MB := KB * 1024 in
  let GB := MB * 1024 in
  if b >=? GB then
    fmtF1 (StepDrift.float64_of_int b / StepDrift.float64_of_int GB)%float ++ " GB"
  else if b >=? MB then
    fmtF1 (StepDrift.float64_of_int b / StepDrift.float64_of_int MB)%float ++ " MB"
  else if b >=? KB then
    fmtF1 (StepDrift.float64_of_int b / StepDrift.float64_of_int KB)%float ++ " KB"
  else Itoa b ++ " B".

(** The percentage of the connection limit in use. *)
Definition connectionPct (connCount maxConn : Z) : float :=
  (StepDrift.float64_of_int connCount / StepDrift.float64_of_int maxConn
   * StepDrift.float64_of_int 100)%float.

(** [GetHealthMetrics]: it returns what it could measure. *)
Definition GetHealthMetrics (run : Runner) (elapsed : Trace -> Z)
    (fmtF1 : float -> string) (fs : FS) (townRoot : string) (tr : Trace)
  : Trace * HealthMetrics :=
  let config := DefaultConfig townRoot in
  let maxConn :=
    if Doltserver.MaxConnections config <=? 0 then 1000
    else Doltserver.MaxConnections config in
  let '(tr1, (latency, err1)) := MeasureQueryLatency run elapsed townRoot tr in
  let queryLatency := match err1 with None => latency | Some _ => 0 end in
  let warnings1 :=
    match err1 with
    | None =>
        if latency >? 1 * Second then
          [Sprintf "query latency %v exceeds 1s threshold — server may be under stress"
             [ArgDuration (Duration_Round latency Millisecond)]]
        else []
    | Some _ => []
    end in
  let '(tr2, (connCount, err2)) := GetActiveConnectionCount run townRoot tr1 in
  let pct := connectionPct connCount maxConn in
  let unhealthy :=
    match err2 with
    | None => PrimFloat.leb (StepDrift.float64_of_int 80) pct
    | Some _ => false
    end in
  let diskBytes := dirSize fs (DataDir config) in
  (tr2,
   {| Connections := match err2 with None => connCount | Some _ => 0 end;
      MaxConnections := maxConn;
      ConnectionPct := match err2 with None => pct | Some _ => 0%float end;
      DiskUsageBytes := diskBytes;
      DiskUsageHuman := formatBytes fmtF1 diskBytes;
      QueryLatency := queryLatency;
      Healthy := negb unhealthy;
      Warnings :=
        (warnings1 ++
         if unhealthy then
           [Sprintf "connection count %d is %.0f%% of max %d — approaching limit"
              [ArgInt connCount; ArgFloat pct; ArgInt maxConn]]
         else [])%list |}).

End DoltHealth.

(** *** More sample environments *)

Module SampleRigs.
Import GoStrings Proc Doltserver DoltRigs.

(** Sub-processes that change no file, and no live process. *)
Definition no_effect : Trace -> Cmd -> FS -> FS := fun _ _ fs => fs.
Definition never_alive : Z -> bool := fun _ => false.

(** A rename that always fails. *)
Definition no_rename : FS -> string -> string -> RenameResult :=
  fun _ _ _ => RenameError (ExitError "rename: permission denied").

(** A town whose [hq] store still holds a database of the old layout. *)
Definition legacy_fs : FS :=
  {| fs_dirs := {[ "/town"; "/town/.beads"; "/town/.beads/dolt";
                   "/town/.beads/dolt/beads"; "/town/.beads/dolt/beads/.dolt" ]};
     fs_files := ∅ |}.

Definition hq_migration : Migration :=
  mkMigration "hq" "/town/.beads/dolt/beads" "/town/.dolt-data/hq".

(** A machine on which [lsof] finds process 4242 on the port and [ps]
    shows it to be a Dolt server. *)
Definition server_run : Runner := fun _ c =>
  if String.eqb (cmd_name c) "lsof" then mkResult ("4242" ++ newline) None
  else if String.eqb (cmd_name c) "ps" then
    mkResult ("dolt sql-server --port 3307" ++ newline) None
  else mkResult "" None.

(** A data directory with the databases [alpha] and [beta], a directory
    that is no database and a file. *)
Definition data_fs : FS :=
  {| fs_dirs := {[ "/town"; "/town/.dolt-data";
                   "/town/.dolt-data/alpha"; "/town/.dolt-data/alpha/.dolt";
                   "/town/.dolt-data/beta"; "/town/.dolt-data/beta/.dolt";
                   "/town/.dolt-data/empty" ]};
     fs_files := {[ "/town/.dolt-data/notes.txt" := "x" ]} |}.

(** A town with the record of scenario B, before anything was run. *)
Definition fresh_world : World := mkWorld Sample.scenarioB_fs [] [].

End SampleRigs.

(** ** Part II: the properties *)

(** *** Branch-name validation before any SQL *)

Section BranchNames.
Import GoStrings Proc Doltserver.

(** The byte ranges of the regular expression's class are the alphabet
    of the specification. *)
Lemma validBranchByte_alphabet (c : ascii) :
  validBranchByte c = bool_decide (c ∈ list_ascii_of_string Spec.branch_alphabet).
Proof. destruct c as [[] [] [] [] [] [] [] []]; vm_compute; reflexivity. Qed.

Lemma forallb_validBranchByte (l : list ascii) :
  forallb validBranchByte l = true <->
  Forall (fun c => c ∈ list_ascii_of_string Spec.branch_alphabet) l.
Proof.
  rewrite forallb_forall, Forall_forall. split; intros H c Hc.
  - apply list_elem_of_In in Hc. specialize (H c Hc).
    rewrite validBranchByte_alphabet in H. now apply bool_decide_eq_true in H.
  - apply list_elem_of_In in Hc. specialize (H c Hc).
    rewrite validBranchByte_alphabet. now apply bool_decide_eq_true.
Qed.

Lemma MatchString_valid (B : string) :
  validBranchNameRe_MatchString B = true <-> Spec.valid_branch_name B.
Proof.
  unfold Spec.valid_branch_name. destruct B as [|c B].
  - simpl. split; [discriminate | intros [H _]; now elim H].
  - unfold validBranchNameRe_MatchString. rewrite forallb_validBranchByte.
    split; [intros H; split; [discriminate | exact H] | intros [_ H]; exact H].
Qed.

Lemma validateBranchName_None (B : string) :
  validateBranchName B = None <-> Spec.valid_branch_name B.
Proof.
  rewrite <- MatchString_valid. unfold validateBranchName.
  destruct (String.eqb_spec B "") as [-> | Hne]; [simpl; split; discriminate |].
  destruct (validBranchNameRe_MatchString B); simpl; split; congruence.
Qed.

Lemma validateBranchName_Some (B : string) :
  ~ Spec.valid_branch_name B -> exists err, validateBranchName B = Some err.
Proof.
  intros H. destruct (validateBranchName B) as [err|] eqn:E; [eauto |].
  apply validateBranchName_None in E. contradiction.
Qed.

End BranchNames.

(** C1.  [CreatePolecatBranch] returns no error only for a branch name that
    is non-empty and made of the bytes of [[A-Za-z0-9._/-]]; for any other
    name it returns an error and leaves the trace of sub-processes as it
    was: no SQL statement is run.  The name [polecat-x'; DROP TABLE--] is
    such a name. *)
Theorem CreatePolecatBranch_validates_first
    (run : Proc.Runner) (townRoot rigDB B : string) (tr : Proc.Trace) :
  (snd (Doltserver.CreatePolecatBranch run townRoot rigDB B tr) = None ->
   Spec.valid_branch_name B) /\
  (~ Spec.valid_branch_name B ->
   exists err, Doltserver.CreatePolecatBranch run townRoot rigDB B tr = (tr, Some err)) /\
  (exists err,
     Doltserver.CreatePolecatBranch run townRoot rigDB "polecat-x'; DROP TABLE--" tr
     = (tr, Some err)).
Proof.
  assert (Hbad : forall b, ~ Spec.valid_branch_name b ->
            exists err, Doltserver.CreatePolecatBranch run townRoot rigDB b tr = (tr, Some err)).
  { intros b Hb. destruct (validateBranchName_Some b Hb) as [e He].
    unfold Doltserver.CreatePolecatBranch. rewrite He. eauto. }
  split; [| split].
  - unfold Doltserver.CreatePolecatBranch.
    destruct (Doltserver.validateBranchName B) as [e|] eqn:E; [discriminate |].
    intros _. now apply validateBranchName_None.
  - apply Hbad.
  - apply Hbad. apply (@bool_decide_eq_false_1 _ (Spec.valid_branch_name_dec _)). vm_compute. reflexivity.
Qed.

(** A run of C1 on the injection attempt of scenario G, with an empty trace. *)
Lemma CreatePolecatBranch_validates_first_witness :
  exists err,
    Doltserver.CreatePolecatBranch Sample.quiet_run Sample.town "gastown"
      "polecat-x'; DROP TABLE--" [] = ([], Some err).
Proof.
  apply (proj1 (proj2 (CreatePolecatBranch_validates_first
                         Sample.quiet_run Sample.town "gastown"
                         "polecat-x'; DROP TABLE--" []))).
  apply (@bool_decide_eq_false_1 _ (Spec.valid_branch_name_dec _)). vm_compute. reflexivity.
Defined.

(** *** The connection-capacity check *)

Section Capacity.
Import GoStrings Proc Doltserver.

Lemma wrap64_small (z : Z) : - 2 ^ 63 <= z < 2 ^ 63 -> wrap64 z = z.
Proof. intros H. unfold wrap64. rewrite Z.mod_small; lia. Qed.

Lemma capacity_threshold_floor (m : Z) :
  Spec.capacity_threshold m = Z.max 1 (80 * m / 100).
Proof.
  unfold Spec.capacity_threshold, Qfloor, Qmult, inject_Z. simpl Qnum. simpl Qden.
  reflexivity.
Qed.

(** For a configured limit the code's threshold is the specification's:
    with a positive [max_connections] below the overflow of [maxConn * 80]
    the integer computation is the floor of 80 percent, at least 1. *)
Lemma capacityThreshold_spec (m : Z) :
  0 < m <= 10 ^ 17 ->
  capacityThreshold (effectiveMaxConn m) = Spec.capacity_threshold m.
Proof.
  intros Hm. rewrite capacity_threshold_floor.
  unfold effectiveMaxConn, capacityThreshold.
  destruct (Z.leb_spec m 0) as [H0 | _]; [lia |].
  rewrite wrap64_small by lia.
  rewrite Z.quot_div_nonneg by lia.
  replace (m * 80) with (80 * m) by lia.
  destruct (Z.ltb_spec (80 * m / 100) 1); lia.
Qed.

Lemma HasConnectionCapacity_unfold (run : Runner) (townRoot : string) (tr : Trace) :
  HasConnectionCapacity run townRoot tr =
  match GetActiveConnectionCount run townRoot tr with
  | (tr', (_, Some e)) => (tr', (true, 0, Some e))
  | (tr', (active, None)) =>
      (tr', (active <? Spec.capacity_threshold (MaxConnections (DefaultConfig townRoot)),
             active, None))
  end.
Proof.
  unfold HasConnectionCapacity.
  destruct (GetActiveConnectionCount run townRoot tr) as [tr' [active [e|]]]; [reflexivity |].
  rewrite capacityThreshold_spec; [reflexivity |].
  simpl. unfold DefaultMaxConnections. lia.
Qed.

End Capacity.

(** C8.  [HasConnectionCapacity] compares against
    max(1, floor(0.80 x max_connections)) of the configuration it loads:
    when the count is measured it reports capacity exactly when the count
    is strictly below that threshold, and when the measurement fails it
    reports capacity (optimistically) together with the measurement's
    error. *)
Theorem HasConnectionCapacity_threshold
    (run : Proc.Runner) (townRoot : string) (tr : Proc.Trace) :
  (forall tr' active,
     Doltserver.GetActiveConnectionCount run townRoot tr = (tr', (active, None)) ->
     Doltserver.HasConnectionCapacity run townRoot tr =
     (tr', (active <? Spec.capacity_threshold
                        (Doltserver.MaxConnections (Doltserver.DefaultConfig townRoot)),
            active, None))) /\
  (forall tr' n e,
     Doltserver.GetActiveConnectionCount run townRoot tr = (tr', (n, Some e)) ->
     Doltserver.HasConnectionCapacity run townRoot tr = (tr', (true, 0, Some e))).
Proof.
  split; intros * H; rewrite HasConnectionCapacity_unfold, H; reflexivity.
Qed.

(** Runs of C8: 39 connections of 50 leave capacity, 40 do not, and an
    unreachable server is reported as having capacity, with the error. *)
Lemma HasConnectionCapacity_threshold_witness :
  snd (Doltserver.HasConnectionCapacity (Sample.counting_run "39") Sample.town [])
    = (true, 39, None) /\
  snd (Doltserver.HasConnectionCapacity (Sample.counting_run "40") Sample.town [])
    = (false, 40, None) /\
  fst (fst (snd (Doltserver.HasConnectionCapacity Sample.failing_run Sample.town [])))
    = true.
Proof.
  split; [| split].
  - rewrite (proj1 (HasConnectionCapacity_threshold (Sample.counting_run "39") Sample.town [])
               _ 39 eq_refl).
    reflexivity.
  - rewrite (proj1 (HasConnectionCapacity_threshold (Sample.counting_run "40") Sample.town [])
               _ 40 eq_refl).
    reflexivity.
  - rewrite (proj2 (HasConnectionCapacity_threshold Sample.failing_run Sample.town [])
               _ 0 _ eq_refl).
    reflexivity.
Defined.

(** *** The tool-version gate *)

Section VersionGate.
Import GoStrings Doctor.

Lemma version_test_lexicographic (major minor : Z) :
  (major >? 0) || ((major =? 0) && (minor >=? 40)) = true <->
  Spec.lexicographic_ge (major, minor) (0, 40).
Proof.
  unfold Spec.lexicographic_ge. simpl.
  rewrite orb_true_iff, andb_true_iff, Z.gtb_lt, Z.eqb_eq, Z.geb_le. reflexivity.
Qed.

(** The code looks at the third field only. *)
Lemma bdSupportsDolt_fields (s f1 f2 ver : string) (rest : list string) :
  Fields s = f1 :: f2 :: ver :: rest ->
  bdSupportsDolt s =
  match Spec.scanned_version ver with
  | Some (major, minor) => (major >? 0) || ((major =? 0) && (minor >=? 40))
  | None => false
  end.
Proof.
  intros HF. unfold bdSupportsDolt, Spec.scanned_version. rewrite HF. simpl.
  destruct (Split ver ".") as [|a [|b r]]; reflexivity.
Qed.

Lemma bdSupportsDolt_short (s : string) :
  (length (Fields s) < 3)%nat -> bdSupportsDolt s = false.
Proof.
  intros H. unfold bdSupportsDolt.
  destruct (Nat.ltb_spec (length (Fields s)) 3); [reflexivity | lia].
Qed.

(** The stated form is not what the code tests: it never compares the
    first two fields with [bd] and [version], and it asks for no patch
    component. *)
Lemma bdSupportsDolt_lenient :
  bdSupportsDolt "x y 1.0" = true /\ Spec.stated_version "x y 1.0" = None /\
  bdSupportsDolt "bd version 0.40" = true /\ Spec.stated_version "bd version 0.40" = None.
Proof. repeat split; vm_compute; reflexivity. Qed.

End VersionGate.

(** C7, as the code has it.  [bdSupportsDolt] returns true exactly when the
    string has at least three white-space separated fields, the third field
    has a dot, and the integers scanned from its first two dot-separated
    pieces satisfy (major, minor) >= (0, 40) in the lexicographic order.  It
    returns true for [bd version 0.49.3 (c)] and [bd version 1.0.0 (c)],
    false for [bd version 0.39.9 (c)] and for [invalid]. *)
Theorem bdSupportsDolt_lexicographic :
  (forall s : string,
     Doctor.bdSupportsDolt s = true <->
     exists f1 f2 ver rest major minor,
       GoStrings.Fields s = f1 :: f2 :: ver :: rest /\
       Spec.scanned_version ver = Some (major, minor) /\
       Spec.lexicographic_ge (major, minor) (0, 40)) /\
  Doctor.bdSupportsDolt "bd version 0.49.3 (c)" = true /\
  Doctor.bdSupportsDolt "bd version 1.0.0 (c)" = true /\
  Doctor.bdSupportsDolt "bd version 0.39.9 (c)" = false /\
  Doctor.bdSupportsDolt "invalid" = false.
Proof.
  split; [| repeat split; vm_compute; reflexivity].
  intros s. split.
  - intros H.
    destruct (GoStrings.Fields s) as [|f1 [|f2 [|ver rest]]] eqn:HF;
      try (rewrite bdSupportsDolt_short in H by (rewrite HF; simpl; lia); discriminate).
    rewrite (bdSupportsDolt_fields s f1 f2 ver rest HF) in H.
    destruct (Spec.scanned_version ver) as [[major minor]|] eqn:HV; [| discriminate].
    exists f1, f2, ver, rest, major, minor.
    split; [reflexivity |]. split; [exact HV |].
    exact (proj1 (version_test_lexicographic major minor) H).
  - intros (f1 & f2 & ver & rest & major & minor & HF & HV & Hge).
    rewrite (bdSupportsDolt_fields s f1 f2 ver rest HF), HV.
    exact (proj2 (version_test_lexicographic major minor) Hge).
Qed.

(** C7 as stated fails.  [bd version 1.0.0 (c)] has the stated form with
    (major, minor) = (1, 0), which is not componentwise at least (0, 40),
    and the code returns true for it; and whichever order is meant, the code
    also returns true for [x y 1.0], which does not have the stated form. *)
Lemma bdSupportsDolt_not_componentwise :
  ~ (forall s : string,
       Doctor.bdSupportsDolt s = true <->
       exists major minor,
         Spec.stated_version s = Some (major, minor) /\
         Spec.componentwise_ge (major, minor) (0, 40)) /\
  ~ (forall s : string,
       Doctor.bdSupportsDolt s = true <->
       exists major minor,
         Spec.stated_version s = Some (major, minor) /\
         Spec.lexicographic_ge (major, minor) (0, 40)).
Proof.
  split; intros H.
  - destruct (proj1 (H "bd version 1.0.0 (c)") eq_refl) as (major & minor & Hv & _ & Hminor).
    vm_compute in Hv. injection Hv as <- <-. simpl in Hminor. lia.
  - destruct (proj1 (H "x y 1.0") eq_refl) as (major & minor & Hv & _).
    vm_compute in Hv. discriminate Hv.
Qed.

(** *** The role-cost tier policy *)

Section CostTiers.
Import CostTier.

Lemma IsValidTier_In (t : string) :
  IsValidTier t = true <-> In t ["standard"; "economy"; "budget"].
Proof.
  unfold IsValidTier, TierStandard, TierEconomy, TierBudget. simpl.
  rewrite !orb_true_iff, !String.eqb_eq. intuition congruence.
Qed.

Lemma CostTierRoleAgents_valid (t : string) :
  IsValidTier t = true -> exists ra, CostTierRoleAgents t = Some ra.
Proof.
  unfold IsValidTier, CostTierRoleAgents.
  destruct (String.eqb t TierStandard); [eauto |].
  destruct (String.eqb t TierEconomy); [eauto |].
  destruct (String.eqb t TierBudget); [eauto | discriminate].
Qed.

Lemma CostTierRoleAgents_invalid (t : string) :
  IsValidTier t = false -> CostTierRoleAgents t = None.
Proof.
  unfold IsValidTier, CostTierRoleAgents.
  destruct (String.eqb t TierStandard); [discriminate |].
  destruct (String.eqb t TierEconomy); [discriminate |].
  destruct (String.eqb t TierBudget); [discriminate | reflexivity].
Qed.

(** A map of role agents matches itself. *)
Lemma roleAgentsMatch_refl (m : option (gmap string string)) :
  roleAgentsMatch m m = true.
Proof.
  unfold roleAgentsMatch.
  destruct (go_len m =? 0)%nat eqn:E0; [reflexivity |].
  rewrite Nat.eqb_refl. simpl.
  destruct m as [g|]; [| reflexivity].
  apply forallb_forall. intros [k v] Hin.
  apply list_elem_of_In in Hin. simpl in Hin.
  apply elem_of_map_to_list in Hin.
  unfold go_index. simpl. rewrite Hin. simpl. apply String.eqb_refl.
Qed.

Lemma GetCurrentTier_applied (ra : gmap string string)
    (ag : option (gmap string RuntimeConfig)) (t : string) :
  IsValidTier t = true ->
  CostTierRoleAgents t = Some ra ->
  GetCurrentTier {| RoleAgents := Some ra; Agents := ag; CostTier := t |} = t.
Proof.
  intros Hv Hra. unfold GetCurrentTier. simpl.
  rewrite Hv, Hra, roleAgentsMatch_refl.
  destruct (String.eqb_spec t "") as [-> | _]; [discriminate Hv | reflexivity].
Qed.

End CostTiers.

(** C10.  For a tier [t] among standard, economy and budget and any
    settings, [ApplyCostTier] returns no error and [GetCurrentTier] on the
    settings it leaves returns [t]; for any other tier name [ApplyCostTier]
    returns an error and leaves the settings, their role agents included,
    as they were. *)
Theorem ApplyCostTier_then_GetCurrentTier (settings : CostTier.TownSettings) (t : string) :
  (In t ["standard"; "economy"; "budget"] ->
   exists settings',
     CostTier.ApplyCostTier settings t = (settings', None) /\
     CostTier.GetCurrentTier settings' = t) /\
  (~ In t ["standard"; "economy"; "budget"] ->
   exists err, CostTier.ApplyCostTier settings t = (settings, Some err)).
Proof.
  split; intros Ht.
  - apply IsValidTier_In in Ht.
    destruct (CostTierRoleAgents_valid t Ht) as [ra Hra].
    unfold CostTier.ApplyCostTier. rewrite Hra.
    eexists. split; [reflexivity |].
    now apply GetCurrentTier_applied.
  - assert (Hv : CostTier.IsValidTier t = false).
    { destruct (CostTier.IsValidTier t) eqn:E; [| reflexivity].
      apply IsValidTier_In in E. contradiction. }
    unfold CostTier.ApplyCostTier. rewrite (CostTierRoleAgents_invalid t Hv). eauto.
Qed.

(** Runs of C10 on settings that hold custom role agents and a stale tier
    name: the economy tier round-trips, the unknown tier [premium] is
    refused. *)
Lemma ApplyCostTier_then_GetCurrentTier_witness :
  (exists settings',
     CostTier.ApplyCostTier
       (CostTier.mkTownSettings (Some {[ "mayor" := "some-custom-agent" ]}) None "budget")
       "economy" = (settings', None) /\
     CostTier.GetCurrentTier settings' = "economy") /\
  (exists err,
     CostTier.ApplyCostTier
       (CostTier.mkTownSettings (Some {[ "mayor" := "some-custom-agent" ]}) None "budget")
       "premium"
     = (CostTier.mkTownSettings (Some {[ "mayor" := "some-custom-agent" ]}) None "budget",
        Some err)).
Proof.
  split.
  - apply (proj1 (ApplyCostTier_then_GetCurrentTier _ "economy")). simpl. tauto.
  - apply (proj2 (ApplyCostTier_then_GetCurrentTier _ "premium")).
    simpl. intros [H | [H | [H | []]]]; discriminate H.
Defined.

(** *** Discovery of migratable databases *)

Section MigratableTargets.
Import Doltserver.
Variable os_Stat : string -> StatResult.
Variable os_ReadDir : string -> option (list DirEntry).
Variable ResolveBeadsDir : string -> string.

(** What the two stats of [migrationsFor] establish for a migration it
    proposes. *)
Lemma migrationsFor_In (config : Config) (rigName source : string) (m : Migration) :
  In m (migrationsFor os_Stat config rigName source) ->
  m = mkMigration rigName source (Join (DataDir config) rigName) /\
  os_Stat (Join source ".dolt") = StatOk /\
  os_Stat (Join (Join (DataDir config) rigName) ".dolt") = StatNotExist.
Proof.
  unfold migrationsFor.
  destruct (os_Stat (Join source ".dolt")) eqn:Hs; simpl; try contradiction.
  destruct (os_Stat (Join (Join (DataDir config) rigName) ".dolt")) eqn:Ht;
    simpl; try contradiction.
  intros [<- | []]. auto.
Qed.

(** Every proposed migration comes from [migrationsFor] on the default
    configuration of the town. *)
Lemma FindMigratableDatabases_In (townRoot : string) (m : Migration) :
  In m (FindMigratableDatabases os_Stat os_ReadDir ResolveBeadsDir townRoot) ->
  exists rigName source,
    In m (migrationsFor os_Stat (DefaultConfig townRoot) rigName source).
Proof.
  unfold FindMigratableDatabases.
  destruct (os_ReadDir townRoot) as [entries|]; [| eauto].
  intros H. apply in_app_or in H. destruct H as [H | H]; [eauto |].
  apply in_flat_map in H. destruct H as (entry & _ & H).
  destruct (negb (entry_IsDir entry) || GoStrings.HasPrefix (entry_Name entry) ".");
    [destruct H | eauto].
Qed.

Lemma FindMigratableDatabases_target (townRoot : string) (m : Migration) :
  In m (FindMigratableDatabases os_Stat os_ReadDir ResolveBeadsDir townRoot) ->
  TargetPath m = Join (Join townRoot ".dolt-data") (RigName m) /\
  os_Stat (Join (TargetPath m) ".dolt") = StatNotExist.
Proof.
  intros H. apply FindMigratableDatabases_In in H. destruct H as (rigName & source & H).
  apply migrationsFor_In in H. destruct H as (-> & _ & Ht). simpl in *. auto.
Qed.

End MigratableTargets.

(** C5.  Every migration that [FindMigratableDatabases] proposes targets
    [<town>/.dolt-data/<rig>], and the stat of [.dolt] inside that target
    failed with a not-exist error: the target does not contain the
    backend's metadata directory.  So a rig whose [.dolt-data/<rig>/.dolt]
    is there (or cannot be examined) is never proposed. *)
Theorem FindMigratableDatabases_target_free
    (os_Stat : string -> Doltserver.StatResult)
    (os_ReadDir : string -> option (list Doltserver.DirEntry))
    (ResolveBeadsDir : string -> string) (townRoot : string) :
  (forall m,
     In m (Doltserver.FindMigratableDatabases os_Stat os_ReadDir ResolveBeadsDir townRoot) ->
     Doltserver.TargetPath m = Join (Join townRoot ".dolt-data") (Doltserver.RigName m) /\
     os_Stat (Join (Doltserver.TargetPath m) ".dolt") = Doltserver.StatNotExist) /\
  (forall rigName,
     os_Stat (Join (Join (Join townRoot ".dolt-data") rigName) ".dolt")
       <> Doltserver.StatNotExist ->
     forall m,
       In m (Doltserver.FindMigratableDatabases os_Stat os_ReadDir ResolveBeadsDir townRoot) ->
       Doltserver.RigName m <> rigName).
Proof.
  split.
  - intros m Hm. now apply FindMigratableDatabases_target in Hm.
  - intros rigName Hstat m Hm <-. apply Hstat.
    apply FindMigratableDatabases_target in Hm. destruct Hm as [Htarget Hfree].
    now rewrite <- Htarget.
Qed.

(** A run of C5 on a town with one legacy rig ([nexus], behind a redirect)
    and one rig that was migrated already: only [nexus] is proposed, and its
    target holds no [.dolt]. *)
Lemma FindMigratableDatabases_target_free_witness :
  Doltserver.FindMigratableDatabases
    Sample.legacy_stat Sample.legacy_readdir Sample.legacy_resolve Sample.town
  = [ Doltserver.mkMigration "nexus" "/town/nexus/mayor/rig/.beads/dolt/beads"
        "/town/.dolt-data/nexus" ] /\
  Sample.legacy_stat "/town/.dolt-data/nexus/.dolt" = Doltserver.StatNotExist /\
  (forall m,
     In m (Doltserver.FindMigratableDatabases
             Sample.legacy_stat Sample.legacy_readdir Sample.legacy_resolve Sample.town) ->
     Doltserver.RigName m <> "already").
Proof.
  split; [reflexivity |]. split.
  - apply (proj1 (FindMigratableDatabases_target_free
                    Sample.legacy_stat Sample.legacy_readdir Sample.legacy_resolve Sample.town)
             (Doltserver.mkMigration "nexus" "/town/nexus/mayor/rig/.beads/dolt/beads"
                "/town/.dolt-data/nexus")).
    simpl. left. reflexivity.
  - apply (proj2 (FindMigratableDatabases_target_free
                    Sample.legacy_stat Sample.legacy_readdir Sample.legacy_resolve Sample.town)
             "already").
    vm_compute. discriminate.
Defined.

(** *** The step-drift detector *)

Section StepDriftFlag.
Import StepDrift.
Variable FindFromCwd : option string.
Variable stepDriftRig : string.
Variable listAllPolecats : list polecatInfo.
Variable findDoltBranch : string -> string -> string -> string.
Variable findWispID : string -> string.
Variable readStepStatus : string -> string -> gmap string bool.
Variable sessionAgeMinutes : string -> string -> float.
Variable fetchBeadTitle : string -> string.
Variable ToLower : string -> string.
Variable int_of_float64 : float -> Z.
Variable rangeOrder : string -> gmap string bool -> list (string * bool).

Abbreviation check := (checkStepDrift FindFromCwd stepDriftRig listAllPolecats findDoltBranch
                     findWispID readStepStatus sessionAgeMinutes fetchBeadTitle ToLower
                     int_of_float64 rangeOrder).
Abbreviation result_of := (driftResult findDoltBranch findWispID readStepStatus
                         sessionAgeMinutes fetchBeadTitle ToLower int_of_float64 rangeOrder).

(** Every result of a run is the loop body applied to a listed polecat. *)
Lemma checkStepDrift_In (thresholdMinutes : Z) (r : StepDriftResult) :
  In r (check thresholdMinutes) ->
  exists townRoot p,
    In p listAllPolecats /\ r = result_of townRoot thresholdMinutes p.
Proof.
  unfold checkStepDrift. destruct FindFromCwd as [townRoot|]; [| intros []].
  intros H. apply in_map_iff in H. destruct H as (p & <- & Hp).
  exists townRoot, p. split; [| reflexivity].
  destruct (negb (String.eqb stepDriftRig "")); [| exact Hp].
  apply filter_In in Hp. tauto.
Qed.





End StepDriftFlag.


(** *** The spawning guard of the health supervisor *)

Section SpawningGuard.
Import Daemon.

Lemma crashedCheck_absent (hasSession : string -> bool) (mayRestart : bool)
    (rig name : string) :
  hasSession (PolecatSessionName rig name) = false ->
  crashedCheck hasSession mayRestart rig name
  = LogCrashDetected :: (if mayRestart then [TriggerRestart] else []).
Proof. intros H. unfold crashedCheck. rewrite H. reflexivity. Qed.

Lemma checkPolecatHealth_spawning (now : Z) (hasSession : string -> bool)
    (mayRestart : bool) (rig name : string) (bead : AgentBead) :
  agent_state bead = "spawning" ->
  checkPolecatHealth now hasSession mayRestart rig name bead =
  if now - updated_at bead <=? spawningGrace then [LogSpawningSkip]
  else LogSpawningGuardExpired :: crashedCheck hasSession mayRestart rig name.
Proof. intros H. unfold checkPolecatHealth. rewrite H. reflexivity. Qed.

End SpawningGuard.

(** C3.  For a polecat whose [agent_state] column is [spawning]: when
    [updated_at] is at most five minutes before now the health check logs
    the spawning skip and does nothing else, whether or not the session
    exists (no CRASH DETECTED, no restart); when [updated_at] is more than
    five minutes before now it logs that the spawning guard expired and goes
    on to the crashed-check, which logs CRASH DETECTED when the session is
    absent (and then restarts when the capacity and quiesce rules allow). *)
Theorem checkPolecatHealth_spawning_guard
    (now : Z) (hasSession : string -> bool) (mayRestart : bool)
    (rig name : string) (bead : Daemon.AgentBead) :
  Daemon.agent_state bead = "spawning" ->
  (now - Daemon.updated_at bead <= 5 * 60 ->
   Daemon.checkPolecatHealth now hasSession mayRestart rig name bead
     = [Daemon.LogSpawningSkip] /\
   ~ In Daemon.LogCrashDetected
       (Daemon.checkPolecatHealth now hasSession mayRestart rig name bead) /\
   ~ In Daemon.TriggerRestart
       (Daemon.checkPolecatHealth now hasSession mayRestart rig name bead)) /\
  (5 * 60 < now - Daemon.updated_at bead ->
   Daemon.checkPolecatHealth now hasSession mayRestart rig name bead
     = Daemon.LogSpawningGuardExpired :: Daemon.crashedCheck hasSession mayRestart rig name /\
   (hasSession (Daemon.PolecatSessionName rig name) = false ->
    In Daemon.LogCrashDetected
      (Daemon.checkPolecatHealth now hasSession mayRestart rig name bead) /\
    (mayRestart = true ->
     In Daemon.TriggerRestart
       (Daemon.checkPolecatHealth now hasSession mayRestart rig name bead)))).
Proof.
  intros Hstate. rewrite (checkPolecatHealth_spawning _ _ _ _ _ _ Hstate).
  unfold Daemon.spawningGrace. split; intros Hage.
  - destruct (Z.leb_spec (now - Daemon.updated_at bead) (5 * 60)) as [_ | Hgt]; [| lia].
    split; [reflexivity |]. split; intros [H | []]; discriminate H.
  - destruct (Z.leb_spec (now - Daemon.updated_at bead) (5 * 60)) as [Hle | _]; [lia |].
    split; [reflexivity |]. intros Habsent.
    rewrite (crashedCheck_absent _ _ _ _ Habsent). split.
    + simpl. auto.
    + intros ->. simpl. auto.
Qed.

(** Scenarios C and D: the session is absent; a bead updated now is
    skipped, one updated ten minutes ago is reported as crashed and
    restarted. *)
Lemma checkPolecatHealth_spawning_guard_witness :
  Daemon.checkPolecatHealth 1700000600 (fun _ => false) true "myr" "mycat"
    (Daemon.mkAgentBead "spawning" "agent_state: spawning" 1700000600 "gt-xyz")
  = [Daemon.LogSpawningSkip] /\
  Daemon.checkPolecatHealth 1700000600 (fun _ => false) true "myr" "mycat"
    (Daemon.mkAgentBead "spawning" "agent_state: spawning" 1700000000 "gt-xyz")
  = [Daemon.LogSpawningGuardExpired; Daemon.LogCrashDetected; Daemon.TriggerRestart].
Proof.
  split.
  - apply (proj1 (checkPolecatHealth_spawning_guard 1700000600 (fun _ => false) true
                    "myr" "mycat"
                    (Daemon.mkAgentBead "spawning" "agent_state: spawning" 1700000600 "gt-xyz")
                    eq_refl)).
    simpl. lia.
  - rewrite (proj1 (proj2 (checkPolecatHealth_spawning_guard 1700000600 (fun _ => false) true
                    "myr" "mycat"
                    (Daemon.mkAgentBead "spawning" "agent_state: spawning" 1700000000 "gt-xyz")
                    eq_refl) ltac:(simpl; lia))).
    reflexivity.
Defined.

(** *** The metadata reconciler *)

Section Paths.
Import GoStrings Doltserver.

Lemma string_app_assoc (a b c : string) : (a ++ b) ++ c = a ++ (b ++ c).
Proof.
  induction a as [|x a IH]; [reflexivity |].
  change (String x ((a ++ b) ++ c) = String x (a ++ (b ++ c))). now rewrite IH.
Qed.

Lemma string_app_length (a b : string) :
  String.length (a ++ b) = (String.length a + String.length b)%nat.
Proof.
  induction a as [|x a IH]; [reflexivity |].
  change (S (String.length (a ++ b)) = S (String.length a + String.length b)).
  now rewrite IH.
Qed.

Lemma rev_app_length (a b : string) :
  String.length (String.rev_app a b) = (String.length a + String.length b)%nat.
Proof.
  revert b. induction a as [|x a IH]; intros b; simpl; [reflexivity |].
  rewrite IH. simpl. lia.
Qed.

Lemma Join_length (dir elem : string) :
  String.length (Join dir elem) = (String.length dir + 1 + String.length elem)%nat.
Proof. unfold Join. rewrite !string_app_length. simpl. lia. Qed.

(** What [os.MkdirAll] creates is never longer than the path asked for,
    and the path itself is among it. *)
Lemma ancestors_go_length (s acc a : string) :
  In a (ancestors_go acc s) ->
  (String.length a <= String.length acc + String.length s)%nat.
Proof.
  revert acc. induction s as [|c s IH]; intros acc; simpl.
  - intros [<- | []]. unfold String.rev. rewrite rev_app_length. simpl. lia.
  - intros H. apply in_app_or in H. destruct H as [H | H].
    + destruct (Ascii.eqb c "/" && negb (String.eqb acc "")); [| destruct H].
      destruct H as [<- | []]. unfold String.rev. rewrite rev_app_length. simpl. lia.
    + apply IH in H. simpl in H. lia.
Qed.

Lemma ancestors_length (p a : string) :
  In a (ancestors p) -> (String.length a <= String.length p)%nat.
Proof. intros H. apply ancestors_go_length in H. simpl in H. exact H. Qed.

Lemma ancestors_go_self (s acc : string) :
  In (String.rev_app acc s) (ancestors_go acc s).
Proof.
  revert acc. induction s as [|c s IH]; intros acc; simpl.
  - left. reflexivity.
  - apply in_or_app. right. apply (IH (String c acc)).
Qed.

Lemma ancestors_self (p : string) : In p (ancestors p).
Proof. exact (ancestors_go_self p EmptyString). Qed.

Lemma Join_not_ancestor (dir elem : string) : ~ In (Join dir elem) (ancestors dir).
Proof. intros H. apply ancestors_length in H. rewrite Join_length in H. lia. Qed.

(** The canonical store directory of a rig is not inside its legacy one,
    nor is it the legacy directory's record. *)
Lemma mayorBeads_not_ancestor (base : string) :
  ~ In (Join (Join (Join base "mayor") "rig") ".beads") (ancestors (Join base ".beads")).
Proof.
  intros H. apply ancestors_length in H. rewrite !Join_length in H. simpl in H. lia.
Qed.

Lemma mayorBeads_not_record (base : string) :
  Join (Join (Join base "mayor") "rig") ".beads" <> Join (Join base ".beads") "metadata.json".
Proof.
  unfold Join. rewrite !string_app_assoc. intros H.
  apply String.app_inj in H. discriminate H.
Qed.

End Paths.

Section MetadataRecord.
Import GoStrings Doltserver.
Context {value : Type}.
Variable VString : string -> value.

(** The record after the upsert, key by key. *)
Lemma setDoltFields_lookup (rigName : string) (m : gmap string value) (k : string) :
  setDoltFields VString rigName m !! k =
  if decide (k = "dolt_database") then Some (VString rigName)
  else if decide (k = "dolt_mode") then Some (VString "server")
  else if decide (k = "backend") then Some (VString "dolt")
  else if decide (k = "database") then Some (VString "dolt")
  else if decide (k = "jsonl_export")
       then Some (default (VString "issues.jsonl") (m !! "jsonl_export"))
       else m !! k.
Proof.
  unfold setDoltFields.
  rewrite !(lookup_insert_ne _ _ "jsonl_export") by discriminate.
  destruct (m !! "jsonl_export") as [v|] eqn:Hj; repeat case_decide; subst;
    simplify_map_eq; try reflexivity.
Qed.

Lemma setDoltFields_idempotent (rigName : string) (m : gmap string value) :
  setDoltFields VString rigName (setDoltFields VString rigName m)
  = setDoltFields VString rigName m.
Proof.
  apply map_eq. intros k. rewrite !setDoltFields_lookup.
  repeat case_decide; try reflexivity; try discriminate.
Qed.

Lemma setDoltFields_empty (rigName : string) :
  setDoltFields VString rigName ∅ = Spec.default_record VString rigName.
Proof.
  apply map_eq. intros k. rewrite setDoltFields_lookup. unfold Spec.default_record.
  repeat case_decide; subst; simplify_map_eq; try reflexivity.
Qed.

End MetadataRecord.

Section Reconciler.
Import GoStrings Doltserver.
Context {value : Type}.
Variable VString : string -> value.
Variable json_decode : string -> decoded value.
Variable json_MarshalIndent : gmap string value -> string + error.

Abbreviation ensure := (EnsureMetadata VString json_decode json_MarshalIndent).
Abbreviation load := (loadExisting json_decode).
Abbreviation upsert := (setDoltFields VString).

(** [os.MkdirAll] leaves the files alone and adds the ancestors. *)
Lemma os_MkdirAll_inl (fs fs1 : FS) (p : string) :
  os_MkdirAll fs p = inl fs1 ->
  fs_dirs fs1 = fs_dirs fs ∪ list_to_set (ancestors p) /\
  fs_files fs1 = fs_files fs /\
  existsb (fun a => bool_decide (is_Some (fs_files fs !! a))) (ancestors p) = false.
Proof.
  unfold os_MkdirAll.
  destruct (existsb _ (ancestors p)) eqn:E; [discriminate |].
  intros [= <-]. auto.
Qed.

(** The load step reads the file system through the record's file only. *)
Lemma loadExisting_files (fs fs' : FS) (path : string) :
  fs_files fs' !! path = fs_files fs !! path -> load fs' path = load fs path.
Proof. intros H. unfold loadExisting, os_ReadFile. now rewrite H. Qed.

Lemma os_Stat_ok_later (fs fs' : FS) (bd q : string) :
  fs_dirs fs' = fs_dirs fs ∪ list_to_set (ancestors bd) ->
  (forall p, p <> Join bd "metadata.json" -> fs_files fs' !! p = fs_files fs !! p) ->
  q <> Join bd "metadata.json" ->
  (os_Stat_ok fs q = true -> os_Stat_ok fs' q = true) /\
  (~ In q (ancestors bd) -> os_Stat_ok fs' q = os_Stat_ok fs q) /\
  (In q (ancestors bd) -> os_Stat_ok fs' q = true).
Proof.
  intros Hd Hf Hq. unfold os_Stat_ok. rewrite Hd, (Hf q Hq).
  split; [| split].
  - rewrite !orb_true_iff, !bool_decide_eq_true, elem_of_union. tauto.
  - intros Hn. f_equal. apply bool_decide_ext.
    rewrite elem_of_union, elem_of_list_to_set, list_elem_of_In. tauto.
  - intros Hin. apply orb_true_iff. left. apply bool_decide_eq_true.
    rewrite elem_of_union, elem_of_list_to_set, list_elem_of_In. tauto.
Qed.

Lemma Join_neq_self (dir elem : string) : dir <> Join dir elem.
Proof.
  intros H. apply (f_equal String.length) in H. rewrite Join_length in H. lia.
Qed.

(** Once the store directory of a rig is made, and whatever is then written
    to its record, the same directory is found again. *)
Lemma FindRigBeadsDir_later (fs fs' : FS) (townRoot rigName : string) :
  fs_dirs fs' = fs_dirs fs ∪ list_to_set (ancestors (FindRigBeadsDir fs townRoot rigName)) ->
  (forall p, p <> metadataPath fs townRoot rigName ->
             fs_files fs' !! p = fs_files fs !! p) ->
  FindRigBeadsDir fs' townRoot rigName = FindRigBeadsDir fs townRoot rigName.
Proof.
  unfold metadataPath, FindRigBeadsDir.
  destruct (String.eqb rigName "hq"); [reflexivity |].
  set (base := Join townRoot rigName).
  set (mayorBeads := Join (Join (Join base "mayor") "rig") ".beads").
  set (rigBeads := Join base ".beads").
  destruct (os_Stat_ok fs mayorBeads) eqn:Hm.
  - intros Hd Hf.
    destruct (os_Stat_ok_later fs fs' mayorBeads mayorBeads Hd Hf (Join_neq_self _ _))
      as (Hmono & _ & _).
    now rewrite (Hmono Hm).
  - destruct (os_Stat_ok fs rigBeads) eqn:Hr; intros Hd Hf.
    + destruct (os_Stat_ok_later fs fs' rigBeads mayorBeads Hd Hf
                  (mayorBeads_not_record base)) as (_ & Hsame & _).
      rewrite (Hsame (mayorBeads_not_ancestor base)), Hm.
      destruct (os_Stat_ok_later fs fs' rigBeads rigBeads Hd Hf (Join_neq_self _ _))
        as (Hmono & _ & _).
      now rewrite (Hmono Hr).
    + destruct (os_Stat_ok_later fs fs' mayorBeads mayorBeads Hd Hf (Join_neq_self _ _))
        as (_ & _ & Hin).
      now rewrite (Hin (ancestors_self _)).
Qed.

(** Making the store directory a second time changes nothing. *)
Lemma os_MkdirAll_later (fs fs1 fs' : FS) (bd : string) :
  os_MkdirAll fs bd = inl fs1 ->
  fs_dirs fs' = fs_dirs fs1 ->
  (forall p, p <> Join bd "metadata.json" -> fs_files fs' !! p = fs_files fs !! p) ->
  os_MkdirAll fs' bd = inl fs'.
Proof.
  intros Hmk Hd Hf. apply os_MkdirAll_inl in Hmk. destruct Hmk as (Hd1 & _ & Hno).
  unfold os_MkdirAll.
  destruct (existsb (fun a => bool_decide (is_Some (fs_files fs' !! a))) (ancestors bd)) eqn:E.
  - apply existsb_exists in E. destruct E as (a & Ha & Hsome).
    rewrite Hf in Hsome
      by (intros ->; exact (Join_not_ancestor bd "metadata.json" Ha)).
    assert (Hyes : existsb (fun a => bool_decide (is_Some (fs_files fs !! a))) (ancestors bd)
                   = true) by (apply existsb_exists; eauto).
    congruence.
  - f_equal. destruct fs' as [dirs' files']. simpl in *. f_equal.
    rewrite Hd, Hd1. apply set_eq. intros x. rewrite !elem_of_union. tauto.
Qed.

(** One call, once the store directory is known and can be made. *)
Lemma EnsureMetadata_steps (fs fs1 : FS) (townRoot rigName : string) :
  String.eqb (FindRigBeadsDir fs townRoot rigName) "" = false ->
  os_MkdirAll fs (FindRigBeadsDir fs townRoot rigName) = inl fs1 ->
  ensure fs townRoot rigName =
  match load fs1 (metadataPath fs townRoot rigName) with
  | None => (fs1, Panicked "assignment to entry in nil map")
  | Some existing =>
      match json_MarshalIndent (upsert rigName existing) with
      | inr err => (fs1, Returned (Some (Wrapf "marshaling metadata: %w" [] err)))
      | inl data =>
          match AtomicWriteFile fs1 (metadataPath fs townRoot rigName) (data ++ newline) with
          | inr err => (fs1, Returned (Some (Wrapf "writing metadata.json: %w" [] err)))
          | inl fs2 => (fs2, Returned None)
          end
      end
  end.
Proof. intros Hne Hmk. unfold EnsureMetadata, metadataPath. now rewrite Hne, Hmk. Qed.

(** A second call on a state the first one left behind starts the same
    way: same directory, nothing to create. *)
Lemma EnsureMetadata_again (fs fs1 fs' : FS) (townRoot rigName : string) :
  String.eqb (FindRigBeadsDir fs townRoot rigName) "" = false ->
  os_MkdirAll fs (FindRigBeadsDir fs townRoot rigName) = inl fs1 ->
  fs_dirs fs' = fs_dirs fs1 ->
  (forall p, p <> metadataPath fs townRoot rigName ->
             fs_files fs' !! p = fs_files fs !! p) ->
  String.eqb (FindRigBeadsDir fs' townRoot rigName) "" = false /\
  os_MkdirAll fs' (FindRigBeadsDir fs' townRoot rigName) = inl fs' /\
  metadataPath fs' townRoot rigName = metadataPath fs townRoot rigName.
Proof.
  intros Hne Hmk Hd Hf.
  assert (Hbd : FindRigBeadsDir fs' townRoot rigName = FindRigBeadsDir fs townRoot rigName).
  { apply FindRigBeadsDir_later; [| exact Hf].
    rewrite Hd. now apply os_MkdirAll_inl in Hmk. }
  unfold metadataPath. rewrite Hbd. split; [exact Hne |]. split; [| reflexivity].
  now apply (os_MkdirAll_later fs fs1).
Qed.

(** The first call decides the second: when the codec reads back the
    record the first call printed, a second call leaves the state as it
    found it and ends the way the first one did. *)
Lemma EnsureMetadata_twice (fs : FS) (townRoot rigName : string) :
  (forall m, recordToWrite VString json_decode fs townRoot rigName = Some m ->
             json_roundtrips json_decode json_MarshalIndent m) ->
  ensure (fst (ensure fs townRoot rigName)) townRoot rigName = ensure fs townRoot rigName.
Proof.
  intros Hrt.
  destruct (String.eqb (FindRigBeadsDir fs townRoot rigName) "") eqn:Hne.
  { assert (E : ensure fs townRoot rigName
                = (fs, Returned (Some (Errorf "could not find .beads directory for rig %q"
                                        [rigName]))))
      by (unfold EnsureMetadata; now rewrite Hne).
    rewrite E. simpl. exact E. }
  destruct (os_MkdirAll fs (FindRigBeadsDir fs townRoot rigName)) as [fs1 | err] eqn:Hmk.
  2: { assert (E : ensure fs townRoot rigName
                   = (fs, Returned (Some (Wrapf "creating beads directory: %w" [] err))))
         by (unfold EnsureMetadata; now rewrite Hne, Hmk).
       rewrite E. simpl. exact E. }
  pose proof (os_MkdirAll_inl _ _ _ Hmk) as (Hd1 & Hf1 & _).
  assert (Hload1 : load fs1 (metadataPath fs townRoot rigName)
                   = load fs (metadataPath fs townRoot rigName))
    by (apply loadExisting_files; now rewrite Hf1).
  (* the second call, from the state after the directory was made *)
  destruct (EnsureMetadata_again fs fs1 fs1 townRoot rigName Hne Hmk eq_refl
              ltac:(intros p _; now rewrite Hf1)) as (Hne1 & Hmk1 & Hp1).
  pose proof (EnsureMetadata_steps fs1 fs1 townRoot rigName Hne1 Hmk1) as Hsecond.
  rewrite Hp1 in Hsecond.
  rewrite (EnsureMetadata_steps fs fs1 townRoot rigName Hne Hmk) in *.
  destruct (load fs1 (metadataPath fs townRoot rigName)) as [existing|] eqn:Hload;
    [| exact Hsecond].
  destruct (json_MarshalIndent (upsert rigName existing)) as [out | err] eqn:Hout;
    [| exact Hsecond].
  destruct (AtomicWriteFile fs1 (metadataPath fs townRoot rigName) (out ++ newline))
    as [fs2 | err] eqn:Hwr; [| exact Hsecond].
  clear Hsecond. simpl.
  (* the second call, from the state after the record was written *)
  unfold AtomicWriteFile in Hwr.
  destruct (bool_decide (metadataPath fs townRoot rigName ∈ fs_dirs fs1)) eqn:Hdir;
    [discriminate |].
  injection Hwr as <-.
  set (path := metadataPath fs townRoot rigName) in *.
  set (fs2 := {| fs_dirs := fs_dirs fs1;
                 fs_files := <[path := out ++ newline]> (fs_files fs1) |}).
  destruct (EnsureMetadata_again fs fs1 fs2 townRoot rigName Hne Hmk eq_refl
              ltac:(intros p Hp; simpl;
                    rewrite lookup_insert_ne by (intros Heq; apply Hp; symmetry; exact Heq);
                    now rewrite Hf1)) as (Hne2 & Hmk2 & Hp2).
  rewrite (EnsureMetadata_steps fs2 fs2 townRoot rigName Hne2 Hmk2), Hp2. fold path.
  assert (Hm : recordToWrite VString json_decode fs townRoot rigName
               = Some (upsert rigName existing)).
  { unfold recordToWrite. fold path. rewrite <- Hload1. reflexivity. }
  assert (Hload2 : load fs2 path = Some (upsert rigName existing)).
  { unfold loadExisting, os_ReadFile, json_Unmarshal. simpl.
    rewrite lookup_insert_eq, (Hrt _ Hm out Hout). simpl.
    now rewrite (right_id_L ∅ (∪)). }
  rewrite Hload2, setDoltFields_idempotent, Hout.
  unfold AtomicWriteFile. simpl. rewrite Hdir.
  unfold fs2. now rewrite insert_insert_eq.
Qed.

Lemma FindRigBeadsDir_nonempty (fs : FS) (townRoot rigName : string) :
  String.eqb (FindRigBeadsDir fs townRoot rigName) "" = false.
Proof.
  assert (H : forall dir elem, String.eqb (Join dir elem) "" = false)
    by (intros [|c dir] elem; reflexivity).
  unfold FindRigBeadsDir.
  repeat match goal with |- context [if ?b then _ else _] => destruct b end; apply H.
Qed.


End Reconciler.



(** C6.  The reconciler is idempotent.  From any state of the file system,
    provided the codec reads back the record the first call prints, a
    second call with the same arguments ends as the first one did and leaves
    the whole state, the record's file in particular, byte for byte as the
    first call left it.  (The order of the keys is the printer's business:
    the property holds for every printer.) *)
Theorem EnsureMetadata_idempotent {value : Type}
    (VString : string -> value) (json_decode : string -> Doltserver.decoded value)
    (json_MarshalIndent : gmap string value -> string + error)
    (fs : Doltserver.FS) (townRoot rigName : string) :
  (forall m,
     Doltserver.recordToWrite VString json_decode fs townRoot rigName = Some m ->
     Doltserver.json_roundtrips json_decode json_MarshalIndent m) ->
  Doltserver.EnsureMetadata VString json_decode json_MarshalIndent
    (fst (Doltserver.EnsureMetadata VString json_decode json_MarshalIndent
            fs townRoot rigName)) townRoot rigName
  = Doltserver.EnsureMetadata VString json_decode json_MarshalIndent fs townRoot rigName /\
  Doltserver.os_ReadFile
    (fst (Doltserver.EnsureMetadata VString json_decode json_MarshalIndent
            (fst (Doltserver.EnsureMetadata VString json_decode json_MarshalIndent
                    fs townRoot rigName)) townRoot rigName))
    (Doltserver.metadataPath fs townRoot rigName)
  = Doltserver.os_ReadFile
      (fst (Doltserver.EnsureMetadata VString json_decode json_MarshalIndent
              fs townRoot rigName))
      (Doltserver.metadataPath fs townRoot rigName).
Proof.
  intros Hrt.
  pose proof (EnsureMetadata_twice VString json_decode json_MarshalIndent
                fs townRoot rigName Hrt) as H.
  split; [exact H | now rewrite H].
Qed.

(** Scenario B run twice on the sample codec: the second call changes
    nothing, and the file holds the print of the reconciled record. *)
Lemma EnsureMetadata_idempotent_witness :
  Doltserver.EnsureMetadata id Sample.sample_decode Sample.sample_MarshalIndent
    (fst (Doltserver.EnsureMetadata id Sample.sample_decode Sample.sample_MarshalIndent
            Sample.scenarioB_fs Sample.town "hq")) Sample.town "hq"
  = Doltserver.EnsureMetadata id Sample.sample_decode Sample.sample_MarshalIndent
      Sample.scenarioB_fs Sample.town "hq" /\
  Doltserver.os_ReadFile
    (fst (Doltserver.EnsureMetadata id Sample.sample_decode Sample.sample_MarshalIndent
            Sample.scenarioB_fs Sample.town "hq"))
    "/town/.beads/metadata.json"
  = Some (Sample.print_record Sample.scenarioB_result ++ GoStrings.newline).
Proof.
  assert (Hrec : Doltserver.recordToWrite id Sample.sample_decode Sample.scenarioB_fs
                   Sample.town "hq" = Some Sample.scenarioB_result)
    by (vm_compute; reflexivity).
  assert (Hrt : forall m,
            Doltserver.recordToWrite id Sample.sample_decode Sample.scenarioB_fs
              Sample.town "hq" = Some m ->
            Doltserver.json_roundtrips Sample.sample_decode Sample.sample_MarshalIndent m).
  { intros m Hm. rewrite Hrec in Hm. injection Hm as <-.
    intros out Hout. injection Hout as <-. vm_compute. reflexivity. }
  split.
  - exact (proj1 (EnsureMetadata_idempotent id Sample.sample_decode
                    Sample.sample_MarshalIndent Sample.scenarioB_fs Sample.town "hq" Hrt)).
  - vm_compute. reflexivity.
Defined.

(** C9.  When the record's file holds text that is not valid JSON, the
    text is dropped without an error: if the store directory can be made,
    the record can be printed and the file can be replaced, the call returns
    no error and the file holds the print of a record with exactly the keys
    database, backend, dolt_mode, dolt_database and jsonl_export at their
    default values.  Nothing of the corrupt text is preserved. *)
Theorem EnsureMetadata_discards_corrupt {value : Type}
    (VString : string -> value) (json_decode : string -> Doltserver.decoded value)
    (json_MarshalIndent : gmap string value -> string + error)
    (fs fs1 : Doltserver.FS) (townRoot rigName data out : string) :
  Doltserver.os_ReadFile fs (Doltserver.metadataPath fs townRoot rigName) = Some data ->
  json_decode data = Doltserver.DecSyntaxError ->
  Doltserver.os_MkdirAll fs (Doltserver.FindRigBeadsDir fs townRoot rigName) = inl fs1 ->
  json_MarshalIndent (Spec.default_record VString rigName) = inl out ->
  Doltserver.metadataPath fs townRoot rigName ∉ Doltserver.fs_dirs fs1 ->
  Doltserver.EnsureMetadata VString json_decode json_MarshalIndent fs townRoot rigName
  = ({| Doltserver.fs_dirs := Doltserver.fs_dirs fs1;
        Doltserver.fs_files :=
          <[Doltserver.metadataPath fs townRoot rigName := out ++ GoStrings.newline]>
            (Doltserver.fs_files fs) |},
     Doltserver.Returned None) /\
  dom (Spec.default_record VString rigName)
  = list_to_set ["database"; "backend"; "dolt_mode"; "dolt_database"; "jsonl_export"] /\
  Spec.default_record VString rigName !! "database" = Some (VString "dolt") /\
  Spec.default_record VString rigName !! "backend" = Some (VString "dolt") /\
  Spec.default_record VString rigName !! "dolt_mode" = Some (VString "server") /\
  Spec.default_record VString rigName !! "dolt_database" = Some (VString rigName) /\
  Spec.default_record VString rigName !! "jsonl_export" = Some (VString "issues.jsonl").
Proof.
  intros Hfile Hdec Hmk Hout Hdir.
  split; [| split; [| repeat split; reflexivity]].
  - pose proof (os_MkdirAll_inl _ _ _ Hmk) as (_ & Hf1 & _).
    rewrite (EnsureMetadata_steps VString json_decode json_MarshalIndent fs fs1 townRoot rigName
               (FindRigBeadsDir_nonempty fs townRoot rigName) Hmk).
    rewrite (loadExisting_files json_decode fs fs1) by now rewrite Hf1.
    unfold Doltserver.loadExisting, Doltserver.json_Unmarshal. rewrite Hfile, Hdec. simpl.
    rewrite setDoltFields_empty, Hout.
    unfold Doltserver.AtomicWriteFile. rewrite bool_decide_eq_false_2 by exact Hdir.
    now rewrite Hf1.
  - unfold Spec.default_record. rewrite dom_list_to_map_L. reflexivity.
Qed.

(** A corrupt record of [hq] on the sample codec: the reconcile succeeds
    and leaves the five default members. *)
Lemma EnsureMetadata_discards_corrupt_witness :
  snd (Doltserver.EnsureMetadata id Sample.sample_decode Sample.sample_MarshalIndent
         Sample.corrupt_fs Sample.town "hq") = Doltserver.Returned None /\
  Doltserver.os_ReadFile
    (fst (Doltserver.EnsureMetadata id Sample.sample_decode Sample.sample_MarshalIndent
            Sample.corrupt_fs Sample.town "hq"))
    "/town/.beads/metadata.json"
  = Some (Sample.print_record Sample.hq_default ++ GoStrings.newline).
Proof.
  rewrite (proj1 (EnsureMetadata_discards_corrupt id Sample.sample_decode
                    Sample.sample_MarshalIndent Sample.corrupt_fs Sample.corrupt_fs
                    Sample.town "hq" "{not json" (Sample.print_record Sample.hq_default)
                    ltac:(vm_compute; reflexivity) ltac:(vm_compute; reflexivity)
                    ltac:(vm_compute; reflexivity) ltac:(reflexivity)
                    ltac:(apply (bool_decide_eq_false_1 _); vm_compute; reflexivity))).
  split; [reflexivity | vm_compute; reflexivity].
Defined.

(** ** Part III: further properties of the code *)

(** *** More on the role-cost tiers *)

Section CostTierInference.
Import CostTier.

(** When [roleAgentsMatch] answers yes the two maps have the same size. *)
Lemma roleAgentsMatch_len (a b : option (gmap string string)) :
  roleAgentsMatch a b = true -> go_len a = go_len b.
Proof.
  unfold roleAgentsMatch.
  destruct (go_len a =? 0)%nat eqn:Ea, (go_len b =? 0)%nat eqn:Eb; simpl.
  - intros _. apply Nat.eqb_eq in Ea, Eb. congruence.
  - destruct (go_len a =? go_len b)%nat eqn:E; simpl; [| discriminate].
    intros _. now apply Nat.eqb_eq.
  - destruct (go_len a =? go_len b)%nat eqn:E; simpl; [| discriminate].
    intros _. now apply Nat.eqb_eq.
  - destruct (go_len a =? go_len b)%nat eqn:E; simpl; [| discriminate].
    intros _. now apply Nat.eqb_eq.
Qed.

(** The three tiers assign different numbers of roles. *)
Lemma tier_len_inj (t1 t2 : string) :
  IsValidTier t1 = true -> IsValidTier t2 = true ->
  go_len (CostTierRoleAgents t1) = go_len (CostTierRoleAgents t2) -> t1 = t2.
Proof.
  intros H1 H2.
  apply IsValidTier_In in H1. apply IsValidTier_In in H2.
  simpl in H1, H2.
  destruct H1 as [<- | [<- | [<- | []]]]; destruct H2 as [<- | [<- | [<- | []]]];
    vm_compute; intros H; try reflexivity; discriminate H.
Qed.

Lemma roleAgentsMatch_tier_unique (a : option (gmap string string)) (t1 t2 : string) :
  IsValidTier t1 = true -> IsValidTier t2 = true ->
  roleAgentsMatch a (CostTierRoleAgents t1) = true ->
  roleAgentsMatch a (CostTierRoleAgents t2) = true -> t1 = t2.
Proof.
  intros H1 H2 M1 M2. apply tier_len_inj; trivial.
  apply roleAgentsMatch_len in M1, M2. congruence.
Qed.

(** The inference loop alone: the tier it returns matches. *)
Lemma find_tier_Some (a : option (gmap string string)) (t : string) :
  find (fun tierName => roleAgentsMatch a (CostTierRoleAgents tierName)) ValidCostTiers
    = Some t ->
  IsValidTier t = true /\ roleAgentsMatch a (CostTierRoleAgents t) = true.
Proof.
  intros H. apply find_some in H. destruct H as [Hin Hm]. split; [| exact Hm].
  apply IsValidTier_In. exact Hin.
Qed.

Lemma find_tier_None (a : option (gmap string string)) (t : string) :
  find (fun tierName => roleAgentsMatch a (CostTierRoleAgents tierName)) ValidCostTiers
    = None ->
  IsValidTier t = true -> roleAgentsMatch a (CostTierRoleAgents t) = false.
Proof.
  intros H Hv. apply IsValidTier_In in Hv.
  exact (find_none _ _ H t Hv).
Qed.

(** [GetCurrentTier] as a function of the role agents: the one valid tier
    that matches them, whatever the [CostTier] field says. *)
Lemma GetCurrentTier_matches (s : TownSettings) (t : string) :
  IsValidTier t = true ->
  roleAgentsMatch (RoleAgents s) (CostTierRoleAgents t) = true ->
  GetCurrentTier s = t.
Proof.
  intros Hv Hm. unfold GetCurrentTier.
  destruct (negb (String.eqb (CostTier s) "") && IsValidTier (CostTier s)
            && roleAgentsMatch (RoleAgents s) (CostTierRoleAgents (CostTier s))) eqn:E.
  - apply andb_true_iff in E. destruct E as [E Em].
    apply andb_true_iff in E. destruct E as [_ Ev].
    exact (roleAgentsMatch_tier_unique _ _ _ Ev Hv Em Hm).
  - destruct (find _ ValidCostTiers) as [t' |] eqn:F.
    + apply find_tier_Some in F. destruct F as [Hv' Hm'].
      exact (roleAgentsMatch_tier_unique _ _ _ Hv' Hv Hm' Hm).
    + rewrite (find_tier_None _ t F Hv) in Hm. discriminate Hm.
Qed.

Lemma GetCurrentTier_none (s : TownSettings) :
  (forall t, IsValidTier t = true ->
             roleAgentsMatch (RoleAgents s) (CostTierRoleAgents t) = false) ->
  GetCurrentTier s = "".
Proof.
  intros Hn. unfold GetCurrentTier.
  assert (Hfast : negb (String.eqb (CostTier s) "") && IsValidTier (CostTier s)
            && roleAgentsMatch (RoleAgents s) (CostTierRoleAgents (CostTier s)) = false).
  { destruct (IsValidTier (CostTier s)) eqn:Ev.
    - rewrite (Hn _ Ev). apply andb_false_r.
    - rewrite andb_false_r. reflexivity. }
  rewrite Hfast.
  destruct (find _ ValidCostTiers) as [t' |] eqn:F; [| reflexivity].
  apply find_tier_Some in F. destruct F as [Hv' Hm'].
  rewrite (Hn _ Hv') in Hm'. discriminate Hm'.
Qed.

Lemma tier_match_dec (a : option (gmap string string)) :
  (exists t, IsValidTier t = true /\ roleAgentsMatch a (CostTierRoleAgents t) = true) \/
  (forall t, IsValidTier t = true -> roleAgentsMatch a (CostTierRoleAgents t) = false).
Proof.
  destruct (find (fun tierName => roleAgentsMatch a (CostTierRoleAgents tierName))
              ValidCostTiers) as [t |] eqn:F.
  - left. exists t. now apply find_tier_Some.
  - right. intros t. now apply find_tier_None.
Qed.

End CostTierInference.

(** X1.  The tier [GetCurrentTier] reports is determined by the role agents
    alone: changing the informational [CostTier] field of the settings, to
    any string, does not change the answer. *)
Theorem GetCurrentTier_ignores_CostTier_field
    (ra : option (gmap string string)) (ag : option (gmap string CostTier.RuntimeConfig))
    (c1 c2 : string) :
  CostTier.GetCurrentTier (CostTier.mkTownSettings ra ag c1)
  = CostTier.GetCurrentTier (CostTier.mkTownSettings ra ag c2).
Proof.
  destruct (tier_match_dec ra) as [[t [Hv Hm]] | Hn].
  - rewrite (GetCurrentTier_matches (CostTier.mkTownSettings ra ag c1) t Hv Hm).
    rewrite (GetCurrentTier_matches (CostTier.mkTownSettings ra ag c2) t Hv Hm).
    reflexivity.
  - rewrite (GetCurrentTier_none (CostTier.mkTownSettings ra ag c1) Hn).
    rewrite (GetCurrentTier_none (CostTier.mkTownSettings ra ag c2) Hn).
    reflexivity.
Qed.

Section CostTierMaps.
Import CostTier.

Lemma go_len_size (m : option (gmap string string)) : go_len m = size (default ∅ m).
Proof. destruct m; simpl; [reflexivity | now rewrite map_size_empty]. Qed.

Lemma go_index_lookup (m : option (gmap string string)) (k : string) :
  go_index m k = default "" (default ∅ m !! k).
Proof. destruct m; simpl; [reflexivity | now rewrite lookup_empty]. Qed.

(** The loop of [roleAgentsMatch], entry by entry. *)
Lemma roleAgentsMatch_loop (a b : option (gmap string string)) :
  forallb (fun kv => String.eqb (go_index b (fst kv)) (snd kv)) (map_to_list (default ∅ a))
    = true <->
  (forall k v, default ∅ a !! k = Some v -> default "" (default ∅ b !! k) = v).
Proof.
  rewrite forallb_forall. split.
  - intros H k v Hkv. specialize (H (k, v)). simpl in H.
    rewrite go_index_lookup in H. apply String.eqb_eq. apply H.
    apply list_elem_of_In. now apply elem_of_map_to_list.
  - intros H [k v] Hin. simpl. rewrite go_index_lookup. apply String.eqb_eq.
    apply H. apply list_elem_of_In in Hin. now apply elem_of_map_to_list in Hin.
Qed.

Lemma roleAgentsMatch_sound (a b : option (gmap string string)) :
  (forall k, default ∅ a !! k <> Some "") ->
  roleAgentsMatch a b = true -> default ∅ a = default ∅ b.
Proof.
  intros Hne Hm. pose proof (roleAgentsMatch_len a b Hm) as Hlen.
  rewrite !go_len_size in Hlen.
  apply map_subseteq_size_eq; [| lia].
  apply map_subseteq_spec. intros k v Hkv.
  revert Hm. unfold roleAgentsMatch. rewrite !go_len_size.
  destruct (size (default ∅ a) =? 0)%nat eqn:Ea.
  - apply Nat.eqb_eq in Ea. apply map_size_empty_inv in Ea.
    rewrite Ea, lookup_empty in Hkv. discriminate Hkv.
  - simpl. rewrite Hlen, Nat.eqb_refl. simpl. intros Hloop.
    pose proof (proj1 (roleAgentsMatch_loop a b) Hloop k v Hkv) as Hb.
    destruct (default ∅ b !! k) as [w |] eqn:Ew; simpl in Hb.
    + now subst.
    + subst v. now destruct (Hne k).
Qed.

Lemma roleAgentsMatch_complete (a b : option (gmap string string)) :
  default ∅ a = default ∅ b -> roleAgentsMatch a b = true.
Proof.
  intros Heq. unfold roleAgentsMatch. rewrite !go_len_size, Heq, Nat.eqb_refl.
  destruct (size (default ∅ b) =? 0)%nat; simpl; [reflexivity |].
  apply roleAgentsMatch_loop. intros k v Hkv. rewrite Hkv. reflexivity.
Qed.

(** What a non-empty answer of [GetCurrentTier] rests on. *)
Lemma GetCurrentTier_inv (s : TownSettings) (t : string) :
  GetCurrentTier s = t -> t <> "" ->
  IsValidTier t = true /\ roleAgentsMatch (RoleAgents s) (CostTierRoleAgents t) = true.
Proof.
  unfold GetCurrentTier.
  destruct (negb (String.eqb (CostTier s) "") && IsValidTier (CostTier s)
            && roleAgentsMatch (RoleAgents s) (CostTierRoleAgents (CostTier s))) eqn:E.
  - intros <- _. apply andb_true_iff in E. destruct E as [E Em].
    apply andb_true_iff in E. destruct E as [_ Ev]. now split.
  - destruct (find _ ValidCostTiers) as [t' |] eqn:F.
    + intros <- _. now apply find_tier_Some.
    + intros <- Hne. now destruct Hne.
Qed.

Lemma IsValidTier_nonempty (t : string) : IsValidTier t = true -> t <> "".
Proof. intros Hv ->. discriminate Hv. Qed.

End CostTierMaps.

(** X2.  [roleAgentsMatch] decides equality of the two role maps (a nil map
    counting as the empty one) whenever the first map assigns no role the
    empty agent name. *)
Theorem roleAgentsMatch_decides_equality (a b : option (gmap string string)) :
  (forall k, default ∅ a !! k <> Some "") ->
  (CostTier.roleAgentsMatch a b = true <-> default ∅ a = default ∅ b).
Proof.
  intros Hne. split.
  - now apply roleAgentsMatch_sound.
  - apply roleAgentsMatch_complete.
Qed.

Lemma roleAgentsMatch_decides_equality_witness :
  CostTier.roleAgentsMatch (Some {[ "mayor" := "claude-sonnet" ]})
    (Some {[ "mayor" := "claude-sonnet" ]}) = true <->
  default ∅ (Some ({[ "mayor" := "claude-sonnet" ]} : gmap string string))
  = default ∅ (Some ({[ "mayor" := "claude-sonnet" ]} : gmap string string)).
Proof.
  apply (roleAgentsMatch_decides_equality (Some {[ "mayor" := "claude-sonnet" ]})
           (Some {[ "mayor" := "claude-sonnet" ]})).
  intros k. simpl. destruct (decide (k = "mayor")) as [-> | Hk].
  - rewrite lookup_singleton_eq. discriminate.
  - rewrite lookup_singleton_ne by congruence. discriminate.
Defined.

(** X3.  An entry of the first map whose agent name is empty matches a role
    that the second map does not have, so [roleAgentsMatch] can accept two
    different maps and is not symmetric: with roles [x <> y] and an agent
    [z] that is not empty, [{x: ""}] matches [{y: z}] but [{y: z}] does not
    match [{x: ""}]. *)
Theorem roleAgentsMatch_empty_agent_asymmetry (x y z : string) :
  x <> y -> z <> "" ->
  CostTier.roleAgentsMatch (Some {[ x := "" ]}) (Some {[ y := z ]}) = true /\
  CostTier.roleAgentsMatch (Some {[ y := z ]}) (Some {[ x := "" ]}) = false.
Proof.
  intros Hxy Hz. unfold CostTier.roleAgentsMatch. simpl.
  rewrite !map_size_singleton. simpl. rewrite !map_to_list_singleton. simpl.
  rewrite lookup_singleton_ne by congruence.
  rewrite lookup_singleton_ne by congruence. simpl.
  split; [reflexivity |].
  destruct z; [now destruct Hz | reflexivity].
Qed.

Lemma roleAgentsMatch_empty_agent_asymmetry_witness :
  CostTier.roleAgentsMatch (Some {[ "witness" := "" ]}) (Some {[ "crew" := "claude-haiku" ]})
    = true /\
  CostTier.roleAgentsMatch (Some {[ "crew" := "claude-haiku" ]}) (Some {[ "witness" := "" ]})
    = false.
Proof.
  apply (roleAgentsMatch_empty_agent_asymmetry "witness" "crew" "claude-haiku");
    discriminate.
Defined.

(** X4.  When no role of the settings is assigned the empty agent name,
    [GetCurrentTier] names a tier among standard, economy and budget exactly
    when the role agents of the settings are that tier's role agents. *)
Theorem GetCurrentTier_exact (s : CostTier.TownSettings) (t : string) :
  (forall k, default ∅ (CostTier.RoleAgents s) !! k <> Some "") ->
  CostTier.IsValidTier t = true ->
  (CostTier.GetCurrentTier s = t <->
   default ∅ (CostTier.RoleAgents s) = default ∅ (CostTier.CostTierRoleAgents t)).
Proof.
  intros Hne Hv. split.
  - intros Hg. apply roleAgentsMatch_sound; [exact Hne |].
    exact (proj2 (GetCurrentTier_inv s t Hg (IsValidTier_nonempty t Hv))).
  - intros Heq. apply GetCurrentTier_matches; [exact Hv |].
    now apply roleAgentsMatch_complete.
Qed.

Lemma GetCurrentTier_exact_witness :
  CostTier.GetCurrentTier (CostTier.mkTownSettings None None "budget") = "standard" <->
  default ∅ (None : option (gmap string string))
  = default ∅ (CostTier.CostTierRoleAgents "standard").
Proof.
  apply (GetCurrentTier_exact (CostTier.mkTownSettings None None "budget") "standard").
  - intros k. simpl. rewrite lookup_empty. discriminate.
  - reflexivity.
Defined.

Section CostTierApply.
Import CostTier.

Lemma ApplyCostTier_valid (s : TownSettings) (t : string) :
  IsValidTier t = true ->
  ApplyCostTier s t
  = ({| RoleAgents := CostTierRoleAgents t;
        Agents := Some (if String.eqb t TierStandard
                        then delete "claude-haiku" (delete "claude-sonnet" (default ∅ (Agents s)))
                        else default ∅ (CostTierAgents t) ∪ default ∅ (Agents s));
        CostTier := t |}, None).
Proof.
  intros Hv. destruct (CostTierRoleAgents_valid t Hv) as [ra Hra].
  unfold ApplyCostTier. rewrite Hra. reflexivity.
Qed.

Lemma presets_lookup (t name : string) :
  IsValidTier t = true -> String.eqb t TierStandard = false ->
  default ∅ (CostTierAgents t) !! name =
    if String.eqb name "claude-sonnet" then Some claudeSonnetPreset
    else if String.eqb name "claude-haiku" then Some claudeHaikuPreset
    else None.
Proof.
  intros Hv Hs. apply IsValidTier_In in Hv. simpl in Hv.
  destruct Hv as [<- | [<- | [<- | []]]]; [discriminate Hs | |];
    unfold CostTierAgents; simpl;
    (destruct (String.eqb_spec name "claude-sonnet") as [-> | H1];
     [ reflexivity |];
     destruct (String.eqb_spec name "claude-haiku") as [-> | H2];
     [ reflexivity |]);
    rewrite !lookup_insert_ne by congruence; apply lookup_empty.
Qed.

Lemma ApplyCostTier_agents_lookup (s : TownSettings) (t name : string) :
  IsValidTier t = true ->
  default ∅ (Agents (fst (ApplyCostTier s t))) !! name =
    if String.eqb name "claude-sonnet" then
      if String.eqb t TierStandard then None else Some claudeSonnetPreset
    else if String.eqb name "claude-haiku" then
      if String.eqb t TierStandard then None else Some claudeHaikuPreset
    else default ∅ (Agents s) !! name.
Proof.
  intros Hv. rewrite (ApplyCostTier_valid s t Hv). simpl.
  destruct (String.eqb t TierStandard) eqn:Hs.
  - destruct (String.eqb_spec name "claude-sonnet") as [-> | H1].
    + rewrite lookup_delete_ne by discriminate. apply lookup_delete_eq.
    + destruct (String.eqb_spec name "claude-haiku") as [-> | H2].
      * apply lookup_delete_eq.
      * rewrite !lookup_delete_ne by congruence. reflexivity.
  - rewrite lookup_union, (presets_lookup t name Hv Hs).
    destruct (String.eqb name "claude-sonnet").
    + now destruct (default ∅ (Agents s) !! name).
    + destruct (String.eqb name "claude-haiku").
      * now destruct (default ∅ (Agents s) !! name).
      * now destruct (default ∅ (Agents s) !! name).
Qed.

(** Every agent a tier assigns to a role is one of the two presets. *)
Lemma CostTierRoleAgents_values (t role agent : string) :
  default ∅ (CostTierRoleAgents t) !! role = Some agent ->
  agent = "claude-sonnet" \/ agent = "claude-haiku".
Proof.
  unfold CostTierRoleAgents.
  destruct (String.eqb t TierStandard); simpl.
  { rewrite lookup_empty. discriminate. }
  destruct (String.eqb t TierEconomy); simpl.
  { intros H.
    repeat (apply lookup_insert_Some in H;
            destruct H as [[_ <-] | [_ H]]; [tauto |]).
    rewrite lookup_empty in H. discriminate H. }
  destruct (String.eqb t TierBudget); simpl.
  { intros H.
    repeat (apply lookup_insert_Some in H;
            destruct H as [[_ <-] | [_ H]]; [tauto |]).
    rewrite lookup_empty in H. discriminate H. }
  rewrite lookup_empty. discriminate.
Qed.

Lemma CostTierRoleAgents_standard_empty (t : string) :
  String.eqb t TierStandard = true -> default ∅ (CostTierRoleAgents t) = ∅.
Proof. intros H. unfold CostTierRoleAgents. rewrite H. reflexivity. Qed.

End CostTierApply.

(** X5.  Applying a valid tier touches two agent definitions only: every
    agent of the settings other than [claude-sonnet] and [claude-haiku] is
    defined afterwards exactly as it was before. *)
Theorem ApplyCostTier_keeps_other_agents (s : CostTier.TownSettings) (t name : string) :
  CostTier.IsValidTier t = true ->
  name <> "claude-sonnet" -> name <> "claude-haiku" ->
  default ∅ (CostTier.Agents (fst (CostTier.ApplyCostTier s t))) !! name
  = default ∅ (CostTier.Agents s) !! name.
Proof.
  intros Hv H1 H2. rewrite (ApplyCostTier_agents_lookup s t name Hv).
  apply String.eqb_neq in H1, H2. rewrite H1, H2. reflexivity.
Qed.

Lemma ApplyCostTier_keeps_other_agents_witness :
  default ∅ (CostTier.Agents (fst (CostTier.ApplyCostTier
     (CostTier.mkTownSettings None
        (Some {[ "codex" := CostTier.mkRuntimeConfig "codex" ["--fast"] ]}) "")
     "budget"))) !! "codex"
  = default ∅ (Some ({[ "codex" := CostTier.mkRuntimeConfig "codex" ["--fast"] ]}
                     : gmap string CostTier.RuntimeConfig)) !! "codex".
Proof.
  apply (ApplyCostTier_keeps_other_agents
           (CostTier.mkTownSettings None
              (Some {[ "codex" := CostTier.mkRuntimeConfig "codex" ["--fast"] ]}) "")
           "budget" "codex"); [reflexivity | discriminate | discriminate].
Defined.

(** X6.  After a valid tier is applied no role refers to an agent that is
    not defined: every agent the settings then assign to a role is in the
    agents map, bound to the preset of that name, whatever definition of
    that name the settings held before. *)
Theorem ApplyCostTier_roles_resolve (s : CostTier.TownSettings) (t role agent : string) :
  CostTier.IsValidTier t = true ->
  default ∅ (CostTier.RoleAgents (fst (CostTier.ApplyCostTier s t))) !! role = Some agent ->
  default ∅ (CostTier.Agents (fst (CostTier.ApplyCostTier s t))) !! agent
  = Some (if String.eqb agent "claude-sonnet"
          then CostTier.claudeSonnetPreset else CostTier.claudeHaikuPreset).
Proof.
  intros Hv Hrole. rewrite (ApplyCostTier_agents_lookup s t agent Hv).
  rewrite (ApplyCostTier_valid s t Hv) in Hrole. simpl in Hrole.
  destruct (String.eqb t CostTier.TierStandard) eqn:Hs.
  - rewrite (CostTierRoleAgents_standard_empty t Hs), lookup_empty in Hrole.
    discriminate Hrole.
  - destruct (CostTierRoleAgents_values t role agent Hrole) as [-> | ->]; reflexivity.
Qed.

Lemma ApplyCostTier_roles_resolve_witness :
  default ∅ (CostTier.Agents (fst (CostTier.ApplyCostTier
     (CostTier.mkTownSettings None
        (Some {[ "claude-haiku" := CostTier.mkRuntimeConfig "my-haiku" [] ]}) "")
     "economy"))) !! "claude-haiku"
  = Some (if String.eqb "claude-haiku" "claude-sonnet"
          then CostTier.claudeSonnetPreset else CostTier.claudeHaikuPreset).
Proof.
  apply (ApplyCostTier_roles_resolve
           (CostTier.mkTownSettings None
              (Some {[ "claude-haiku" := CostTier.mkRuntimeConfig "my-haiku" [] ]}) "")
           "economy" "deacon" "claude-haiku"); [reflexivity | vm_compute; reflexivity].
Defined.

(** X7.  The last tier wins: applying a valid tier to settings to which
    some tier name, valid or not, was applied before gives the settings and
    result that applying it to the original settings gives. *)
Theorem ApplyCostTier_last_wins (s : CostTier.TownSettings) (t1 t2 : string) :
  CostTier.IsValidTier t2 = true ->
  CostTier.ApplyCostTier (fst (CostTier.ApplyCostTier s t1)) t2
  = CostTier.ApplyCostTier s t2.
Proof.
  intros Hv2.
  destruct (CostTier.IsValidTier t1) eqn:Hv1.
  - rewrite (ApplyCostTier_valid _ t2 Hv2), (ApplyCostTier_valid s t2 Hv2).
    f_equal. f_equal. f_equal.
    pose proof (fun name => ApplyCostTier_agents_lookup s t1 name Hv1) as L1.
    set (ag1 := default ∅ (CostTier.Agents (fst (CostTier.ApplyCostTier s t1)))) in *.
    destruct (String.eqb t2 CostTier.TierStandard) eqn:Hs2.
    + apply map_eq. intros name.
      destruct (String.eqb_spec name "claude-haiku") as [-> | H2].
      { now rewrite !lookup_delete_eq. }
      rewrite !(lookup_delete_ne _ "claude-haiku") by congruence.
      destruct (String.eqb_spec name "claude-sonnet") as [-> | H1].
      { now rewrite !lookup_delete_eq. }
      rewrite !lookup_delete_ne by congruence.
      rewrite L1. apply String.eqb_neq in H1, H2. now rewrite H1, H2.
    + apply map_eq. intros name.
      rewrite !lookup_union, L1, (presets_lookup t2 name Hv2 Hs2).
      destruct (String.eqb name "claude-sonnet").
      { destruct (String.eqb t1 CostTier.TierStandard);
          now destruct (default ∅ (CostTier.Agents s) !! name). }
      destruct (String.eqb name "claude-haiku").
      { destruct (String.eqb t1 CostTier.TierStandard);
          now destruct (default ∅ (CostTier.Agents s) !! name). }
      reflexivity.
  - unfold CostTier.ApplyCostTier at 2.
    rewrite (CostTierRoleAgents_invalid t1 Hv1). reflexivity.
Qed.

Lemma ApplyCostTier_last_wins_witness :
  CostTier.ApplyCostTier
    (fst (CostTier.ApplyCostTier (CostTier.mkTownSettings None None "") "budget"))
    "standard"
  = CostTier.ApplyCostTier (CostTier.mkTownSettings None None "") "standard".
Proof.
  apply (ApplyCostTier_last_wins (CostTier.mkTownSettings None None "") "budget" "standard").
  reflexivity.
Defined.

(** *** More on the step-drift detector *)

Section StepDriftMore.
Import Proc StepDrift Nudge.
Variable FindFromCwd : option string.
Variable stepDriftRig : string.
Variable listAllPolecats : list polecatInfo.
Variable findDoltBranch : string -> string -> string -> string.
Variable findWispID : string -> string.
Variable readStepStatus : string -> string -> gmap string bool.
Variable sessionAgeMinutes : string -> string -> float.
Variable fetchBeadTitle : string -> string.
Variable ToLower : string -> string.
Variable int_of_float64 : float -> Z.
Variable rangeOrder : string -> gmap string bool -> list (string * bool).

Lemma count_fold_bounds (p : string -> bool) (l : list string) (c : Z) :
  c <= fold_left (fun count step => if p step then count + 1 else count) l c
    <= c + Z.of_nat (length l).
Proof.
  revert c. induction l as [| x l IH]; intros c; simpl.
  - lia.
  - destruct (p x).
    + specialize (IH (c + 1)). lia.
    + specialize (IH c). lia.
Qed.

Lemma countClosedSteps_bounds (statuses : gmap string bool) :
  0 <= countClosedSteps ToLower rangeOrder statuses <= 9.
Proof.
  unfold countClosedSteps.
  pose proof (count_fold_bounds (fun step => matchStep ToLower rangeOrder step statuses)
                stepsOrder 0) as H.
  simpl length in H. simpl Z.of_nat in H. lia.
Qed.

Lemma nudgeDrifting_spec (run : Runner) (results : list StepDriftResult) (tr : Trace) :
  nudgeDrifting run results tr
  = ((tr ++ map nudgeCommand (List.filter Drifting results))%list,
     map (fun r => if Drifting r then setNudged r else r) results).
Proof.
  revert tr. induction results as [| r rest IH]; intros tr; simpl.
  - now rewrite app_nil_r.
  - destruct (Drifting r) eqn:Hd.
    + unfold Run. rewrite IH. simpl. now rewrite <- app_assoc.
    + now rewrite IH.
Qed.

End StepDriftMore.

(** X8.  Every result of [checkStepDrift] counts between 0 and 9 closed
    steps out of a total of 9, whatever step names, and however many of
    them, the status map of the polecat holds. *)
Theorem checkStepDrift_closed_within_total
    (FindFromCwd : option string) (stepDriftRig : string)
    (listAllPolecats : list StepDrift.polecatInfo)
    (findDoltBranch : string -> string -> string -> string)
    (findWispID : string -> string)
    (readStepStatus : string -> string -> gmap string bool)
    (sessionAgeMinutes : string -> string -> float)
    (fetchBeadTitle : string -> string)
    (ToLower : string -> string) (int_of_float64 : float -> Z)
    (rangeOrder : string -> gmap string bool -> list (string * bool))
    (threshold : Z) (r : StepDrift.StepDriftResult) :
  In r (StepDrift.checkStepDrift FindFromCwd stepDriftRig listAllPolecats findDoltBranch
          findWispID readStepStatus sessionAgeMinutes fetchBeadTitle ToLower
          int_of_float64 rangeOrder threshold) ->
  0 <= StepDrift.Closed r <= StepDrift.Total r /\ StepDrift.Total r = 9.
Proof.
  intros Hin. apply checkStepDrift_In in Hin.
  destruct Hin as [townRoot [p [_ ->]]].
  unfold StepDrift.driftResult. simpl.
  pose proof (countClosedSteps_bounds ToLower rangeOrder
                (readStepStatus (findWispID (StepDrift.bead p))
                   (findDoltBranch townRoot (StepDrift.rig p) (StepDrift.name p)))) as H.
  lia.
Qed.

Lemma checkStepDrift_closed_within_total_witness :
  0 <= StepDrift.Closed Sample.drift_toast <= StepDrift.Total Sample.drift_toast /\
  StepDrift.Total Sample.drift_toast = 9.
Proof.
  apply (checkStepDrift_closed_within_total (Some Sample.town) "" Sample.drift_polecats
           Sample.drift_branch Sample.drift_wisp Sample.drift_statuses Sample.drift_age
           (fun _ => "?") Sample.ToLower_ascii (fun _ => 0) (fun _ m => map_to_list m)
           StepDrift.defaultThreshold Sample.drift_toast).
  simpl. left. reflexivity.
Defined.

(** X9.  [nudgeDrifting] runs one [gt nudge <rig>/<name> <message>] for
    each drifting result, in order, and nothing for the others; it marks
    exactly the drifting results as nudged and leaves the other results as
    they were.  This holds whatever the nudge commands answer: a failed
    nudge is marked as nudged too. *)
Theorem nudgeDrifting_exactly_drifting (run : Proc.Runner)
    (results : list StepDrift.StepDriftResult) (tr : Proc.Trace) :
  fst (Nudge.nudgeDrifting run results tr)
  = (tr ++ map Nudge.nudgeCommand
             (List.filter StepDrift.Drifting results))%list /\
  snd (Nudge.nudgeDrifting run results tr)
  = map (fun r => if StepDrift.Drifting r then Nudge.setNudged r else r) results.
Proof. rewrite nudgeDrifting_spec. split; reflexivity. Qed.

(** X10.  After a detector run followed by [nudgeDrifting], a result is
    marked nudged if and only if it is marked drifting. *)
Theorem checkStepDrift_nudged_iff_drifting
    (FindFromCwd : option string) (stepDriftRig : string)
    (listAllPolecats : list StepDrift.polecatInfo)
    (findDoltBranch : string -> string -> string -> string)
    (findWispID : string -> string)
    (readStepStatus : string -> string -> gmap string bool)
    (sessionAgeMinutes : string -> string -> float)
    (fetchBeadTitle : string -> string)
    (ToLower : string -> string) (int_of_float64 : float -> Z)
    (rangeOrder : string -> gmap string bool -> list (string * bool))
    (threshold : Z) (run : Proc.Runner) (tr : Proc.Trace)
    (r : StepDrift.StepDriftResult) :
  In r (snd (Nudge.nudgeDrifting run
          (StepDrift.checkStepDrift FindFromCwd stepDriftRig listAllPolecats findDoltBranch
             findWispID readStepStatus sessionAgeMinutes fetchBeadTitle ToLower
             int_of_float64 rangeOrder threshold) tr)) ->
  StepDrift.Nudged r = StepDrift.Drifting r.
Proof.
  rewrite nudgeDrifting_spec. simpl. intros Hin.
  apply in_map_iff in Hin. destruct Hin as [r0 [<- Hin0]].
  apply checkStepDrift_In in Hin0. destruct Hin0 as [townRoot [p [_ ->]]].
  destruct (StepDrift.Drifting _) eqn:Hd.
  - simpl. symmetry. exact Hd.
  - rewrite Hd. reflexivity.
Qed.

Lemma checkStepDrift_nudged_iff_drifting_witness :
  StepDrift.Nudged (Nudge.setNudged Sample.drift_toast)
  = StepDrift.Drifting (Nudge.setNudged Sample.drift_toast).
Proof.
  apply (checkStepDrift_nudged_iff_drifting (Some Sample.town) "" Sample.drift_polecats
           Sample.drift_branch Sample.drift_wisp Sample.drift_statuses Sample.drift_age
           (fun _ => "?") Sample.ToLower_ascii (fun _ => 0) (fun _ m => map_to_list m)
           StepDrift.defaultThreshold Sample.failing_run []
           (Nudge.setNudged Sample.drift_toast)).
  vm_compute. left. reflexivity.
Defined.

(** *** More on the branch operations *)

Section BranchOps.
Import GoStrings Proc Doltserver GoFmt Branches.

Lemma list_ascii_app (a b : string) :
  list_ascii_of_string (a ++ b) = (list_ascii_of_string a ++ list_ascii_of_string b)%list.
Proof.
  induction a as [| c a IH].
  - reflexivity.
  - change (c :: list_ascii_of_string (a ++ b)
            = c :: (list_ascii_of_string a ++ list_ascii_of_string b)%list).
    now rewrite IH.
Qed.

Lemma uint_digits_valid (d : Decimal.uint) :
  forallb validBranchByte (list_ascii_of_string (NilEmpty.string_of_uint d)) = true.
Proof. induction d; simpl; try exact IHd; reflexivity. Qed.

Lemma Itoa_valid (n : Z) :
  forallb validBranchByte (list_ascii_of_string (Itoa n)) = true.
Proof.
  unfold Itoa, NilZero.string_of_int.
  destruct (Z.to_int n) as [d | d]; unfold NilZero.string_of_uint.
  - destruct d; try reflexivity; apply uint_digits_valid.
  - change (validBranchByte "-"%char
            && forallb validBranchByte
                 (list_ascii_of_string
                    match d with
                    | Decimal.Nil => "0"
                    | _ => NilEmpty.string_of_uint d
                    end) = true).
    destruct d; try reflexivity; apply uint_digits_valid.
Qed.

Lemma lowerByte_valid (c : ascii) : validBranchByte (lowerByte c) = validBranchByte c.
Proof. destruct c as [[] [] [] [] [] [] [] []]; vm_compute; reflexivity. Qed.

Lemma mapBytes_lower_valid (s : string) :
  forallb validBranchByte (list_ascii_of_string (mapBytes lowerByte s))
  = forallb validBranchByte (list_ascii_of_string s).
Proof.
  induction s as [| c s IH]; simpl; [reflexivity |].
  now rewrite lowerByte_valid, IH.
Qed.

Lemma validateBranchName_polecat (rest : string) :
  validateBranchName ("polecat-" ++ rest) = None <->
  forallb validBranchByte (list_ascii_of_string rest) = true.
Proof.
  unfold validateBranchName.
  change ("polecat-" ++ rest) with
    (String "p" (String "o" (String "l" (String "e" (String "c" (String "a"
       (String "t" (String "-" rest)))))))).
  cbn [String.eqb Ascii.eqb]. unfold validBranchNameRe_MatchString.
  cbn [list_ascii_of_string forallb].
  change (validBranchByte "p") with true. change (validBranchByte "o") with true.
  change (validBranchByte "l") with true. change (validBranchByte "e") with true.
  change (validBranchByte "c") with true. change (validBranchByte "a") with true.
  change (validBranchByte "t") with true. change (validBranchByte "-") with true.
  cbn [andb].
  destruct (forallb validBranchByte (list_ascii_of_string rest)); simpl; split; congruence.
Qed.

Lemma PolecatBranchName_valid (unicodeLower : string -> string) (now : Z) (name : string) :
  validateBranchName (PolecatBranchName unicodeLower now name) = None <->
  forallb validBranchByte (list_ascii_of_string (ToLower unicodeLower name)) = true.
Proof.
  unfold PolecatBranchName. rewrite validateBranchName_polecat.
  rewrite list_ascii_app, forallb_app, list_ascii_app, forallb_app.
  rewrite Itoa_valid. change (forallb validBranchByte (list_ascii_of_string "-")) with true.
  rewrite !andb_true_r. reflexivity.
Qed.

End BranchOps.

(** X11.  The name [PolecatBranchName] builds passes [validateBranchName]
    exactly when every byte of the lower-cased polecat name is in the class
    [[a-zA-Z0-9._/-]]: the prefix, the separator and the time stamp (also a
    negative one) never make it fail.  For a polecat name of ASCII bytes
    that is exactly when every byte of the name itself is in the class. *)
Theorem PolecatBranchName_valid_iff (unicodeLower : string -> string) (now : Z)
    (name : string) :
  (Doltserver.validateBranchName (Branches.PolecatBranchName unicodeLower now name) = None <->
   forallb Doltserver.validBranchByte
     (list_ascii_of_string (GoFmt.ToLower unicodeLower name)) = true) /\
  (GoFmt.isASCII name = true ->
   (Doltserver.validateBranchName (Branches.PolecatBranchName unicodeLower now name) = None <->
    forallb Doltserver.validBranchByte (list_ascii_of_string name) = true)).
Proof.
  split.
  - apply PolecatBranchName_valid.
  - intros Ha. rewrite PolecatBranchName_valid. unfold GoFmt.ToLower. rewrite Ha.
    rewrite mapBytes_lower_valid. reflexivity.
Qed.

Lemma PolecatBranchName_valid_iff_witness :
  Branches.PolecatBranchName (fun s => s) 1700000000 "Toast" = "polecat-toast-1700000000" /\
  (Doltserver.validateBranchName
     (Branches.PolecatBranchName (fun s => s) 1700000000 "Toast") = None <->
   forallb Doltserver.validBranchByte (list_ascii_of_string "Toast") = true).
Proof.
  split; [vm_compute; reflexivity |].
  apply (proj2 (PolecatBranchName_valid_iff (fun s => s) 1700000000 "Toast")).
  reflexivity.
Defined.

Section BranchMerge.
Import GoStrings Proc Doltserver GoFmt Branches.

Lemma string_app_inv_head (a b c : string) : a ++ b = a ++ c -> b = c.
Proof.
  induction a as [| x a IH]; intros H; [exact H |].
  apply IH. change (String x (a ++ b) = String x (a ++ c)) in H. now injection H.
Qed.

Lemma sqlCommand_inj (townRoot rigDB q1 q2 : string) :
  sqlCommand townRoot rigDB q1 = sqlCommand townRoot rigDB q2 -> q1 = q2.
Proof.
  unfold sqlCommand. intros H. injection H as H.
  apply string_app_inv_head in H. apply string_app_inv_head in H.
  apply (string_app_inv_head "; ") in H. exact H.
Qed.

Lemma doltSQL_unfold (run : Runner) (townRoot rigDB query : string) (tr : Trace) :
  doltSQL run townRoot rigDB query tr
  = ((tr ++ [sqlCommand townRoot rigDB query])%list,
     match res_err (run tr (sqlCommand townRoot rigDB query)) with
     | Some e =>
         Some (Wrapf "%w (output: %s)"
                 [TrimSpace (res_output (run tr (sqlCommand townRoot rigDB query)))]
                 (ExitError e))
     | None => None
     end).
Proof.
  unfold doltSQL, CombinedOutput, sqlCommand.
  destruct (res_err (run tr _)); reflexivity.
Qed.

Lemma forceDelete_neq_checkout (B : string) : forceDeleteBranch B <> checkoutMain.
Proof. intros H. vm_compute in H. discriminate H. Qed.

Lemma forceDelete_neq_merge (B : string) : forceDeleteBranch B <> mergeBranch B.
Proof. intros H. vm_compute in H. discriminate H. Qed.

Lemma validateBranchName_match (B : string) :
  validateBranchName B = None <-> validBranchNameRe_MatchString B = true.
Proof.
  unfold validateBranchName.
  destruct (String.eqb_spec B "") as [-> | Hne]; [simpl; split; discriminate |].
  destruct (validBranchNameRe_MatchString B); simpl; split; congruence.
Qed.

Lemma MergePolecatBranch_cases (run : Runner) (townRoot rigDB B : string) (tr : Trace)
    (out : list printed) :
  let c1 := sqlCommand townRoot rigDB checkoutMain in
  let c2 := sqlCommand townRoot rigDB (mergeBranch B) in
  let c3 := sqlCommand townRoot rigDB (forceDeleteBranch B) in
  validateBranchName B = None ->
  match res_err (run tr c1) with
  | Some _ =>
      exists err, MergePolecatBranch run townRoot rigDB B tr out
                  = ((tr ++ [c1])%list, out, Some err)
  | None =>
      match res_err (run (tr ++ [c1])%list c2) with
      | Some _ =>
          exists err, MergePolecatBranch run townRoot rigDB B tr out
                      = ((tr ++ [c1; c2])%list, out, Some err)
      | None =>
          exists out', MergePolecatBranch run townRoot rigDB B tr out
                       = ((tr ++ [c1; c2; c3])%list, out', None)
      end
  end.
Proof.
  intros c1 c2 c3 Hv. unfold MergePolecatBranch. rewrite Hv.
  rewrite doltSQL_unfold.
  change (sqlCommand townRoot rigDB "CALL DOLT_CHECKOUT('main')") with c1.
  destruct (res_err (run tr c1)) as [e1 |]; [eauto |].
  rewrite doltSQL_unfold.
  change (sqlCommand townRoot rigDB ("CALL DOLT_MERGE('" ++ B ++ "')")) with c2.
  destruct (res_err (run (tr ++ [c1])%list c2)) as [e2 |].
  { rewrite <- app_assoc. simpl. eauto. }
  rewrite doltSQL_unfold.
  change (sqlCommand townRoot rigDB ("CALL DOLT_BRANCH('-D', '" ++ B ++ "')")) with c3.
  rewrite <- !app_assoc. simpl.
  destruct (res_err (run (tr ++ [c1; c2])%list c3)); eauto.
Qed.

End BranchMerge.

(** X12.  [MergePolecatBranch] returns no error exactly when the branch
    name matches the regular expression and both the checkout of [main]
    and the merge succeeded; the forced deletion of the branch is run
    exactly in that case, and its own failure changes nothing in the result.
    The merge is run only after a successful checkout, and a name that does
    not match runs nothing. *)
Theorem MergePolecatBranch_deletes_only_after_merge
    (run : Proc.Runner) (townRoot rigDB B : string) (tr : Proc.Trace)
    (out : list printed) :
  let c1 := Branches.sqlCommand townRoot rigDB Branches.checkoutMain in
  let c2 := Branches.sqlCommand townRoot rigDB (Branches.mergeBranch B) in
  let c3 := Branches.sqlCommand townRoot rigDB (Branches.forceDeleteBranch B) in
  let R := Branches.MergePolecatBranch run townRoot rigDB B tr out in
  exists ext,
    fst (fst R) = (tr ++ ext)%list /\
    (snd R = None <->
     Doltserver.validBranchNameRe_MatchString B = true /\
     Proc.res_err (run tr c1) = None /\
     Proc.res_err (run (tr ++ [c1])%list c2) = None) /\
    (In c3 ext <-> snd R = None) /\
    (In c2 ext -> Proc.res_err (run tr c1) = None) /\
    (Doltserver.validBranchNameRe_MatchString B = false -> ext = []).
Proof.
  intros c1 c2 c3 R. subst R.
  assert (H31 : c3 <> c1).
  { intros H. apply sqlCommand_inj in H. now apply forceDelete_neq_checkout in H. }
  assert (H32 : c3 <> c2).
  { intros H. apply sqlCommand_inj in H. now apply forceDelete_neq_merge in H. }
  assert (H21 : c2 <> c1).
  { intros H. apply sqlCommand_inj in H. vm_compute in H. discriminate H. }
  destruct (Doltserver.validateBranchName B) as [e |] eqn:Ev.
  { assert (Hm : Doltserver.validBranchNameRe_MatchString B = false).
    { destruct (Doltserver.validBranchNameRe_MatchString B) eqn:E; [| reflexivity].
      apply validateBranchName_match in E. congruence. }
    exists []. unfold Branches.MergePolecatBranch. rewrite Ev. simpl.
    rewrite app_nil_r, Hm.
    split; [reflexivity |]. split; [| split; [| split]].
    - split; [discriminate | intros [H _]; discriminate H].
    - split; [intros [] | discriminate].
    - intros [].
    - reflexivity. }
  pose proof (MergePolecatBranch_cases run townRoot rigDB B tr out Ev) as Hc.
  cbv zeta in Hc. fold c1 c2 c3 in Hc.
  apply validateBranchName_match in Ev. rewrite Ev.
  destruct (Proc.res_err (run tr c1)) as [e1 |] eqn:E1.
  { destruct Hc as [err ->]. exists [c1]. simpl.
    split; [reflexivity |]. split; [| split; [| split]].
    - split; [discriminate | intros (_ & H & _); discriminate H].
    - split; [| discriminate]. intros [H | []]. now destruct H31.
    - intros [H | []]. now destruct H21.
    - discriminate. }
  destruct (Proc.res_err (run (tr ++ [c1])%list c2)) as [e2 |] eqn:E2.
  { destruct Hc as [err ->]. exists [c1; c2]. simpl.
    split; [reflexivity |]. split; [| split; [| split]].
    - split; [discriminate | intros (_ & _ & H); discriminate H].
    - split; [| discriminate].
      intros [H | [H | []]]; [now destruct H31 | now destruct H32].
    - reflexivity.
    - discriminate. }
  destruct Hc as [out' ->]. exists [c1; c2; c3]. simpl.
  split; [reflexivity |]. split; [| split; [| split]].
  - split; [intros _; repeat split; reflexivity | reflexivity].
  - split; [reflexivity |]. intros _. tauto.
  - reflexivity.
  - discriminate.
Qed.

Section BranchDelete.
Import GoStrings Proc Doltserver Branches.

Lemma snoc_neq_self {A : Type} (l : list A) (x : A) : (l ++ [x])%list <> l.
Proof.
  intros H. apply (f_equal (@length A)) in H. rewrite length_app in H. simpl in H. lia.
Qed.

End BranchDelete.

(** X13.  [DeletePolecatBranch] is best effort.  For a name that does not
    match the regular expression it runs nothing and prints one warning.
    For a name that matches it runs exactly one statement, the unforced
    deletion [DOLT_BRANCH('-d', ...)], and prints a warning exactly when
    that statement failed. *)
Theorem DeletePolecatBranch_best_effort
    (run : Proc.Runner) (townRoot rigDB B : string) (tr : Proc.Trace)
    (out : list printed) :
  let c := Branches.sqlCommand townRoot rigDB (Branches.deleteBranch B) in
  let R := Branches.DeletePolecatBranch run townRoot rigDB B tr out in
  (Doltserver.validBranchNameRe_MatchString B = false ->
   fst R = tr /\ exists w, snd R = (out ++ [w])%list) /\
  (Doltserver.validBranchNameRe_MatchString B = true ->
   fst R = (tr ++ [c])%list /\
   (snd R = out <-> Proc.res_err (run tr c) = None) /\
   (Proc.res_err (run tr c) <> None -> exists w, snd R = (out ++ [w])%list)).
Proof.
  intros c R. subst R. unfold Branches.DeletePolecatBranch.
  destruct (Doltserver.validateBranchName B) as [e |] eqn:Ev.
  - split.
    + intros _. simpl. eauto.
    + intros Hm. apply validateBranchName_match in Hm. congruence.
  - split.
    + intros Hm. apply validateBranchName_match in Ev. congruence.
    + intros _. rewrite doltSQL_unfold.
      change (Branches.sqlCommand townRoot rigDB ("CALL DOLT_BRANCH('-d', '" ++ B ++ "')"))
        with c.
      destruct (Proc.res_err (run tr c)) as [e1 |]; simpl.
      * split; [reflexivity |]. split.
        -- split; [| discriminate]. intros H. now apply snoc_neq_self in H.
        -- intros _. eauto.
      * split; [reflexivity |]. split; [tauto |]. intros H. now destruct H.
Qed.

(** *** The rig of the working directory *)

Section InferRig.
Import GoStrings CrewCmd.

Lemma split_go_nonempty (sep : ascii) (cur s : string) : split_go sep cur s <> [].
Proof.
  revert cur. induction s as [| c s IH]; intros cur; simpl; [discriminate |].
  destruct (Ascii.eqb c sep); [discriminate | apply IH].
Qed.

Lemma SplitList_length (path : string) :
  (length (SplitList path) =? 0)%nat = String.eqb path "".
Proof.
  unfold SplitList. destruct (String.eqb path "") eqn:E; [reflexivity |].
  unfold Split. pose proof (split_go_nonempty ":" EmptyString path) as H.
  destruct (split_go ":" EmptyString path); [now destruct H | reflexivity].
Qed.

End InferRig.

(** X14.  [inferRigFromCwd] never infers a rig: wherever the working
    directory lies, inside a rig of the town or not, it returns the empty
    rig name together with an error.  ([filepath.SplitList] gives no
    element only for the empty relative path, and for that path the code
    finds no rig.) *)
Theorem inferRigFromCwd_never_succeeds (Abs : string + error)
    (Rel : string -> string -> string + error) (townRoot : string) :
  exists err, CrewCmd.inferRigFromCwd Abs Rel townRoot = ("", Some err).
Proof.
  unfold CrewCmd.inferRigFromCwd.
  destruct Abs as [cwd | err]; [| eauto].
  destruct (Rel townRoot cwd) as [rel | err]; [| eauto].
  rewrite SplitList_length.
  destruct (String.eqb_spec rel "") as [-> | Hne]; [| eauto].
  simpl. eauto.
Qed.

(** *** Session names *)

Section SessionNames.
Import Session.

(** A string without the byte [-] followed by [-] can be read back. *)
Lemma dash_free_prefix (a b x y : string) :
  ~ In "-"%char (list_ascii_of_string a) ->
  ~ In "-"%char (list_ascii_of_string b) ->
  a ++ String "-" x = b ++ String "-" y -> a = b /\ x = y.
Proof.
  revert b. induction a as [| c a IH]; intros [| d b] Ha Hb H.
  - change (String "-" x = String "-" y) in H. injection H as H. now split.
  - change (String "-" x = String d (b ++ String "-" y)) in H. injection H as H _.
    exfalso. apply Hb. simpl. now left.
  - change (String c (a ++ String "-" x) = String "-" y) in H. injection H as H _.
    exfalso. apply Ha. simpl. now left.
  - change (String c (a ++ String "-" x) = String d (b ++ String "-" y)) in H.
    injection H as -> H.
    destruct (IH b) as [-> ->]; trivial.
    + intros Hin. apply Ha. simpl. now right.
    + intros Hin. apply Hb. simpl. now right.
    + now split.
Qed.

End SessionNames.

(** X15.  Polecat session names tell polecats apart as long as rig names
    hold no hyphen: two pairs of a hyphen-free rig and a polecat name with
    the same session name are the same pair. *)
Theorem PolecatSessionName_injective (rig1 name1 rig2 name2 : string) :
  ~ In "-"%char (list_ascii_of_string rig1) ->
  ~ In "-"%char (list_ascii_of_string rig2) ->
  Session.PolecatSessionName rig1 name1 = Session.PolecatSessionName rig2 name2 ->
  rig1 = rig2 /\ name1 = name2.
Proof.
  intros H1 H2 H. unfold Session.PolecatSessionName, Session.Prefix in H.
  apply string_app_inv_head in H.
  exact (dash_free_prefix rig1 rig2 name1 name2 H1 H2 H).
Qed.

Lemma PolecatSessionName_injective_witness :
  "gastown" = "gastown" /\ "Toast" = "Toast".
Proof.
  apply (PolecatSessionName_injective "gastown" "Toast" "gastown" "Toast").
  - vm_compute. intros H. repeat (destruct H as [H | H]; [discriminate H |]). exact H.
  - vm_compute. intros H. repeat (destruct H as [H | H]; [discriminate H |]). exact H.
  - reflexivity.
Defined.

(** X16.  With a hyphen in a rig name session names collide: the polecat
    [c] of rig [a-b] and the polecat [b-c] of rig [a] have the same session
    name, and so have the crew member [x] of rig [a] and the polecat
    [crew-x] of that rig. *)
Theorem SessionName_collisions (a b c x : string) :
  Session.PolecatSessionName (a ++ "-" ++ b) c = Session.PolecatSessionName a (b ++ "-" ++ c) /\
  Session.CrewSessionName a x = Session.PolecatSessionName a ("crew-" ++ x).
Proof.
  unfold Session.PolecatSessionName, Session.CrewSessionName, Session.Prefix.
  split.
  - now rewrite !string_app_assoc.
  - reflexivity.
Qed.

(** *** More on the metadata reconciler *)

Section ReconcilerFrame.
Import GoStrings Doltserver.
Context {value : Type}.
Variable VString : string -> value.
Variable json_decode : string -> decoded value.
Variable json_MarshalIndent : gmap string value -> string + error.


End ReconcilerFrame.


(** X18.  [EnsureMetadata] never reports that the store directory of a rig
    could not be found: [FindRigBeadsDir] always answers with a path, so
    that error of [EnsureMetadata] cannot occur. *)
Theorem EnsureMetadata_always_finds_directory {value : Type}
    (VString : string -> value) (json_decode : string -> Doltserver.decoded value)
    (json_MarshalIndent : gmap string value -> string + error)
    (fs : Doltserver.FS) (townRoot rigName : string) :
  Doltserver.FindRigBeadsDir fs townRoot rigName <> "" /\
  snd (Doltserver.EnsureMetadata VString json_decode json_MarshalIndent fs townRoot rigName)
  <> Doltserver.Returned
       (Some (Errorf "could not find .beads directory for rig %q" [rigName])).
Proof.
  pose proof (FindRigBeadsDir_nonempty fs townRoot rigName) as Hne.
  split; [now apply String.eqb_neq |].
  unfold Doltserver.EnsureMetadata. rewrite Hne.
  destruct (Doltserver.os_MkdirAll fs _) as [fs1 | err]; [| discriminate].
  destruct (Doltserver.loadExisting json_decode fs1 _); [| discriminate].
  destruct (json_MarshalIndent _); [| discriminate].
  destruct (Doltserver.AtomicWriteFile fs1 _ _); discriminate.
Qed.

(** *** The rig databases of the data directory *)

Section RigDatabases.
Import GoStrings Proc Doltserver DoltProcess DoltRigs.

Lemma ListDatabases_In (os_ReadDir : string -> ReadDirResult)
    (os_Stat : string -> StatResult) (townRoot name : string) :
  In name (fst (ListDatabases os_ReadDir os_Stat townRoot)) <->
  exists entries entry,
    os_ReadDir (Join townRoot ".dolt-data") = DirEntries entries /\
    In entry entries /\ entry_IsDir entry = true /\ entry_Name entry = name /\
    os_Stat (Join (Join (Join townRoot ".dolt-data") name) ".dolt") = StatOk.
Proof.
  unfold ListDatabases. simpl.
  destruct (os_ReadDir (Join townRoot ".dolt-data")) as [entries | | err]; simpl.
  - rewrite in_flat_map. split.
    + intros (entry & Hin & H). exists entries, entry.
      destruct (entry_IsDir entry); simpl in H; [| destruct H].
      destruct (os_Stat _) eqn:Hs; simpl in H; try contradiction.
      destruct H as [H | []]. rewrite H in Hs. auto.
    + intros (entries' & entry & [= <-] & Hin & Hd & Hn & Hs).
      exists entry. split; [exact Hin |]. rewrite Hd. simpl. subst name. rewrite Hs.
      simpl. now left.
  - split; [intros [] | intros (? & ? & H & _); discriminate H].
  - split; [intros [] | intros (? & ? & H & _); discriminate H].
Qed.

(** What the two stats of the discovery establish for a proposal. *)
Lemma FindMigratableDatabases_stats (os_Stat : string -> StatResult)
    (os_ReadDir : string -> option (list DirEntry)) (ResolveBeadsDir : string -> string)
    (townRoot : string) (m : Migration) :
  In m (FindMigratableDatabases os_Stat os_ReadDir ResolveBeadsDir townRoot) ->
  os_Stat (Join (SourcePath m) ".dolt") = StatOk /\
  os_Stat (Join (Join (Join townRoot ".dolt-data") (RigName m)) ".dolt") = StatNotExist.
Proof.
  intros H. apply FindMigratableDatabases_In in H. destruct H as (rigName & source & H).
  apply migrationsFor_In in H. destruct H as (-> & Hs & Ht). simpl in *. auto.
Qed.

End RigDatabases.

(** X19.  The databases [ListDatabases] reports and the migrations
    [FindMigratableDatabases] proposes never overlap: a name that
    [ListDatabases] returns for a town is the rig of no migration proposed
    for that town, whatever the two functions read from the directories. *)
Theorem ListDatabases_disjoint_from_migrations
    (os_ReadDirData : string -> DoltRigs.ReadDirResult)
    (os_Stat : string -> Doltserver.StatResult)
    (os_ReadDir : string -> option (list Doltserver.DirEntry))
    (ResolveBeadsDir : string -> string) (townRoot name : string)
    (m : Doltserver.Migration) :
  In name (fst (DoltRigs.ListDatabases os_ReadDirData os_Stat townRoot)) ->
  In m (Doltserver.FindMigratableDatabases os_Stat os_ReadDir ResolveBeadsDir townRoot) ->
  Doltserver.RigName m <> name.
Proof.
  intros Hl Hm Heq. apply ListDatabases_In in Hl.
  destruct Hl as (entries & entry & _ & _ & _ & _ & Hs).
  apply FindMigratableDatabases_stats in Hm. destruct Hm as [_ Ht].
  rewrite Heq in Ht. congruence.
Qed.

Lemma ListDatabases_disjoint_from_migrations_witness :
  In "already"
    (fst (DoltRigs.ListDatabases
            (fun _ => DoltRigs.DirEntries [Doltserver.mkDirEntry "already" true])
            Sample.legacy_stat Sample.town)) /\
  Doltserver.RigName
    (Doltserver.mkMigration "nexus" "/town/nexus/mayor/rig/.beads/dolt/beads"
       "/town/.dolt-data/nexus") <> "already".
Proof.
  assert (Hl : In "already"
    (fst (DoltRigs.ListDatabases
            (fun _ => DoltRigs.DirEntries [Doltserver.mkDirEntry "already" true])
            Sample.legacy_stat Sample.town))) by (vm_compute; left; reflexivity).
  split; [exact Hl |].
  apply (ListDatabases_disjoint_from_migrations
           (fun _ => DoltRigs.DirEntries [Doltserver.mkDirEntry "already" true])
           Sample.legacy_stat Sample.legacy_readdir Sample.legacy_resolve Sample.town
           "already"
           (Doltserver.mkMigration "nexus" "/town/nexus/mayor/rig/.beads/dolt/beads"
              "/town/.dolt-data/nexus") Hl).
  vm_compute. left. reflexivity.
Defined.

Section MigrateGuards.
Import GoStrings Proc Doltserver DoltProcess DoltRigs.
Context {value : Type}.
Variable VString : string -> value.
Variable json_decode : string -> decoded value.
Variable json_MarshalIndent : gmap string value -> string + error.
Variable run : Runner.
Variable effect : Trace -> Cmd -> FS -> FS.
Variable os_Rename : FS -> string -> string -> RenameResult.

Lemma fs_Stat_ok (fs : FS) (p : string) : fs_Stat fs p = StatOk <-> os_Stat_ok fs p = true.
Proof. unfold fs_Stat. destruct (os_Stat_ok fs p); split; congruence. Qed.

Lemma fs_Stat_not_exist (fs : FS) (p : string) :
  fs_Stat fs p = StatNotExist <-> os_Stat_ok fs p = false.
Proof. unfold fs_Stat. destruct (os_Stat_ok fs p); split; congruence. Qed.

(** Past its two guards [MigrateRigFromBeads] fails only with a wrapped
    error. *)
Lemma MigrateRigFromBeads_past_guards (townRoot rigName sourcePath : string) (w : World) :
  os_Stat_ok (w_fs w) (Join (Join (Join townRoot ".dolt-data") rigName) ".dolt") = false ->
  os_Stat_ok (w_fs w) (Join sourcePath ".dolt") = true ->
  forall format args,
    snd (MigrateRigFromBeads VString json_decode json_MarshalIndent run effect os_Rename
           townRoot rigName sourcePath w)
    <> Returned (Some (Errorf format args)).
Proof.
  intros Ht Hs format args. unfold MigrateRigFromBeads. simpl DataDir.
  unfold fs_Stat. rewrite Ht, Hs.
  destruct (os_MkdirAll (w_fs w) (Join townRoot ".dolt-data")) as [fs1 | err];
    [| discriminate].
  destruct (moveDir run effect os_Rename sourcePath _ _) as [w2 [err |]]; [discriminate |].
  destruct (updateMetadata VString json_decode json_MarshalIndent _ townRoot rigName w2)
    as [w3 [[] | msg]]; discriminate.
Qed.

End MigrateGuards.

(** X20.  What discovery proposes, migration accepts: for a migration that
    [FindMigratableDatabases] proposes on a file system,
    [MigrateRigFromBeads] called on that file system with the rig and the
    source of the proposal passes both of its guards (the target holds no
    [.dolt], the source does), so it does not answer that the rig database
    already exists or that the source was not found. *)
Theorem MigrateRigFromBeads_accepts_proposals {value : Type}
    (VString : string -> value) (json_decode : string -> Doltserver.decoded value)
    (json_MarshalIndent : gmap string value -> string + error)
    (run : Proc.Runner) (effect : Proc.Trace -> Proc.Cmd -> Doltserver.FS -> Doltserver.FS)
    (os_Rename : Doltserver.FS -> string -> string -> DoltRigs.RenameResult)
    (os_ReadDir : string -> option (list Doltserver.DirEntry))
    (ResolveBeadsDir : string -> string)
    (townRoot : string) (w : DoltRigs.World) (m : Doltserver.Migration) :
  In m (Doltserver.FindMigratableDatabases (DoltRigs.fs_Stat (DoltRigs.w_fs w))
          os_ReadDir ResolveBeadsDir townRoot) ->
  Doltserver.os_Stat_ok (DoltRigs.w_fs w)
    (Join (Join (Join townRoot ".dolt-data") (Doltserver.RigName m)) ".dolt") = false /\
  Doltserver.os_Stat_ok (DoltRigs.w_fs w) (Join (Doltserver.SourcePath m) ".dolt") = true /\
  (forall format args,
     snd (DoltRigs.MigrateRigFromBeads VString json_decode json_MarshalIndent run effect
            os_Rename townRoot (Doltserver.RigName m) (Doltserver.SourcePath m) w)
     <> Doltserver.Returned (Some (Errorf format args))).
Proof.
  intros Hm. apply FindMigratableDatabases_stats in Hm. destruct Hm as [Hs Ht].
  apply fs_Stat_ok in Hs. apply fs_Stat_not_exist in Ht.
  split; [exact Ht |]. split; [exact Hs |].
  now apply MigrateRigFromBeads_past_guards.
Qed.

Lemma MigrateRigFromBeads_accepts_proposals_witness :
  Doltserver.os_Stat_ok SampleRigs.legacy_fs "/town/.dolt-data/hq/.dolt" = false /\
  Doltserver.os_Stat_ok SampleRigs.legacy_fs "/town/.beads/dolt/beads/.dolt" = true /\
  (forall format args,
     snd (DoltRigs.MigrateRigFromBeads id Sample.sample_decode Sample.sample_MarshalIndent
            Sample.quiet_run SampleRigs.no_effect SampleRigs.no_rename
            Sample.town "hq" "/town/.beads/dolt/beads"
            (DoltRigs.mkWorld SampleRigs.legacy_fs [] []))
     <> Doltserver.Returned (Some (Errorf format args))).
Proof.
  apply (MigrateRigFromBeads_accepts_proposals id Sample.sample_decode
           Sample.sample_MarshalIndent Sample.quiet_run SampleRigs.no_effect
           SampleRigs.no_rename (fun _ => None) (fun dir => Join dir ".beads")
           Sample.town (DoltRigs.mkWorld SampleRigs.legacy_fs [] [])
           SampleRigs.hq_migration).
  vm_compute. left. reflexivity.
Defined.

(** *** The server process *)

Section ServerProcess.
Import GoStrings Proc Doltserver GoFmt DoltProcess.
Variable run : Runner.
Variable signal0 : Z -> bool.

Lemma isDoltProcess_trace (pid : Z) (tr : Trace) :
  fst (isDoltProcess run pid tr) = (tr ++ [psCommand pid])%list.
Proof.
  unfold isDoltProcess, Output.
  destruct (res_err (run tr (psCommand pid))); reflexivity.
Qed.

(** The port check: a PID it reports was confirmed by [isDoltProcess]
    right after the [lsof] command. *)
Lemma findDoltServerOnPort_found (port : Z) (tr : Trace) :
  snd (findDoltServerOnPort run port tr) <> 0 ->
  snd (isDoltProcess run (snd (findDoltServerOnPort run port tr))
         (tr ++ [lsofPortCommand port])%list) = true /\
  fst (findDoltServerOnPort run port tr)
  = (tr ++ [lsofPortCommand port; psCommand (snd (findDoltServerOnPort run port tr))])%list.
Proof.
  unfold findDoltServerOnPort, Output.
  destruct (res_err (run tr (lsofPortCommand port))); simpl; [intros H; now destruct H |].
  destruct ((length _ =? 0)%nat || String.eqb _ ""); simpl; [intros H; now destruct H |].
  destruct (Atoi _) as [pid |]; simpl; [| intros H; now destruct H].
  pose proof (isDoltProcess_trace pid (tr ++ [lsofPortCommand port])%list) as Htr.
  destruct (isDoltProcess run pid (tr ++ [lsofPortCommand port])%list) as [tr2 isDolt] eqn:E.
  simpl in Htr. destruct isDolt; simpl; [| intros H; now destruct H].
  intros _. rewrite E. split; [reflexivity |]. rewrite Htr, <- app_assoc. reflexivity.
Qed.

Lemma portCheck_spec (config : Config) (fs : FS) (tr : Trace) :
  let R := portCheck run config fs tr in
  fst (fst R) = fs /\ snd (snd R) = None /\
  (fst (fst (snd R)) = false -> snd (fst (snd R)) = 0) /\
  (fst (fst (snd R)) = true ->
   snd (isDoltProcess run (snd (fst (snd R))) (tr ++ [lsofPortCommand (Port config)])%list)
     = true /\
   snd (fst R)
   = (tr ++ [lsofPortCommand (Port config); psCommand (snd (fst (snd R)))])%list).
Proof.
  intros R. subst R. unfold portCheck.
  pose proof (findDoltServerOnPort_found (Port config) tr) as Hf.
  destruct (findDoltServerOnPort run (Port config) tr) as [tr2 pid]. simpl in Hf.
  destruct (pid >? 0) eqn:Hpos; simpl.
  - split; [reflexivity |]. split; [reflexivity |]. split; [discriminate |].
    intros _. apply Hf. intros ->. discriminate Hpos.
  - split; [reflexivity |]. split; [reflexivity |]. split; [reflexivity | discriminate].
Qed.

(** One run of [IsRunning], case by case: either the PID file names a
    live process that [isDoltProcess] confirms, or the file (if it could be
    read) is removed and the port check decides. *)
Lemma IsRunning_cases (townRoot : string) (fs : FS) (tr : Trace) :
  let config := DefaultConfig townRoot in
  (exists data pid,
     os_ReadFile fs (PidFile config) = Some data /\
     Atoi (TrimSpace data) = Some pid /\ signal0 pid = true /\
     snd (isDoltProcess run pid tr) = true /\
     IsRunning run signal0 townRoot fs tr
     = (fs, (tr ++ [psCommand pid])%list, (true, pid, None))) \/
  (exists fs' ext,
     (fs' = fs /\ os_ReadFile fs (PidFile config) = None \/
      fs' = os_Remove_file fs (PidFile config) /\ os_ReadFile fs (PidFile config) <> None) /\
     IsRunning run signal0 townRoot fs tr = portCheck run config fs' (tr ++ ext)%list).
Proof.
  intros config. unfold IsRunning. fold config.
  destruct (os_ReadFile fs (PidFile config)) as [data |] eqn:Hread.
  2: { right. exists fs, []. rewrite app_nil_r. split; [now left | reflexivity]. }
  assert (Hstale : forall ext,
    exists fs' ext',
     (fs' = fs /\ Some data = None \/
      fs' = os_Remove_file fs (PidFile config) /\ Some data <> None) /\
     portCheck run config (os_Remove_file fs (PidFile config)) (tr ++ ext)%list
     = portCheck run config fs' (tr ++ ext')%list).
  { intros ext. exists (os_Remove_file fs (PidFile config)), ext.
    split; [right; split; [reflexivity | discriminate] | reflexivity]. }
  destruct (Atoi (TrimSpace data)) as [pid |] eqn:Hatoi.
  2: { right. destruct (Hstale []) as (fs' & ext' & H1 & H2). rewrite app_nil_r in H2.
       exists fs', ext'. split; [exact H1 | exact H2]. }
  destruct (signal0 pid) eqn:Hsig.
  2: { right. destruct (Hstale []) as (fs' & ext' & H1 & H2). rewrite app_nil_r in H2.
       exists fs', ext'. split; [exact H1 | exact H2]. }
  pose proof (isDoltProcess_trace pid tr) as Htr.
  destruct (isDoltProcess run pid tr) as [tr1 isDolt] eqn:E. simpl in Htr. subst tr1.
  destruct isDolt.
  - left. exists data, pid. simpl. repeat split; trivial. now rewrite E.
  - right. destruct (Hstale [psCommand pid]) as (fs' & ext' & H1 & H2).
    exists fs', ext'. split; [exact H1 | exact H2].
Qed.

End ServerProcess.

(** X21.  [IsRunning] never returns an error, reports PID 0 when it reports
    that no server runs, and reports a running server only for a PID that
    [isDoltProcess] confirmed during the call: [ps] was run for that PID,
    succeeded, and printed a command line containing [dolt] and
    [sql-server]. *)
Theorem IsRunning_reports_confirmed_dolt (run : Proc.Runner) (signal0 : Z -> bool)
    (townRoot : string) (fs : Doltserver.FS) (tr : Proc.Trace) :
  let R := DoltProcess.IsRunning run signal0 townRoot fs tr in
  let running := fst (fst (snd R)) in
  let pid := snd (fst (snd R)) in
  snd (snd R) = None /\
  (running = false -> pid = 0) /\
  (running = true ->
   exists ext,
     snd (DoltProcess.isDoltProcess run pid (tr ++ ext)%list) = true /\
     snd (fst R) = ((tr ++ ext) ++ [DoltProcess.psCommand pid])%list).
Proof.
  intros R running pid. subst running pid R.
  destruct (IsRunning_cases run signal0 townRoot fs tr)
    as [(data & pid & _ & _ & _ & Hps & ->) | (fs' & ext & _ & ->)].
  - simpl. split; [reflexivity |]. split; [discriminate |]. intros _.
    exists []. rewrite app_nil_r. split; [exact Hps | reflexivity].
  - destruct (portCheck_spec run (Doltserver.DefaultConfig townRoot) fs' (tr ++ ext)%list)
      as (_ & Herr & Hzero & Htrue).
    split; [exact Herr |]. split; [exact Hzero |].
    intros Hr. destruct (Htrue Hr) as [Hps Htr].
    exists (ext ++ [DoltProcess.lsofPortCommand
                      (Doltserver.Port (Doltserver.DefaultConfig townRoot))])%list.
    rewrite app_assoc. split; [exact Hps |].
    rewrite Htr, <- !app_assoc. reflexivity.
Qed.

(** X22.  [IsRunning] changes nothing in the file system but the PID file,
    which it can only remove; and a PID file that is still there after the
    call is one whose content is the PID of a live process, the very PID
    the call reported as the running server. *)
Theorem IsRunning_removes_stale_pid_file (run : Proc.Runner) (signal0 : Z -> bool)
    (townRoot : string) (fs : Doltserver.FS) (tr : Proc.Trace) :
  let pidFile := Doltserver.PidFile (Doltserver.DefaultConfig townRoot) in
  let R := DoltProcess.IsRunning run signal0 townRoot fs tr in
  let fs' := fst (fst R) in
  Doltserver.fs_dirs fs' = Doltserver.fs_dirs fs /\
  (forall p, p <> pidFile ->
             Doltserver.fs_files fs' !! p = Doltserver.fs_files fs !! p) /\
  (forall data,
     Doltserver.os_ReadFile fs' pidFile = Some data ->
     Doltserver.os_ReadFile fs pidFile = Some data /\
     exists pid,
       GoStrings.Atoi (GoStrings.TrimSpace data) = Some pid /\
       signal0 pid = true /\ snd R = (true, pid, None)).
Proof.
  intros pidFile R fs'. subst fs' R.
  destruct (IsRunning_cases run signal0 townRoot fs tr)
    as [(data & pid & Hread & Hatoi & Hsig & _ & ->) | (fs' & ext & Hfs & ->)].
  - simpl. split; [reflexivity |]. split; [reflexivity |].
    intros data' Hd. fold pidFile in Hread. rewrite Hread in Hd. injection Hd as <-.
    split; [exact Hread |]. exists pid. auto.
  - destruct (portCheck_spec run (Doltserver.DefaultConfig townRoot) fs' (tr ++ ext)%list)
      as (-> & _).
    fold pidFile in Hfs. destruct Hfs as [[-> Hnone] | [-> Hsome]].
    + split; [reflexivity |]. split; [reflexivity |].
      intros data Hd. rewrite Hnone in Hd. discriminate Hd.
    + split; [reflexivity |]. split.
      * intros p Hp. simpl. now rewrite lookup_delete_ne by congruence.
      * intros data Hd. unfold Doltserver.os_ReadFile in Hd. simpl in Hd.
        rewrite lookup_delete_eq in Hd. discriminate Hd.
Qed.

(** A run of X21: no PID file, and a Dolt server found on the port. *)
Lemma IsRunning_reports_confirmed_dolt_witness :
  snd (DoltProcess.IsRunning SampleRigs.server_run SampleRigs.never_alive Sample.town
         Sample.scenarioB_fs []) = (true, 4242, None) /\
  exists ext,
    snd (DoltProcess.isDoltProcess SampleRigs.server_run 4242 ([] ++ ext)%list) = true /\
    snd (fst (DoltProcess.IsRunning SampleRigs.server_run SampleRigs.never_alive Sample.town
                Sample.scenarioB_fs []))
    = (([] ++ ext) ++ [DoltProcess.psCommand 4242])%list.
Proof.
  split; [vm_compute; reflexivity |].
  apply (proj2 (proj2 (IsRunning_reports_confirmed_dolt SampleRigs.server_run
                         SampleRigs.never_alive Sample.town Sample.scenarioB_fs []))).
  vm_compute. reflexivity.
Defined.


(** *** Creating a rig database *)

Section RigCreation.
Import GoStrings Proc Doltserver GoFmt DoltProcess DoltRigs.
Context {value : Type}.
Variable VString : string -> value.
Variable json_decode : string -> decoded value.
Variable json_MarshalIndent : gmap string value -> string + error.
Variable run : Runner.
Variable effect : Trace -> Cmd -> FS -> FS.
Variable signal0 : Z -> bool.

Abbreviation initRig := (InitRig VString json_decode json_MarshalIndent run effect signal0).

(** [updateMetadata] runs no sub-process. *)
Lemma updateMetadata_trace (warning townRoot rigName : string) (w : World) :
  w_trace (fst (updateMetadata VString json_decode json_MarshalIndent
                  warning townRoot rigName w)) = w_trace w.
Proof.
  unfold updateMetadata.
  destruct (EnsureMetadata VString json_decode json_MarshalIndent (w_fs w) townRoot rigName)
    as [fs' [[err |] | msg]]; reflexivity.
Qed.

(** [IsRunning] only adds to the trace. *)
Lemma IsRunning_trace (townRoot : string) (fs : FS) (tr : Trace) :
  exists ext, snd (fst (IsRunning run signal0 townRoot fs tr)) = (tr ++ ext)%list.
Proof.
  destruct (IsRunning_cases run signal0 townRoot fs tr)
    as [(data & pid & _ & _ & _ & _ & ->) | (fs' & ext & _ & ->)].
  - simpl. eauto.
  - unfold portCheck.
    assert (Hf : exists ext',
              fst (findDoltServerOnPort run (Port (DefaultConfig townRoot)) (tr ++ ext)%list)
              = ((tr ++ ext) ++ ext')%list).
    { unfold findDoltServerOnPort, Output.
      destruct (res_err _); simpl; [eauto |].
      destruct (_ || _); simpl; [eauto |].
      destruct (Atoi _) as [pid |]; simpl; [| eauto].
      pose proof (isDoltProcess_trace run pid
                    ((tr ++ ext) ++ [lsofPortCommand (Port (DefaultConfig townRoot))])%list)
        as Ht.
      destruct (isDoltProcess run pid _) as [tr2 b]. simpl in Ht. subst tr2.
      destruct b; simpl; rewrite <- app_assoc; eauto. }
    destruct Hf as [ext' Hf].
    destruct (findDoltServerOnPort run _ _) as [tr2 pid]. simpl in Hf. subst tr2.
    exists (ext ++ ext')%list. rewrite app_assoc.
    destruct (pid >? 0); reflexivity.
Qed.

(** The three checks that come before [InitRig] does anything. *)
Lemma InitRig_rejects (townRoot rigName : string) (w : World) :
  rigName = "" \/
  forallb validRigByte (list_ascii_of_string rigName) = false \/
  os_Stat_ok (w_fs w) (Join (Join (Join townRoot ".dolt-data") rigName) ".dolt") = true ->
  exists err, initRig townRoot rigName w = (w, Returned (false, Some err)).
Proof.
  intros H. unfold InitRig.
  destruct (String.eqb_spec rigName "") as [-> | Hne]; [eauto |].
  destruct H as [H | H]; [contradiction |].
  destruct (forallb validRigByte (list_ascii_of_string rigName)) eqn:Hv; simpl; [| eauto].
  destruct H as [H | H]; [discriminate H |].
  simpl DataDir. rewrite H. eauto.
Qed.

(** A call that returns no error passed the checks, and the last
    sub-process it ran is the one that makes the database. *)
Lemma InitRig_success (townRoot rigName : string) (w w' : World) (running : bool) :
  initRig townRoot rigName w = (w', Returned (running, None)) ->
  rigName <> "" /\
  forallb validRigByte (list_ascii_of_string rigName) = true /\
  os_Stat_ok (w_fs w) (Join (Join (Join townRoot ".dolt-data") rigName) ".dolt") = false /\
  exists ext,
    w_trace w'
    = (w_trace w ++ ext ++
       [if running then createDatabaseCommand townRoot rigName
        else doltInitCommand townRoot rigName])%list /\
    res_err (run (w_trace w ++ ext)%list
               (if running then createDatabaseCommand townRoot rigName
                else doltInitCommand townRoot rigName)) = None.
Proof.
  unfold InitRig.
  destruct (String.eqb_spec rigName "") as [-> | Hne]; [discriminate |].
  destruct (forallb validRigByte (list_ascii_of_string rigName)) eqn:Hv; simpl negb;
    cbv iota; [| discriminate].
  simpl DataDir.
  destruct (os_Stat_ok (w_fs w) (Join (Join (Join townRoot ".dolt-data") rigName) ".dolt"))
    eqn:Hs; [discriminate |].
  destruct (IsRunning_trace townRoot (w_fs w) (w_trace w)) as [ext Hext].
  destruct (IsRunning run signal0 townRoot (w_fs w) (w_trace w))
    as [[fs1 tr1] [[running0 pid] err]] eqn:E.
  simpl in Hext. subst tr1.
  destruct running0.
  - unfold serverExecSQL, CombinedOutput. simpl DataDir. simpl w_trace.
    change (mkCmd (Join townRoot ".dolt-data") "dolt"
              ["sql"; "-q"; "CREATE DATABASE `" ++ rigName ++ "`"])
      with (createDatabaseCommand townRoot rigName).
    destruct (res_err (run (w_trace w ++ ext)%list (createDatabaseCommand townRoot rigName)))
      eqn:Hr; [discriminate |].
    match goal with
    | |- context [updateMetadata ?a ?b ?c ?d ?e ?f ?g] =>
        pose proof (updateMetadata_trace d e f g) as Hum;
        destruct (updateMetadata a b c d e f g) as [w3 [[] | msg]]
    end; [| discriminate].
    intros [= <- <-]. simpl in Hum.
    split; [exact Hne |]. split; [reflexivity |]. split; [reflexivity |].
    exists ext. split; [now rewrite Hum, <- app_assoc | exact Hr].
  - destruct (os_MkdirAll fs1 (Join (Join townRoot ".dolt-data") rigName)) as [fs2 | e];
      [| discriminate].
    unfold CombinedOutput. fold (doltInitCommand townRoot rigName).
    change (mkCmd (Join (Join townRoot ".dolt-data") rigName) "dolt" ["init"])
      with (doltInitCommand townRoot rigName).
    destruct (res_err (run (w_trace w ++ ext)%list (doltInitCommand townRoot rigName)))
      eqn:Hr; [discriminate |].
    match goal with
    | |- context [updateMetadata ?a ?b ?c ?d ?e ?f ?g] =>
        pose proof (updateMetadata_trace d e f g) as Hum;
        destruct (updateMetadata a b c d e f g) as [w3 [[] | msg]]
    end; [| discriminate].
    intros [= <- <-]. simpl in Hum.
    split; [exact Hne |]. split; [reflexivity |]. split; [reflexivity |].
    exists ext. split; [now rewrite Hum, <- app_assoc | exact Hr].
Qed.

End RigCreation.

(** X23.  [InitRig] checks before it acts: for an empty rig name, a name
    with a byte outside [[a-zA-Z0-9_-]], or a rig whose [.dolt] is already
    in the data directory, it returns an error and [false] and has run no
    sub-process, written no file and printed nothing. *)
Theorem InitRig_checks_before_acting {value : Type}
    (VString : string -> value) (json_decode : string -> Doltserver.decoded value)
    (json_MarshalIndent : gmap string value -> string + error)
    (run : Proc.Runner) (effect : Proc.Trace -> Proc.Cmd -> Doltserver.FS -> Doltserver.FS)
    (signal0 : Z -> bool) (townRoot rigName : string) (w : DoltRigs.World) :
  rigName = "" \/
  forallb DoltRigs.validRigByte (list_ascii_of_string rigName) = false \/
  Doltserver.os_Stat_ok (DoltRigs.w_fs w)
    (Join (Join (Join townRoot ".dolt-data") rigName) ".dolt") = true ->
  exists err,
    DoltRigs.InitRig VString json_decode json_MarshalIndent run effect signal0
      townRoot rigName w
    = (w, Doltserver.Returned (false, Some err)).
Proof. apply InitRig_rejects. Qed.

Lemma InitRig_checks_before_acting_witness :
  exists err,
    DoltRigs.InitRig id Sample.sample_decode Sample.sample_MarshalIndent
      Sample.quiet_run SampleRigs.no_effect SampleRigs.never_alive
      Sample.town "gas`town" SampleRigs.fresh_world
    = (SampleRigs.fresh_world, Doltserver.Returned (false, Some err)).
Proof.
  apply (InitRig_checks_before_acting id Sample.sample_decode Sample.sample_MarshalIndent
           Sample.quiet_run SampleRigs.no_effect SampleRigs.never_alive
           Sample.town "gas`town" SampleRigs.fresh_world).
  right. left. vm_compute. reflexivity.
Defined.

(** X24.  When [InitRig] returns no error the rig name is not empty and
    made of bytes of [[a-zA-Z0-9_-]], and the last sub-process of the call
    is the one that makes the database, and it succeeded: [CREATE DATABASE]
    on the server when the call reports that the server was running,
    [dolt init] in the rig's directory when it reports that it was not. *)
Theorem InitRig_success_made_database {value : Type}
    (VString : string -> value) (json_decode : string -> Doltserver.decoded value)
    (json_MarshalIndent : gmap string value -> string + error)
    (run : Proc.Runner) (effect : Proc.Trace -> Proc.Cmd -> Doltserver.FS -> Doltserver.FS)
    (signal0 : Z -> bool) (townRoot rigName : string) (w : DoltRigs.World)
    (running : bool) :
  let R := DoltRigs.InitRig VString json_decode json_MarshalIndent run effect signal0
             townRoot rigName w in
  let cmd := if running then DoltRigs.createDatabaseCommand townRoot rigName
             else DoltRigs.doltInitCommand townRoot rigName in
  snd R = Doltserver.Returned (running, None) ->
  rigName <> "" /\
  forallb DoltRigs.validRigByte (list_ascii_of_string rigName) = true /\
  exists ext,
    DoltRigs.w_trace (fst R) = (DoltRigs.w_trace w ++ ext ++ [cmd])%list /\
    Proc.res_err (run (DoltRigs.w_trace w ++ ext)%list cmd) = None.
Proof.
  intros R cmd HR. subst R cmd.
  destruct (DoltRigs.InitRig VString json_decode json_MarshalIndent run effect signal0
              townRoot rigName w) as [w' o] eqn:E.
  simpl in HR. subst o.
  destruct (InitRig_success VString json_decode json_MarshalIndent run effect signal0
              townRoot rigName w w' running E) as (Hne & Hv & _ & ext & Htr & Hr).
  split; [exact Hne |]. split; [exact Hv |]. exists ext. simpl. auto.
Qed.

Lemma InitRig_success_made_database_witness :
  "gastown" <> "" /\
  forallb DoltRigs.validRigByte (list_ascii_of_string "gastown") = true /\
  exists ext,
    DoltRigs.w_trace
      (fst (DoltRigs.InitRig id Sample.sample_decode Sample.sample_MarshalIndent
              Sample.quiet_run SampleRigs.no_effect SampleRigs.never_alive
              Sample.town "gastown" SampleRigs.fresh_world))
    = ([] ++ ext ++ [DoltRigs.doltInitCommand Sample.town "gastown"])%list /\
    Proc.res_err (Sample.quiet_run ([] ++ ext)%list
                    (DoltRigs.doltInitCommand Sample.town "gastown")) = None.
Proof.
  apply (InitRig_success_made_database id Sample.sample_decode Sample.sample_MarshalIndent
           Sample.quiet_run SampleRigs.no_effect SampleRigs.never_alive
           Sample.town "gastown" SampleRigs.fresh_world false).
  vm_compute. reflexivity.
Defined.

(** *** The sweep over all databases *)

Section SweepAccounting.
Import GoStrings Proc Doltserver DoltProcess DoltRigs.
Context {value : Type}.
Variable VString : string -> value.
Variable json_decode : string -> decoded value.
Variable json_MarshalIndent : gmap string value -> string + error.

Abbreviation each := (ensureEach VString json_decode json_MarshalIndent).

(** The loop visits every database and files it under exactly one of
    the two lists, after what it was given. *)
Lemma ensureEach_returned (townRoot : string) (databases : list string) :
  forall (fs fs' : FS) (updated0 updated : list string) (errs0 errs : list error),
    each townRoot databases fs updated0 errs0 = (fs', Returned (updated, errs)) ->
    exists newUpdated newErrs,
      updated = (updated0 ++ newUpdated)%list /\
      errs = (errs0 ++ newErrs)%list /\
      (length newUpdated + length newErrs = length databases)%nat /\
      sublist newUpdated databases /\
      (forall db, In db databases ->
         In db newUpdated \/ exists err, In (Wrapf "%s: %w" [db] err) newErrs).
Proof.
  induction databases as [| db rest IH]; intros fs fs' updated0 updated errs0 errs H.
  - simpl in H. injection H as <- <- <-. exists [], []. rewrite !app_nil_r.
    split; [reflexivity |]. split; [reflexivity |]. split; [reflexivity |].
    split; [constructor | intros db []].
  - simpl in H.
    destruct (EnsureMetadata VString json_decode json_MarshalIndent fs townRoot db)
      as [fs1 [[err |] | msg]]; [| | discriminate H].
    + destruct (IH _ _ _ _ _ _ H) as (nu & ne & -> & -> & Hlen & Hsub & Hall).
      exists nu, (Wrapf "%s: %w" [db] err :: ne).
      rewrite <- app_assoc. simpl.
      split; [reflexivity |]. split; [reflexivity |]. split; [lia |].
      split; [now apply sublist_cons |].
      intros d [<- | Hd].
      * right. exists err. now left.
      * destruct (Hall d Hd) as [Hu | [e He]]; [now left |].
        right. exists e. now right.
    + destruct (IH _ _ _ _ _ _ H) as (nu & ne & -> & -> & Hlen & Hsub & Hall).
      exists (db :: nu), ne.
      rewrite <- app_assoc. simpl.
      split; [reflexivity |]. split; [reflexivity |]. split; [lia |].
      split; [now apply sublist_skip |].
      intros d [<- | Hd].
      * left. now left.
      * destruct (Hall d Hd) as [Hu | [e He]]; [left; now right |].
        right. exists e. exact He.
Qed.

End SweepAccounting.

(** X25.  [EnsureAllMetadata] accounts for every database: when the
    listing fails it touches nothing and returns that one error; otherwise,
    when it returns, each database that [ListDatabases] listed is among the
    updated ones or has an error under its name, the updated ones come in
    the order of the listing, and the two lists together are as long as the
    listing.  An error for one database does not stop the sweep. *)
Theorem EnsureAllMetadata_accounts_for_all {value : Type}
    (VString : string -> value) (json_decode : string -> Doltserver.decoded value)
    (json_MarshalIndent : gmap string value -> string + error)
    (fs : Doltserver.FS) (townRoot : string) :
  let L := DoltRigs.ListDatabases (DoltRigs.fs_ReadDir fs) (DoltRigs.fs_Stat fs) townRoot in
  let R := DoltRigs.EnsureAllMetadata VString json_decode json_MarshalIndent fs townRoot in
  (forall err, snd L = Some err ->
     R = (fs, Doltserver.Returned ([], [Wrapf "listing databases: %w" [] err]))) /\
  (forall updated errs,
     snd L = None -> snd R = Doltserver.Returned (updated, errs) ->
     (length updated + length errs = length (fst L))%nat /\
     sublist updated (fst L) /\
     (forall db, In db (fst L) ->
        In db updated \/ exists err, In (Wrapf "%s: %w" [db] err) errs)).
Proof.
  intros L R. subst L R. unfold DoltRigs.EnsureAllMetadata.
  destruct (DoltRigs.ListDatabases (DoltRigs.fs_ReadDir fs) (DoltRigs.fs_Stat fs) townRoot)
    as [databases [lerr |]]; simpl.
  - split; [intros err [= <-]; reflexivity | intros updated errs H; discriminate H].
  - split; [intros err H; discriminate H |].
    intros updated errs _ H.
    destruct (DoltRigs.ensureEach VString json_decode json_MarshalIndent townRoot
                databases fs [] []) as [fs' o] eqn:E.
    simpl in H. subst o.
    destruct (ensureEach_returned VString json_decode json_MarshalIndent townRoot databases
                fs fs' [] updated [] errs E)
      as (nu & ne & -> & -> & Hlen & Hsub & Hall).
    simpl. auto.
Qed.

(** *** The stale lock of a database *)


(** A run of X25 over a data directory with two databases. *)
Lemma EnsureAllMetadata_accounts_for_all_witness :
  snd (DoltRigs.EnsureAllMetadata id Sample.sample_decode Sample.sample_MarshalIndent
         SampleRigs.data_fs Sample.town)
  = Doltserver.Returned (["alpha"; "beta"], []) /\
  (length ["alpha"; "beta"] + length (@nil error)
   = length (fst (DoltRigs.ListDatabases (DoltRigs.fs_ReadDir SampleRigs.data_fs)
                    (DoltRigs.fs_Stat SampleRigs.data_fs) Sample.town)))%nat /\
  sublist ["alpha"; "beta"]
    (fst (DoltRigs.ListDatabases (DoltRigs.fs_ReadDir SampleRigs.data_fs)
            (DoltRigs.fs_Stat SampleRigs.data_fs) Sample.town)) /\
  (forall db,
     In db (fst (DoltRigs.ListDatabases (DoltRigs.fs_ReadDir SampleRigs.data_fs)
                   (DoltRigs.fs_Stat SampleRigs.data_fs) Sample.town)) ->
     In db ["alpha"; "beta"] \/ exists err, In (Wrapf "%s: %w" [db] err) []).
Proof.
  assert (Hrun : snd (DoltRigs.EnsureAllMetadata id Sample.sample_decode
                        Sample.sample_MarshalIndent SampleRigs.data_fs Sample.town)
                 = Doltserver.Returned (["alpha"; "beta"], []))
    by (vm_compute; reflexivity).
  split; [exact Hrun |].
  apply (proj2 (EnsureAllMetadata_accounts_for_all id Sample.sample_decode
                  Sample.sample_MarshalIndent SampleRigs.data_fs Sample.town)
           ["alpha"; "beta"] []).
  - vm_compute. reflexivity.
  - exact Hrun.
Defined.

(** *** Health metrics *)

Section HealthAndCapacity.
Import GoStrings Proc Doltserver DoltHealth.

(** The two 80-per-cent tests, the one in floating point of the health
    metrics and the one on integers of the capacity check, agree on every
    count up to 1000 for the default limit. *)
Lemma pct_threshold_agree (c : Z) :
  0 <= c <= 1000 ->
  PrimFloat.leb (StepDrift.float64_of_int 80) (connectionPct c DefaultMaxConnections)
  = negb (c <? capacityThreshold DefaultMaxConnections).
Proof.
  intros Hc.
  assert (Hall : forallb (fun n =>
            Bool.eqb
              (PrimFloat.leb (StepDrift.float64_of_int 80)
                 (connectionPct (Z.of_nat n) DefaultMaxConnections))
              (negb (Z.of_nat n <? capacityThreshold DefaultMaxConnections)))
            (seq 0 1001) = true) by (vm_compute; reflexivity).
  rewrite forallb_forall in Hall.
  specialize (Hall (Z.to_nat c)). rewrite Z2Nat.id in Hall by lia.
  apply Bool.eqb_prop. apply Hall. apply in_seq. lia.
Qed.

End HealthAndCapacity.

(** X27.  The health metrics and the capacity check draw the same line:
    when the connection count is measured, and is between 0 and 1000,
    [GetHealthMetrics] marks the server unhealthy exactly when
    [HasConnectionCapacity], asked at the same moment, reports no capacity
    (40 connections or more of the default 50); its floating-point
    percentage test and the integer threshold agree. *)
Theorem GetHealthMetrics_agrees_with_capacity
    (run : Proc.Runner) (elapsed : Proc.Trace -> Z) (fmtF1 : float -> string)
    (fs : Doltserver.FS) (townRoot : string) (tr tr2 : Proc.Trace) (c : Z) :
  let tr1 := fst (DoltHealth.MeasureQueryLatency run elapsed townRoot tr) in
  Doltserver.GetActiveConnectionCount run townRoot tr1 = (tr2, (c, None)) ->
  0 <= c <= 1000 ->
  DoltHealth.Healthy (snd (DoltHealth.GetHealthMetrics run elapsed fmtF1 fs townRoot tr))
  = fst (fst (snd (Doltserver.HasConnectionCapacity run townRoot tr1))) /\
  DoltHealth.Healthy (snd (DoltHealth.GetHealthMetrics run elapsed fmtF1 fs townRoot tr))
  = (c <? 40).
Proof.
  intros tr1 Hcount Hc. subst tr1.
  rewrite HasConnectionCapacity_unfold.
  unfold DoltHealth.GetHealthMetrics.
  destruct (DoltHealth.MeasureQueryLatency run elapsed townRoot tr) as [tr1 [latency err1]].
  simpl fst in *. rewrite Hcount. simpl.
  change (Doltserver.DefaultMaxConnections <=? 0) with false. cbv iota.
  rewrite (pct_threshold_agree c Hc), negb_involutive.
  split; reflexivity.
Qed.

(** A run of X27 against a server that reports 40 connections. *)
Lemma GetHealthMetrics_agrees_with_capacity_witness :
  DoltHealth.Healthy
    (snd (DoltHealth.GetHealthMetrics (Sample.counting_run "40") (fun _ => 0)
            (fun _ => "") Sample.scenarioB_fs Sample.town []))
  = fst (fst (snd (Doltserver.HasConnectionCapacity (Sample.counting_run "40") Sample.town
                     (fst (DoltHealth.MeasureQueryLatency (Sample.counting_run "40")
                             (fun _ => 0) Sample.town []))))) /\
  DoltHealth.Healthy
    (snd (DoltHealth.GetHealthMetrics (Sample.counting_run "40") (fun _ => 0)
            (fun _ => "") Sample.scenarioB_fs Sample.town []))
  = (40 <? 40).
Proof.
  apply (GetHealthMetrics_agrees_with_capacity (Sample.counting_run "40") (fun _ => 0)
           (fun _ => "") Sample.scenarioB_fs Sample.town []
           (fst (Doltserver.GetActiveConnectionCount (Sample.counting_run "40") Sample.town
                   (fst (DoltHealth.MeasureQueryLatency (Sample.counting_run "40")
                           (fun _ => 0) Sample.town []))))
           40).
  - vm_compute. reflexivity.
  - lia.
Defined.
